(** * terraform-provider-lima: the resource managers, embedded and verified

    The provider translates declarative disk and instance records into
    invocations of the external [limactl] tool and reconciles the tool's
    line-delimited JSON listings back into persisted state.

    Layout of this development:
    - the parts of Go's standard library the handlers call
      ([utf8], [unicode], [strings], [fmt]'s [%d], the numbers of
      [math/big]); float formatting and
      [encoding/json] are taken through the interface [GoRuntime], and a
      concrete instance is given further down;
    - the host framework's attribute values ([types]) and the handler
      monad (diagnostics, response state, external commands, log);
    - [LimaDiskResource] and [LimaInstanceResource], handler by handler;
    - the properties. *)

From Stdlib Require Import String Ascii List ZArith NArith Bool Lia.
From Stdlib Require Import Floats.SpecFloat.
From Stdlib Require Import DecimalString.
From ExtLib Require Import Structures.Monad.
Import ListNotations.
Import MonadNotation.
Local Open Scope string_scope.
Local Open Scope monad_scope.
Set Warnings "-register-all".

(** ** Bytes and strings

    A Go string is a sequence of bytes; [string] (a list of [ascii], each
    8 bits) is exactly that. *)

Definition byte_val (c : ascii) : N := N_of_ascii c.

Definition of_byte (n : N) : ascii := ascii_of_N n.

Definition nl : string := String (of_byte 10) "".

Fixpoint drop (n : nat) (s : string) : string :=
  match n, s with
  | O, _ => s
  | S n', String _ s' => drop n' s'
  | S _, EmptyString => EmptyString
  end.

Definition take (n : nat) (s : string) : string := substring 0 n s.

Definition byte_at (i : nat) (s : string) : N :=
  match get i s with Some c => byte_val c | None => 0%N end.

(** ** [unicode/utf8] *)
Module utf8.

Definition RuneError : N := 65533%N.
Definition RuneSelf : N := 128%N.
Definition UTFMax : nat := 4.

Definition cont (b : N) : bool := ((128 <=? b) && (b <=? 191))%N.

Definition in_range (lo hi b : N) : bool := ((lo <=? b) && (b <=? hi))%N.

(** [first] and [acceptRanges]: for a lead byte, the size of the sequence
    and the range accepted for the second byte; [None] for a byte that
    starts no multi-byte sequence. *)
Definition lead (b : N) : option (nat * N * N) :=
  if in_range 194 223 b then Some (2%nat, 128%N, 191%N)
  else if (b =? 224)%N then Some (3%nat, 160%N, 191%N)
  else if in_range 225 236 b then Some (3%nat, 128%N, 191%N)
  else if (b =? 237)%N then Some (3%nat, 128%N, 159%N)
  else if in_range 238 239 b then Some (3%nat, 128%N, 191%N)
  else if (b =? 240)%N then Some (4%nat, 144%N, 191%N)
  else if in_range 241 243 b then Some (4%nat, 128%N, 191%N)
  else if (b =? 244)%N then Some (4%nat, 128%N, 143%N)
  else None.

(** [utf8.DecodeRuneInString]: the first rune of [s] and its width in
    bytes; [(RuneError, 0)] on the empty string and [(RuneError, 1)] on an
    encoding that is not valid. *)
Definition DecodeRuneInString (s : string) : N * nat :=
  match s with
  | EmptyString => (RuneError, 0)
  | String c0 s1 =>
    let b0 := byte_val c0 in
    if (b0 <? RuneSelf)%N then (b0, 1)
    else match lead b0 with
    | None => (RuneError, 1)
    | Some (sz, lo, hi) =>
      if (String.length s <? sz)%nat then (RuneError, 1)
      else
        let b1 := byte_at 1 s in
        if negb (in_range lo hi b1) then (RuneError, 1)
        else if (sz <=? 2)%nat then
          (N.lor (N.shiftl (N.land b0 31) 6) (N.land b1 63), 2)
        else
          let b2 := byte_at 2 s in
          if negb (cont b2) then (RuneError, 1)
          else if (sz <=? 3)%nat then
            (N.lor (N.lor (N.shiftl (N.land b0 15) 12)
                          (N.shiftl (N.land b1 63) 6))
                   (N.land b2 63), 3)
          else
            let b3 := byte_at 3 s in
            if negb (cont b3) then (RuneError, 1)
            else
              (N.lor (N.lor (N.lor (N.shiftl (N.land b0 7) 18)
                                   (N.shiftl (N.land b1 63) 12))
                            (N.shiftl (N.land b2 63) 6))
                     (N.land b3 63), 4)
    end
  end.

Definition RuneStart (b : N) : bool := negb (N.land b 192 =? 128)%N.

(** The loop of [DecodeLastRuneInString]: [start] walks down from
    [end - 2] to [lim], stopping at a byte that starts a rune; the result
    is where it stopped, [None] when it ran below index 0. *)
Fixpoint back_to_start (k : nat) (start lim : nat) (s : string) : option nat :=
  if (start <? lim)%nat then Some start
  else if RuneStart (byte_at start s) then Some start
  else
    match k, start with
    | S k', S start' => back_to_start k' start' lim s
    | _, O => None
    | O, _ => Some start
    end.

(** [utf8.DecodeLastRuneInString]. *)
Definition DecodeLastRuneInString (s : string) : N * nat :=
  let e := String.length s in
  match e with
  | O => (RuneError, 0)
  | S start =>
    let r := byte_at start s in
    if (r <? RuneSelf)%N then (r, 1)
    else
      let lim := e - UTFMax in
      let start' :=
        match start with
        | O => O
        | S st =>
          match back_to_start UTFMax st lim s with
          | Some i => i
          | None => O
          end
        end in
      let '(r', size) := DecodeRuneInString (drop start' s) in
      if negb (start' + size =? e)%nat then (RuneError, 1) else (r', size)
  end.

(** [utf8.AppendRune]: the UTF-8 encoding of a rune; a surrogate or a
    value above U+10FFFF is encoded as [RuneError]. *)
Definition EncodeRune (r : N) : string :=
  let r := if ((55296 <=? r) && (r <=? 57343) || (1114111 <? r))%N
           then RuneError else r in
  if (r <=? 127)%N then String (of_byte r) ""
  else if (r <=? 2047)%N then
    String (of_byte (N.lor 192 (N.shiftr r 6)))
      (String (of_byte (N.lor 128 (N.land r 63))) "")
  else if (r <=? 65535)%N then
    String (of_byte (N.lor 224 (N.shiftr r 12)))
      (String (of_byte (N.lor 128 (N.land (N.shiftr r 6) 63)))
         (String (of_byte (N.lor 128 (N.land r 63))) ""))
  else
    String (of_byte (N.lor 240 (N.shiftr r 18)))
      (String (of_byte (N.lor 128 (N.land (N.shiftr r 12) 63)))
         (String (of_byte (N.lor 128 (N.land (N.shiftr r 6) 63)))
            (String (of_byte (N.lor 128 (N.land r 63))) ""))).

End utf8.

(** ** [unicode] *)
Module unicode.

(** [unicode.IsSpace]: the Latin-1 spaces, then the other code points
    with the White_Space property. *)
Definition IsSpace (r : N) : bool :=
  (if r <=? 255 then
     (9 <=? r) && (r <=? 13) || (r =? 32) || (r =? 133) || (r =? 160)
   else
     (r =? 5760) || (8192 <=? r) && (r <=? 8202) || (r =? 8232)
     || (r =? 8233) || (r =? 8239) || (r =? 8287) || (r =? 12288))%N.

End unicode.

(** ** [strings] *)
Module strings.

(** [strings.HasPrefix(s, prefix)]. *)
Definition HasPrefix (s pre : string) : bool := String.prefix pre s.

(** [strings.HasSuffix(s, suffix)]:
    [len(s) >= len(suffix) && s[len(s)-len(suffix):] == suffix]. *)
Definition HasSuffix (s suf : string) : bool :=
  (String.length suf <=? String.length s)%nat
  && String.eqb (drop (String.length s - String.length suf) s) suf.

(** [strings.Join(elems, sep)]. *)
Definition Join (elems : list string) (sep : string) : string :=
  String.concat sep elems.

(** [strings.Split(s, sep)] for a separator of one byte (the handlers split
    on the newline only): the pieces between the separators, at least one
    piece, the empty string giving one empty piece. *)
Fixpoint Split (s : string) (sep : ascii) : list string :=
  match s with
  | EmptyString => [EmptyString]
  | String c s' =>
    if Ascii.eqb c sep then EmptyString :: Split s' sep
    else
      match Split s' sep with
      | piece :: pieces => String c piece :: pieces
      | [] => [String c EmptyString]
      end
  end.

(** [strings.TrimLeftFunc(s, unicode.IsSpace)]: runes are read as a
    [range] loop reads them. *)
Fixpoint TrimLeftSpace_from (fuel : nat) (s : string) : string :=
  match fuel with
  | O => s
  | S fuel' =>
    match s with
    | EmptyString => EmptyString
    | _ =>
      let '(r, size) := utf8.DecodeRuneInString s in
      if unicode.IsSpace r then TrimLeftSpace_from fuel' (drop size s) else s
    end
  end.

Definition TrimLeftSpace (s : string) : string :=
  TrimLeftSpace_from (String.length s) s.

(** [lastIndexFunc(s, unicode.IsSpace, false)]: the index at which the
    last rune that is no space starts, [None] for Go's -1. *)
Fixpoint lastIndexNotSpace (fuel i : nat) (s : string) : option nat :=
  match fuel with
  | O => None
  | S fuel' =>
    if (i =? 0)%nat then None
    else
      let '(r, size) := utf8.DecodeLastRuneInString (take i s) in
      let i' := i - size in
      if negb (unicode.IsSpace r) then Some i'
      else lastIndexNotSpace fuel' i' s
  end.

(** [strings.TrimRightFunc(s, unicode.IsSpace)]. *)
Definition TrimRightSpace (s : string) : string :=
  match lastIndexNotSpace (String.length s) (String.length s) s with
  | Some i =>
    if (utf8.RuneSelf <=? byte_at i s)%N then
      let '(_, wid) := utf8.DecodeRuneInString (drop i s) in take (i + wid) s
    else take (i + 1) s
  | None => take 0 s
  end.

(** [strings.TrimSpace(s)]: all leading and trailing white space removed,
    as defined by Unicode. Go's fast path over ASCII bytes computes the
    same slice as [TrimFunc(s, unicode.IsSpace)], which is what is written
    here. *)
Definition TrimSpace (s : string) : string :=
  TrimRightSpace (TrimLeftSpace s).

End strings.

(** ** [fmt]: the [%d] verb on an [int64]. *)
Module fmt.

Definition Sprint_d (n : Z) : string :=
  NilZero.string_of_int (Z.to_int n).

End fmt.

(** ** Values of the Go runtime *)

(** Go's [append(s, x)] and [append(s, xs...)]. *)
Definition append {A} (s : list A) (x : A) : list A := (s ++ [x])%list.
Definition append_all {A} (s xs : list A) : list A := (s ++ xs)%list.

(** [if c { s = append(s, x) }]. *)
Definition append_if {A} (c : bool) (s : list A) (x : A) : list A :=
  if c then append s x else s.

(** [float64]: an IEEE 754 binary64 value, in the canonical form that
    [binary_normalize 53 1024] gives, with [==] and [<] as [SFeqb] and
    [SFltb]. *)
Definition float64 : Type := spec_float.

(** [int64]; the handlers only print it. *)
Definition int64 : Type := Z.

(** ** [math/big]: the numbers that the framework stores

    A [types.Float64] does not hold a [float64]: it holds the number that
    Terraform sent, a [*big.Float] of up to 512 bits of mantissa, and
    rounds it to a [float64] when asked for one. *)
Module big.

(** [big.Float]: a zero, an infinity, or the number
    [(-1)^neg * mant * 2^exp]. A number has many such writings (the
    mantissa may end in zero bits); [Cmp] and [Float64] depend on the
    number only. *)
Inductive Float : Type :=
| zero (neg : bool)
| finite (neg : bool) (mant : positive) (exp : Z)
| inf (neg : bool).

(** The order of the numbers [m1 * 2^e1] and [m2 * 2^e2]: the mantissa
    of the larger exponent is shifted to the smaller exponent. *)
Definition cmp_abs (m1 : positive) (e1 : Z) (m2 : positive) (e2 : Z)
  : comparison :=
  match (e1 - e2)%Z with
  | Z0 => Pos.compare m1 m2
  | Zpos d => Pos.compare (Pos.shiftl m1 (Npos d)) m2
  | Zneg d => Pos.compare m1 (Pos.shiftl m2 (Npos d))
  end.

(** [x.Cmp(y)]: [Lt] for Go's -1, [Eq] for 0, [Gt] for +1. The two zeros
    are the same number. *)
Definition Cmp (x y : Float) : comparison :=
  match x, y with
  | zero _, zero _ => Eq
  | zero _, finite neg _ _ => if neg then Gt else Lt
  | zero _, inf neg => if neg then Gt else Lt
  | finite neg _ _, zero _ => if neg then Lt else Gt
  | inf neg, zero _ => if neg then Lt else Gt
  | inf neg, finite _ _ _ => if neg then Lt else Gt
  | finite _ _ _, inf neg => if neg then Gt else Lt
  | inf n1, inf n2 =>
    match n1, n2 with
    | true, false => Lt
    | false, true => Gt
    | _, _ => Eq
    end
  | finite n1 m1 e1, finite n2 m2 e2 =>
    match n1, n2 with
    | true, false => Lt
    | false, true => Gt
    | false, false => cmp_abs m1 e1 m2 e2
    | true, true => CompOpp (cmp_abs m1 e1 m2 e2)
    end
  end.

(** [x.Cmp(y) == 0]. *)
Definition eqb (x y : Float) : bool :=
  match Cmp x y with Eq => true | _ => false end.

(** The writing of [mant * 2^exp] whose mantissa is odd. *)
Fixpoint odd_mantissa (mant : positive) (exp : Z) : positive * Z :=
  match mant with
  | xO m => odd_mantissa m (exp + 1)
  | _ => (mant, exp)
  end.

(** [x.Float64()], without its accuracy: the [float64] nearest to the
    number, ties to even, an infinity past the largest [float64] and a
    zero below half the smallest one. It is the rounding of the number,
    taken here from its writing with an odd mantissa. *)
Definition Float64 (x : Float) : float64 :=
  match x with
  | zero neg => S754_zero neg
  | inf neg => S754_infinity neg
  | finite neg mant exp =>
    let '(m, e) := odd_mantissa mant exp in
    binary_normalize 53 1024 (if neg then Zneg m else Zpos m) e neg
  end.

(** [new(big.Float).SetInt64(n)]. *)
Definition SetInt64 (n : Z) : Float :=
  match n with
  | Z0 => zero false
  | Zpos p => finite false p 0
  | Zneg p => finite true p 0
  end.

End big.

(** A Go [(value, error)] pair: [Ok v] when the error is nil, otherwise
    the text of the error ([err.Error()], what [%s] prints). *)
Inductive result (A : Type) : Type :=
| Ok (v : A)
| Err (e : string).
Arguments Ok {A} v.
Arguments Err {A} e.

(** The element type [diskJSON] of the array that Create marshals. *)
Record diskJSON : Type := { dj_Name : string; dj_MountPoint : string }.

(** What the handlers take from Go's [fmt] and [encoding/json]:
    - [fmt_g x] is [fmt.Sprintf("%g", x)];
    - [json_Unmarshal_name line] is [json.Unmarshal([]byte(line), &v)] for
      [v] of type [struct { Name string `json:"name"` }] (a zero value
      when the call starts): the error, or [v.Name];
    - [json_Valid] is [json.Valid]; [Unmarshal] checks validity first and
      returns a syntax error on data that is not valid JSON;
    - [json_Marshal_disks] is [json.Marshal] on a [[]diskJSON]. *)
Class GoRuntime : Type := {
  fmt_g : float64 -> string;
  json_Valid : string -> bool;
  json_Unmarshal_name : string -> result string;
  json_Unmarshal_invalid :
    forall data, json_Valid data = false ->
                 exists e, json_Unmarshal_name data = Err e;
  json_Marshal_disks : list diskJSON -> result string
}.

(** ** The framework's attribute values ([types]) *)
Module types.

(** A value is null, unknown or known; the zero value is null. *)
Inductive Value (A : Type) : Type :=
| Null
| Unknown
| Known (v : A).
Arguments Null {A}.
Arguments Unknown {A}.
Arguments Known {A} v.

Abbreviation StringValue := (Value string).
Abbreviation Int64Value := (Value int64).
(** A [Float64Value] holds the number as stored, a [*big.Float]. *)
Abbreviation Float64Value := (Value big.Float).
Abbreviation BoolValue := (Value bool).
(** A list value holds attribute values of its element type. *)
Abbreviation ListValue E := (Value (list E)).

Definition IsNull {A} (x : Value A) : bool :=
  match x with Null => true | _ => false end.

(** [ValueString], [ValueInt64], [ValueFloat64], [ValueBool]: the known
    value, or the zero value of the Go type when null or unknown.
    [ValueFloat64] rounds the stored number to a [float64]. *)
Definition ValueString (x : StringValue) : string :=
  match x with Known v => v | _ => "" end.
Definition ValueInt64 (x : Int64Value) : int64 :=
  match x with Known v => v | _ => 0%Z end.
Definition ValueFloat64 (x : Float64Value) : float64 :=
  match x with Known v => big.Float64 v | _ => S754_zero false end.
Definition ValueBool (x : BoolValue) : bool :=
  match x with Known v => v | _ => false end.

(** [Equal]: the same state and, when known, the same value. *)
Definition Equal {A} (eqb : A -> A -> bool) (x y : Value A) : bool :=
  match x, y with
  | Null, Null => true
  | Unknown, Unknown => true
  | Known a, Known b => eqb a b
  | _, _ => false
  end.

Definition String_Equal : StringValue -> StringValue -> bool := Equal String.eqb.
Definition Int64_Equal : Int64Value -> Int64Value -> bool := Equal Z.eqb.
(** [Float64Value.Equal] compares the stored numbers with [Cmp], not
    their roundings. *)
Definition Float64_Equal : Float64Value -> Float64Value -> bool := Equal big.eqb.
Definition Bool_Equal : BoolValue -> BoolValue -> bool := Equal Bool.eqb.

Fixpoint elements_Equal {E} (eqb : E -> E -> bool) (l1 l2 : list E) : bool :=
  match l1, l2 with
  | [], [] => true
  | x :: l1', y :: l2' => eqb x y && elements_Equal eqb l1' l2'
  | _, _ => false
  end.

(** [ListValue.Equal]: the same state, the same length, and elements that
    are pairwise [Equal]. *)
Definition List_Equal {E} (eqb : E -> E -> bool)
  : ListValue E -> ListValue E -> bool :=
  Equal (elements_Equal eqb).

(** [Elements()]: the elements, none when null or unknown. *)
Definition Elements {E} (l : ListValue E) : list E :=
  match l with Known els => els | _ => [] end.

(** A diagnostic of the response. [ErrorDiagnostic] is what [AddError]
    appends; [ValueConversionError] is the error the framework reports
    when [ElementsAs] meets a null or unknown element (its text belongs to
    the framework). *)
Inductive Diagnostic : Type :=
| ErrorDiagnostic (summary detail : string)
| ValueConversionError.

Definition HasError (ds : list Diagnostic) : bool :=
  existsb (fun d => match d with
                    | ErrorDiagnostic _ _ => true
                    | ValueConversionError => true
                    end) ds.

Fixpoint known_elements {A} (els : list (Value A)) : option (list A) :=
  match els with
  | [] => Some []
  | Known v :: els' =>
    match known_elements els' with
    | Some vs => Some (v :: vs)
    | None => None
    end
  | _ :: _ => None
  end.

(** [ElementsAs(ctx, &target, false)] into a slice of a Go type with no
    null or unknown (a [string], a struct): the converted elements and no
    diagnostic, or an error diagnostic and the target left nil. The
    handlers call it on known lists only. *)
Definition ElementsAs {A} (l : ListValue (Value A)) : list A * list Diagnostic :=
  match l with
  | Known els =>
    match known_elements els with
    | Some vs => (vs, [])
    | None => ([], [ValueConversionError])
    end
  | Null => ([], [])
  | Unknown => ([], [ValueConversionError])
  end.

End types.
Import types.

(** ** The host: the [limactl] binary and the log *)

(** What [cmd.CombinedOutput()] returns: the combined standard output and
    standard error, and the error (nil on exit status 0). *)
Record CmdResult : Type := { output : string; err : option string }.

(** The machine the provider runs on: [limactl w args] is what running
    [limactl args...] returns in the world [w], and the world after it. *)
Class Host : Type := {
  World : Type;
  limactl : World -> list string -> CmdResult * World
}.

(** [tflog] levels. *)
Inductive Level : Type := LvlTrace | LvlDebug | LvlWarn | LvlError.

(** A field of a log entry ([map[string]any]). *)
Inductive FieldValue : Type :=
| FString (s : string)
| FFloat64 (x : float64).

(** What a handler does that can be seen from outside, in order. *)
Inductive Event : Type :=
| Exec (args : list string) (res : CmdResult)
| Log (lvl : Level) (msg : string) (fields : list (string * FieldValue)).

(** The commands of a trace, in order. *)
Fixpoint commands (tr : list Event) : list (list string) :=
  match tr with
  | [] => []
  | Exec args _ :: tr' => args :: commands tr'
  | Log _ _ _ :: tr' => commands tr'
  end.

(** The log entries of a trace at a level, in order. *)
Fixpoint logged (lvl : Level) (tr : list Event) : list string :=
  match tr with
  | [] => []
  | Log l msg _ :: tr' =>
    match l, lvl with
    | LvlTrace, LvlTrace | LvlDebug, LvlDebug
    | LvlWarn, LvlWarn | LvlError, LvlError => msg :: logged lvl tr'
    | _, _ => logged lvl tr'
    end
  | Exec _ _ :: tr' => logged lvl tr'
  end.

(** ** The handler monad

    A handler runs against the response it fills in: the diagnostics, the
    state to persist ([None] once removed, or when there is none), and
    with them the world and the trace of what was done. A computation
    yields [None] when the Go function has returned. *)
Section HandlerMonad.
Context {host : Host} {Model : Type}.

Record Response : Type := {
  world : World;
  trace : list Event;
  Diagnostics : list Diagnostic;
  State : option Model
}.

Definition Handler (A : Type) : Type := Response -> option A * Response.

Definition Handler_ret {A} (a : A) : Handler A := fun r => (Some a, r).

Definition Handler_bind {A B} (m : Handler A) (k : A -> Handler B) : Handler B :=
  fun r =>
    match m r with
    | (Some a, r') => k a r'
    | (None, r') => (None, r')
    end.

#[global] Instance Monad_Handler : Monad Handler :=
  {| ret := @Handler_ret; bind := @Handler_bind |}.

(** Go's bare [return]. *)
Definition Return {A} : Handler A := fun r => (None, r).

Definition when_ (b : bool) (h : Handler unit) : Handler unit :=
  if b then h else ret tt.

(** [resp.Diagnostics.Append(ds...)]. *)
Definition Diagnostics_Append (ds : list Diagnostic) : Handler unit :=
  fun r => (Some tt, {| world := world r; trace := trace r;
                        Diagnostics := (Diagnostics r ++ ds)%list;
                        State := State r |}).

(** [resp.Diagnostics.AddError(summary, detail)]. *)
Definition Diagnostics_AddError (summary detail : string) : Handler unit :=
  Diagnostics_Append [ErrorDiagnostic summary detail].

(** [resp.Diagnostics.HasError()]. *)
Definition Diagnostics_HasError : Handler bool :=
  fun r => (Some (HasError (Diagnostics r)), r).

(** [resp.State.Set(ctx, &data)]; it reports nothing on a model of the
    resource's own schema. *)
Definition State_Set (data : Model) : Handler (list Diagnostic) :=
  fun r => (Some [], {| world := world r; trace := trace r;
                        Diagnostics := Diagnostics r;
                        State := Some data |}).

(** [resp.State.RemoveResource(ctx)]. *)
Definition State_RemoveResource : Handler unit :=
  fun r => (Some tt, {| world := world r; trace := trace r;
                        Diagnostics := Diagnostics r;
                        State := None |}).

(** [resp.State.SetAttribute(ctx, path, value)] for an attribute of the
    schema and a value of its type: the attribute is set in the state; a
    state that is null (the state an import starts from) becomes the
    object [null] with the attribute set, its other attributes null. It
    reports nothing. *)
Definition State_SetAttribute (null : Model) (set : Model -> Model)
  : Handler (list Diagnostic) :=
  fun r => (Some [], {| world := world r; trace := trace r;
                        Diagnostics := Diagnostics r;
                        State := Some (set (match State r with
                                            | Some m => m
                                            | None => null
                                            end)) |}).

(** [resource.ImportStatePassthroughID(ctx, attrPath, req, resp)] for a
    path that is not empty: when [req.ID] is not the empty string, the
    attribute at the path is set to it and the diagnostics of that are
    appended; an empty [req.ID] sets nothing. *)
Definition ImportStatePassthroughID (null : Model) (set : Model -> Model)
           (req_ID : string) : Handler unit :=
  if negb (String.eqb req_ID "") then
    ds <- State_SetAttribute null set ;;
    Diagnostics_Append ds
  else ret tt.

(** [exec.CommandContext(ctx, "limactl", args...).CombinedOutput()]. *)
Definition CombinedOutput (args : list string) : Handler CmdResult :=
  fun r =>
    let '(res, w') := limactl (world r) args in
    (Some res, {| world := w'; trace := append (trace r) (Exec args res);
                  Diagnostics := Diagnostics r; State := State r |}).

(** [tflog.Trace], [tflog.Debug], [tflog.Warn], [tflog.Error]. *)
Definition tflog (lvl : Level) (msg : string)
           (fields : list (string * FieldValue)) : Handler unit :=
  fun r => (Some tt, {| world := world r;
                        trace := append (trace r) (Log lvl msg fields);
                        Diagnostics := Diagnostics r; State := State r |}).

(** [req.Plan.Get(ctx, &data)] and [req.State.Get(ctx, &data)]: every
    field of the models is a framework value type, which holds null and
    unknown as well, so decoding into the model reports nothing. *)
Definition Get (m : Model) : Model * list Diagnostic := (m, []).

(** The response a handler starts from: nothing reported, nothing done yet,
    and the state the framework put in [resp.State]. *)
Definition response (w : World) (st : option Model) : Response :=
  {| world := w; trace := []; Diagnostics := []; State := st |}.

(** Running a handler: the response when the Go function has returned. *)
Definition run (h : Handler unit) (r : Response) : Response := snd (h r).

(** The idiom
    [var xs []T; resp.Diagnostics.Append(l.ElementsAs(ctx, &xs, false)...);
     if resp.Diagnostics.HasError() { return }]. *)
Definition ElementsAs_or_return {A} (l : ListValue (Value A)) : Handler (list A) :=
  let '(xs, ds) := ElementsAs l in
  Diagnostics_Append ds ;;
  has <- Diagnostics_HasError ;;
  if has then Return else ret xs.

End HandlerMonad.
Arguments Response {host} Model.
Arguments Handler {host} Model A.

(** The detail of a command failure:
    ["Command: limactl %s\nError: %s\nOutput: %s"]. *)
Definition command_failure (cmdline e out : string) : string :=
  "Command: limactl " ++ cmdline ++ nl ++ "Error: " ++ e ++ nl
  ++ "Output: " ++ out.

(** * The disk resource ([lima_disk_resource.go]) *)
Module LimaDiskResource.

(** [LimaDiskResourceModel]. *)
Record LimaDiskResourceModel : Type := {
  Name : StringValue;
  Size : Float64Value;
  Format : StringValue;
  Id : StringValue
}.

Definition set_Id (data : LimaDiskResourceModel) (id : StringValue)
  : LimaDiskResourceModel :=
  {| Name := Name data; Size := Size data; Format := Format data; Id := id |}.

(** The schema's default for [format] ([stringdefault.StaticString]); the
    framework puts it in the plan when the configuration leaves the
    attribute out. *)
Definition Format_default : string := "qcow2".

Definition set_Name (data : LimaDiskResourceModel) (name : StringValue)
  : LimaDiskResourceModel :=
  {| Name := name; Size := Size data; Format := Format data; Id := Id data |}.

(** The record whose attributes are all null. *)
Definition null_model : LimaDiskResourceModel :=
  {| Name := Null; Size := Null; Format := Null; Id := Null |}.

(** [func (r *LimaDiskResource) Metadata]: the type name it puts in the
    response. *)
Definition Metadata (req_ProviderTypeName : string) : string :=
  req_ProviderTypeName ++ "_disk".

Section Handlers.
Context {host : Host} {go : GoRuntime}.

Local Abbreviation H := (Handler LimaDiskResourceModel).

(** [func (r *LimaDiskResource) Create]. *)
Definition Create (req_Plan : LimaDiskResourceModel) : H unit :=
  let '(data, ds) := Get req_Plan in
  Diagnostics_Append ds ;;
  has <- Diagnostics_HasError ;;
  when_ has Return ;;
  let args := ["disk"; "create"; ValueString (Name data)] in
  let args := append args ("--size=" ++ fmt_g (ValueFloat64 (Size data)) ++ "G") in
  let args :=
    append_if (negb (IsNull (Format data)))
              args ("--format=" ++ ValueString (Format data)) in
  let args := append args "--tty=false" in
  tflog LvlDebug "Creating Lima disk"
        [("command", FString ("limactl " ++ strings.Join args " "))] ;;
  res <- CombinedOutput args ;;
  match err res with
  | Some e =>
    Diagnostics_AddError "Failed to create Lima disk"
      (command_failure (strings.Join args " ") e (output res)) ;;
    Return
  | None =>
    tflog LvlTrace "Created Lima disk"
          [("name", FString (ValueString (Name data)))] ;;
    let data := set_Id data (Name data) in
    ds <- State_Set data ;;
    Diagnostics_Append ds
  end.

(** The loop of Read over the lines of the listing: [Some true] when a
    line's name is the record's ([found = true; break]), [Some false] when
    the lines ran out; a line that fails to parse adds the error and
    returns from Read. *)
Fixpoint Read_lines (name : string) (lines : list string) : H bool :=
  match lines with
  | [] => ret false
  | line :: lines' =>
    if String.eqb line "" then Read_lines name lines'
    else
      match json_Unmarshal_name line with
      | Err e =>
        Diagnostics_AddError "Failed to parse disk list JSON"
          ("Error: " ++ e ++ nl ++ "Line: " ++ line) ;;
        Return
      | Ok disk_Name =>
        if String.eqb disk_Name name then ret true
        else Read_lines name lines'
      end
  end.

(** [func (r *LimaDiskResource) Read]. *)
Definition Read (req_State : LimaDiskResourceModel) : H unit :=
  let '(data, ds) := Get req_State in
  Diagnostics_Append ds ;;
  has <- Diagnostics_HasError ;;
  when_ has Return ;;
  res <- CombinedOutput ["disk"; "list"; "--json"] ;;
  match err res with
  | Some e =>
    Diagnostics_AddError "Failed to list Lima disks"
      ("Error: " ++ e ++ nl ++ "Output: " ++ output res) ;;
    Return
  | None =>
    let lines := strings.Split (strings.TrimSpace (output res)) (of_byte 10) in
    found <- Read_lines (ValueString (Name data)) lines ;;
    if negb found then
      State_RemoveResource ;;
      Return
    else
      ds <- State_Set data ;;
      Diagnostics_Append ds
  end.

(** [func (r *LimaDiskResource) Update]. *)
Definition Update (req_Plan req_State : LimaDiskResourceModel) : H unit :=
  let '(plan, ds) := Get req_Plan in
  Diagnostics_Append ds ;;
  let '(state, ds) := Get req_State in
  Diagnostics_Append ds ;;
  has <- Diagnostics_HasError ;;
  when_ has Return ;;
  (if negb (Float64_Equal (Size plan) (Size state)) then
     (if SFltb (ValueFloat64 (Size plan)) (ValueFloat64 (Size state)) then
        Diagnostics_AddError "Cannot decrease disk size"
          ("Disk size can only be increased. Current size: "
           ++ fmt_g (ValueFloat64 (Size state)) ++ "G, requested size: "
           ++ fmt_g (ValueFloat64 (Size plan)) ++ "G") ;;
        Return
      else ret tt) ;;
     tflog LvlDebug "Resizing Lima disk"
           [("name", FString (ValueString (Name plan)));
            ("old_size", FFloat64 (ValueFloat64 (Size state)));
            ("new_size", FFloat64 (ValueFloat64 (Size plan)))] ;;
     let args := ["disk"; "resize"; ValueString (Name plan)] in
     let args := append args ("--size=" ++ fmt_g (ValueFloat64 (Size plan)) ++ "G") in
     let args := append args "--tty=false" in
     res <- CombinedOutput args ;;
     match err res with
     | Some e =>
       Diagnostics_AddError "Failed to resize Lima disk"
         (command_failure (strings.Join args " ") e (output res)) ;;
       Return
     | None =>
       tflog LvlTrace "Resized Lima disk"
             [("name", FString (ValueString (Name plan)));
              ("size", FFloat64 (ValueFloat64 (Size plan)))]
     end
   else ret tt) ;;
  ds <- State_Set plan ;;
  Diagnostics_Append ds.

(** [func (r *LimaDiskResource) Delete]. *)
Definition Delete (req_State : LimaDiskResourceModel) : H unit :=
  let '(data, ds) := Get req_State in
  Diagnostics_Append ds ;;
  has <- Diagnostics_HasError ;;
  when_ has Return ;;
  tflog LvlDebug "Deleting Lima disk"
        [("name", FString (ValueString (Name data)))] ;;
  res <- CombinedOutput ["disk"; "delete"; ValueString (Name data)] ;;
  match err res with
  | Some e =>
    Diagnostics_AddError "Failed to delete Lima disk"
      (command_failure ("disk delete " ++ ValueString (Name data)) e (output res)) ;;
    Return
  | None =>
    tflog LvlTrace "Deleted Lima disk"
          [("name", FString (ValueString (Name data)))]
  end.

(** [func (r *LimaDiskResource) ImportState]: the import identifier goes
    to [name] when it is not empty, then to [id]. *)
Definition ImportState (req_ID : string) : H unit :=
  ImportStatePassthroughID null_model (fun m => set_Name m (Known req_ID))
                           req_ID ;;
  ds <- State_SetAttribute null_model (fun m => set_Id m (Known req_ID)) ;;
  Diagnostics_Append ds.

End Handlers.
End LimaDiskResource.

(** * The instance resource *)
Module LimaInstanceResource.

(** [DisksModel]: an attached disk. *)
Record DisksModel : Type := {
  dm_Name : StringValue;
  dm_MountPoint : StringValue
}.

(** [LimaInstanceResourceModel]. *)
Record LimaInstanceResourceModel : Type := {
  Name : StringValue;
  Template : StringValue;
  Arch : StringValue;
  Containerd : StringValue;
  Cpus : Int64Value;
  Disk : Float64Value;
  Memory : Float64Value;
  DNS : ListValue StringValue;
  Mount : ListValue StringValue;
  MountInotify : BoolValue;
  MountNone : BoolValue;
  MountType : StringValue;
  MountWritable : BoolValue;
  Network : ListValue StringValue;
  Plain : BoolValue;
  Rosetta : BoolValue;
  Video : BoolValue;
  VmType : StringValue;
  Disks : ListValue (Value DisksModel);
  Id : StringValue
}.

Definition set_Id (data : LimaInstanceResourceModel) (id : StringValue)
  : LimaInstanceResourceModel :=
  {| Name := Name data; Template := Template data; Arch := Arch data;
     Containerd := Containerd data; Cpus := Cpus data; Disk := Disk data;
     Memory := Memory data; DNS := DNS data; Mount := Mount data;
     MountInotify := MountInotify data; MountNone := MountNone data;
     MountType := MountType data; MountWritable := MountWritable data;
     Network := Network data; Plain := Plain data; Rosetta := Rosetta data;
     Video := Video data; VmType := VmType data; Disks := Disks data;
     Id := id |}.

Definition set_Name (data : LimaInstanceResourceModel) (name : StringValue)
  : LimaInstanceResourceModel :=
  {| Name := name; Template := Template data; Arch := Arch data;
     Containerd := Containerd data; Cpus := Cpus data; Disk := Disk data;
     Memory := Memory data; DNS := DNS data; Mount := Mount data;
     MountInotify := MountInotify data; MountNone := MountNone data;
     MountType := MountType data; MountWritable := MountWritable data;
     Network := Network data; Plain := Plain data; Rosetta := Rosetta data;
     Video := Video data; VmType := VmType data; Disks := Disks data;
     Id := Id data |}.

(** The record whose attributes are all null. *)
Definition null_model : LimaInstanceResourceModel :=
  {| Name := Null; Template := Null; Arch := Null; Containerd := Null;
     Cpus := Null; Disk := Null; Memory := Null; DNS := Null; Mount := Null;
     MountInotify := Null; MountNone := Null; MountType := Null;
     MountWritable := Null; Network := Null; Plain := Null; Rosetta := Null;
     Video := Null; VmType := Null; Disks := Null; Id := Null |}.

(** [func (r *LimaInstanceResource) Metadata]: the type name it puts in
    the response. *)
Definition Metadata (req_ProviderTypeName : string) : string :=
  req_ProviderTypeName ++ "_instance".

Definition StringList_Equal : ListValue StringValue -> ListValue StringValue -> bool :=
  List_Equal String_Equal.

(** [for _, x := range xs { args = append(args, flag+x) }]. *)
Definition append_flags (args : list string) (flag : string) (xs : list string)
  : list string :=
  append_all args (map (fun x => flag ++ x) xs).

Section Handlers.
Context {host : Host} {go : GoRuntime}.

Local Abbreviation H := (Handler LimaInstanceResourceModel).

(** Create, from [args := []string{"create"}] to the template argument:
    the argument list of the creation command. A list that does not
    convert, or a marshalling error, returns from Create. *)
Definition Create_args (data : LimaInstanceResourceModel) : H (list string) :=
  let args := ["create"] in
  let args :=
    append_if (negb (IsNull (Name data)))
              args ("--name=" ++ ValueString (Name data)) in
  let args :=
    append_if (negb (IsNull (Arch data)))
              args ("--arch=" ++ ValueString (Arch data)) in
  let args :=
    append_if (negb (IsNull (Containerd data)))
              args ("--containerd=" ++ ValueString (Containerd data)) in
  let args :=
    append_if (negb (IsNull (Cpus data)))
              args ("--cpus=" ++ fmt.Sprint_d (ValueInt64 (Cpus data))) in
  let args :=
    append_if (negb (IsNull (Disk data)))
              args ("--disk=" ++ fmt_g (ValueFloat64 (Disk data))) in
  let args :=
    append_if (negb (IsNull (Memory data)))
              args ("--memory=" ++ fmt_g (ValueFloat64 (Memory data))) in
  args <-
    (if negb (IsNull (DNS data)) && (0 <? length (Elements (DNS data)))%nat then
       dnsServers <- ElementsAs_or_return (DNS data) ;;
       ret (append_flags args "--dns=" dnsServers)
     else ret args) ;;
  args <-
    (if negb (IsNull (Mount data)) && (0 <? length (Elements (Mount data)))%nat then
       mounts <- ElementsAs_or_return (Mount data) ;;
       ret (append_flags args "--mount=" mounts)
     else ret args) ;;
  let args :=
    append_if (ValueBool (MountInotify data))
              args "--mount-inotify" in
  let args := append_if (ValueBool (MountNone data)) args "--mount-none" in
  let args :=
    append_if (negb (IsNull (MountType data)))
              args ("--mount-type=" ++ ValueString (MountType data)) in
  let args :=
    append_if (ValueBool (MountWritable data))
              args "--mount-writable" in
  args <-
    (if negb (IsNull (Network data)) && (0 <? length (Elements (Network data)))%nat then
       networks <- ElementsAs_or_return (Network data) ;;
       ret (append_flags args "--network=" networks)
     else ret args) ;;
  let args := append_if (ValueBool (Plain data)) args "--plain" in
  let args := append_if (ValueBool (Rosetta data)) args "--rosetta" in
  let args := append_if (ValueBool (Video data)) args "--video" in
  let args :=
    append_if (negb (IsNull (VmType data)))
              args ("--vm-type=" ++ ValueString (VmType data)) in
  args <-
    (if negb (IsNull (Disks data)) && (0 <? length (Elements (Disks data)))%nat then
       disks <- ElementsAs_or_return (Disks data) ;;
       let diskArray :=
         map (fun disk => {| dj_Name := ValueString (dm_Name disk);
                             dj_MountPoint := ValueString (dm_MountPoint disk) |})
             disks in
       match json_Marshal_disks diskArray with
       | Err e =>
         Diagnostics_AddError "Failed to marshal additional disks"
                              ("Error: " ++ e) ;;
         Return
       | Ok diskJSONBytes =>
         ret (append args ("--set=.additionalDisks=" ++ diskJSONBytes))
       end
     else ret args) ;;
  let args := append args "--tty=false" in
  let args :=
    if negb (IsNull (Template data)) then
      let template := ValueString (Template data) in
      let template :=
        if negb (strings.HasPrefix template "http")
           && negb (strings.HasSuffix template ".yaml")
        then "template://" ++ template
        else template in
      append args template
    else args in
  ret args.

(** [func (r *LimaInstanceResource) Create]. *)
Definition Create (req_Plan : LimaInstanceResourceModel) : H unit :=
  let '(data, ds) := Get req_Plan in
  Diagnostics_Append ds ;;
  has <- Diagnostics_HasError ;;
  when_ has Return ;;
  args <- Create_args data ;;
  tflog LvlDebug "Creating Lima instance"
        [("command", FString ("limactl " ++ strings.Join args " "))] ;;
  res <- CombinedOutput args ;;
  match err res with
  | Some e =>
    Diagnostics_AddError "Failed to create Lima instance"
      (command_failure (strings.Join args " ") e (output res)) ;;
    Return
  | None =>
    tflog LvlTrace "Created Lima instance"
          [("name", FString (ValueString (Name data)))] ;;
    tflog LvlDebug "Starting Lima instance"
          [("name", FString (ValueString (Name data)))] ;;
    startRes <- CombinedOutput ["start"; ValueString (Name data)] ;;
    match err startRes with
    | Some startErr =>
      tflog LvlWarn "Start failed, cleaning up created instance"
            [("name", FString (ValueString (Name data)))] ;;
      deleteRes <- CombinedOutput ["delete"; ValueString (Name data)] ;;
      match err deleteRes with
      | Some deleteErr =>
        tflog LvlError "Failed to clean up instance after start failure"
              [("name", FString (ValueString (Name data)));
               ("error", FString deleteErr);
               ("output", FString (output deleteRes))]
      | None => ret tt
      end ;;
      Diagnostics_AddError "Failed to start Lima instance"
        (command_failure ("start " ++ ValueString (Name data))
                         startErr (output startRes)) ;;
      Return
    | None =>
      tflog LvlTrace "Started Lima instance"
            [("name", FString (ValueString (Name data)))] ;;
      let data := set_Id data (Name data) in
      ds <- State_Set data ;;
      Diagnostics_Append ds
    end
  end.

(** The loop of Read over the lines of the listing (as the disk
    resource's, with its own summary). *)
Fixpoint Read_lines (name : string) (lines : list string) : H bool :=
  match lines with
  | [] => ret false
  | line :: lines' =>
    if String.eqb line "" then Read_lines name lines'
    else
      match json_Unmarshal_name line with
      | Err e =>
        Diagnostics_AddError "Failed to parse instance list JSON"
          ("Error: " ++ e ++ nl ++ "Line: " ++ line) ;;
        Return
      | Ok instance_Name =>
        if String.eqb instance_Name name then ret true
        else Read_lines name lines'
      end
  end.

(** [func (r *LimaInstanceResource) Read]. *)
Definition Read (req_State : LimaInstanceResourceModel) : H unit :=
  let '(data, ds) := Get req_State in
  Diagnostics_Append ds ;;
  has <- Diagnostics_HasError ;;
  when_ has Return ;;
  res <- CombinedOutput ["list"; "--json"] ;;
  match err res with
  | Some e =>
    Diagnostics_AddError "Failed to list Lima instances"
      ("Error: " ++ e ++ nl ++ "Output: " ++ output res) ;;
    Return
  | None =>
    let lines := strings.Split (strings.TrimSpace (output res)) (of_byte 10) in
    found <- Read_lines (ValueString (Name data)) lines ;;
    if negb found then
      State_RemoveResource ;;
      Return
    else
      ds <- State_Set data ;;
      Diagnostics_Append ds
  end.

(** Update, from [args := []string{"edit", name}] to the [--video] flag:
    the argument list of the edit command, holding a flag for each changed
    attribute that [limactl edit] supports. A changed list that does not
    convert returns from Update. *)
Definition Update_args (plan state : LimaInstanceResourceModel) : H (list string) :=
  let args := ["edit"; ValueString (Name plan)] in
  let args :=
    append_if (negb (IsNull (Cpus plan))
               && negb (Int64_Equal (Cpus plan) (Cpus state)))
              args ("--cpus=" ++ fmt.Sprint_d (ValueInt64 (Cpus plan))) in
  let args :=
    append_if (negb (IsNull (Disk plan))
               && negb (Float64_Equal (Disk plan) (Disk state)))
              args ("--disk=" ++ fmt_g (ValueFloat64 (Disk plan))) in
  let args :=
    append_if (negb (IsNull (Memory plan))
               && negb (Float64_Equal (Memory plan) (Memory state)))
              args ("--memory=" ++ fmt_g (ValueFloat64 (Memory plan))) in
  args <-
    (if negb (StringList_Equal (DNS plan) (DNS state)) then
       if negb (IsNull (DNS plan)) && (0 <? length (Elements (DNS plan)))%nat then
         dnsServers <- ElementsAs_or_return (DNS plan) ;;
         ret (append_flags args "--dns=" dnsServers)
       else ret args
     else ret args) ;;
  args <-
    (if negb (StringList_Equal (Mount plan) (Mount state)) then
       if negb (IsNull (Mount plan)) && (0 <? length (Elements (Mount plan)))%nat then
         mounts <- ElementsAs_or_return (Mount plan) ;;
         ret (append_flags args "--mount=" mounts)
       else ret args
     else ret args) ;;
  let args :=
    append_if (negb (Bool_Equal (MountInotify plan) (MountInotify state))
               && ValueBool (MountInotify plan))
              args "--mount-inotify" in
  let args :=
    append_if (negb (IsNull (MountType plan))
               && negb (String_Equal (MountType plan) (MountType state)))
              args ("--mount-type=" ++ ValueString (MountType plan)) in
  let args :=
    append_if (negb (Bool_Equal (MountWritable plan) (MountWritable state))
               && ValueBool (MountWritable plan))
              args "--mount-writable" in
  args <-
    (if negb (StringList_Equal (Network plan) (Network state)) then
       if negb (IsNull (Network plan)) && (0 <? length (Elements (Network plan)))%nat then
         networks <- ElementsAs_or_return (Network plan) ;;
         ret (append_flags args "--network=" networks)
       else ret args
     else ret args) ;;
  let args :=
    append_if (negb (Bool_Equal (Rosetta plan) (Rosetta state))
               && ValueBool (Rosetta plan))
              args "--rosetta" in
  let args :=
    append_if (negb (Bool_Equal (Video plan) (Video state))
               && ValueBool (Video plan))
              args "--video" in
  ret args.

(** [func (r *LimaInstanceResource) Update]. *)
Definition Update (req_Plan req_State : LimaInstanceResourceModel) : H unit :=
  let '(plan, ds) := Get req_Plan in
  Diagnostics_Append ds ;;
  let '(state, ds) := Get req_State in
  Diagnostics_Append ds ;;
  has <- Diagnostics_HasError ;;
  when_ has Return ;;
  args <- Update_args plan state ;;
  (if (2 <? length args)%nat then
     tflog LvlDebug "Editing Lima instance"
           [("command", FString ("limactl " ++ strings.Join args " "))] ;;
     tflog LvlDebug "Stopping Lima instance for edit"
           [("name", FString (ValueString (Name plan)))] ;;
     stopRes <- CombinedOutput ["stop"; ValueString (Name plan)] ;;
     match err stopRes with
     | Some stopErr =>
       Diagnostics_AddError "Failed to stop Lima instance for edit"
         (command_failure ("stop " ++ ValueString (Name plan))
                          stopErr (output stopRes)) ;;
       Return
     | None => ret tt
     end ;;
     res <- CombinedOutput args ;;
     match err res with
     | Some e =>
       Diagnostics_AddError "Failed to edit Lima instance"
         (command_failure (strings.Join args " ") e (output res)) ;;
       Return
     | None => ret tt
     end ;;
     tflog LvlTrace "Edited Lima instance"
           [("name", FString (ValueString (Name plan)))] ;;
     tflog LvlDebug "Starting Lima instance after edit"
           [("name", FString (ValueString (Name plan)))] ;;
     startRes <- CombinedOutput ["start"; ValueString (Name plan)] ;;
     match err startRes with
     | Some startErr =>
       Diagnostics_AddError "Failed to start Lima instance after edit"
         (command_failure ("start " ++ ValueString (Name plan))
                          startErr (output startRes)) ;;
       Return
     | None => ret tt
     end ;;
     tflog LvlTrace "Started Lima instance after edit"
           [("name", FString (ValueString (Name plan)))]
   else ret tt) ;;
  ds <- State_Set plan ;;
  Diagnostics_Append ds.

(** [func (r *LimaInstanceResource) Delete]. *)
Definition Delete (req_State : LimaInstanceResourceModel) : H unit :=
  let '(data, ds) := Get req_State in
  Diagnostics_Append ds ;;
  has <- Diagnostics_HasError ;;
  when_ has Return ;;
  tflog LvlDebug "Deleting Lima instance"
        [("name", FString (ValueString (Name data)))] ;;
  stopRes <- CombinedOutput ["stop"; ValueString (Name data)] ;;
  match err stopRes with
  | Some stopErr =>
    tflog LvlWarn "Failed to stop Lima instance (may already be stopped)"
          [("name", FString (ValueString (Name data)));
           ("error", FString stopErr);
           ("output", FString (output stopRes))]
  | None => ret tt
  end ;;
  deleteRes <- CombinedOutput ["delete"; ValueString (Name data)] ;;
  match err deleteRes with
  | Some deleteErr =>
    Diagnostics_AddError "Failed to delete Lima instance"
      (command_failure ("delete " ++ ValueString (Name data))
                       deleteErr (output deleteRes)) ;;
    Return
  | None =>
    tflog LvlTrace "Deleted Lima instance"
          [("name", FString (ValueString (Name data)))]
  end.

(** [func (r *LimaInstanceResource) ImportState]: the import identifier
    goes to [name] when it is not empty, then to [id]. *)
Definition ImportState (req_ID : string) : H unit :=
  ImportStatePassthroughID null_model (fun m => set_Name m (Known req_ID))
                           req_ID ;;
  ds <- State_SetAttribute null_model (fun m => set_Id m (Known req_ID)) ;;
  Diagnostics_Append ds.

End Handlers.
End LimaInstanceResource.

(** * A Go runtime

    The functions behind [GoRuntime], written out: [encoding/json]'s
    scanner and the decoding of a line into
    [struct { Name string `json:"name"` }], the encoding of a
    [[]diskJSON], and [strconv]'s shortest formatting of a [float64]
    behind [%g]. *)

Definition dquote : ascii := of_byte 34.

(** Test data is written with ['] for the double quote. *)
Fixpoint dq (s : string) : string :=
  match s with
  | EmptyString => EmptyString
  | String c s' => String (if Ascii.eqb c "'" then dquote else c) (dq s')
  end.

Definition hex_digit (n : N) : ascii :=
  if (n <? 10)%N then of_byte (48 + n) else of_byte (87 + n).

Module json.

(** ** The scanner ([scanner.go]) *)

(** The step functions of the scanner. *)
Inductive step : Type :=
| stateBeginValueOrEmpty | stateBeginValue | stateBeginStringOrEmpty
| stateBeginString | stateEndValue | stateEndTop
| stateInString | stateInStringEsc | stateInStringEscU
| stateInStringEscU1 | stateInStringEscU12 | stateInStringEscU123
| stateNeg | state1 | state0 | stateDot | stateDot0
| stateE | stateESign | stateE0
| stateT | stateTr | stateTru
| stateF | stateFa | stateFal | stateFals
| stateN | stateNu | stateNul
| stateError.

Inductive parseState : Type := parseObjectKey | parseObjectValue | parseArrayValue.

Record scanner : Type := {
  sc_step : step;
  sc_endTop : bool;
  sc_parseState : list parseState;   (* innermost first *)
  sc_depth : N;                      (* its length *)
  sc_err : option string
}.

Definition maxNestingDepth : N := 10000.

Definition isSpace (c : N) : bool :=
  ((c =? 32) || (c =? 9) || (c =? 13) || (c =? 10))%N.

Definition isDigit (c : N) : bool := ((48 <=? c) && (c <=? 57))%N.

Definition isHex (c : N) : bool :=
  (isDigit c || (97 <=? c) && (c <=? 102) || (65 <=? c) && (c <=? 70))%N.

(** [strconv.Quote(string(c))] without its quotes, for a byte [c]. *)
Definition quoted_byte (c : N) : string :=
  let hex2 := String (hex_digit (N.shiftr c 4)) (String (hex_digit (N.land c 15)) "") in
  if (c =? 7)%N then "\a" else if (c =? 8)%N then "\b"
  else if (c =? 12)%N then "\f" else if (c =? 10)%N then "\n"
  else if (c =? 13)%N then "\r" else if (c =? 9)%N then "\t"
  else if (c =? 11)%N then "\v" else if (c =? 92)%N then "\\"
  else if ((c <? 32) || (c =? 127))%N then "\x" ++ hex2
  else if (c <? 128)%N then String (of_byte c) ""
  else if ((c <=? 160) || (c =? 173))%N then "\u00" ++ hex2
  else utf8.EncodeRune c.

(** [quoteChar]. *)
Definition quoteChar (c : N) : string :=
  if (c =? 39)%N then "'\''"
  else if (c =? 34)%N then String "'" (String dquote "'")
  else "'" ++ quoted_byte c ++ "'".

Definition with_step (s : scanner) (st : step) : scanner :=
  {| sc_step := st; sc_endTop := sc_endTop s; sc_parseState := sc_parseState s;
     sc_depth := sc_depth s; sc_err := sc_err s |}.

(** [s.error(c, context)]. *)
Definition error (s : scanner) (c : N) (context : string) : scanner :=
  {| sc_step := stateError; sc_endTop := sc_endTop s;
     sc_parseState := sc_parseState s; sc_depth := sc_depth s;
     sc_err := Some ("invalid character " ++ quoteChar c ++ " " ++ context) |}.

(** [s.pushParseState(c, newParseState, successState)], the step function
    having been set by the caller. *)
Definition pushParseState (s : scanner) (c : N) (p : parseState) : scanner :=
  let s' := {| sc_step := sc_step s; sc_endTop := sc_endTop s;
               sc_parseState := p :: sc_parseState s;
               sc_depth := (sc_depth s + 1)%N; sc_err := sc_err s |} in
  if (sc_depth s' <=? maxNestingDepth)%N then s'
  else error s' c "exceeded max depth".

(** [s.popParseState()]. *)
Definition popParseState (s : scanner) : scanner :=
  let ps := tl (sc_parseState s) in
  match ps with
  | [] => {| sc_step := stateEndTop; sc_endTop := true; sc_parseState := ps;
             sc_depth := 0; sc_err := sc_err s |}
  | _ => {| sc_step := stateEndValue; sc_endTop := sc_endTop s;
            sc_parseState := ps; sc_depth := (sc_depth s - 1)%N;
            sc_err := sc_err s |}
  end.

Definition set_top (s : scanner) (p : parseState) : scanner :=
  {| sc_step := sc_step s; sc_endTop := sc_endTop s;
     sc_parseState := p :: tl (sc_parseState s);
     sc_depth := sc_depth s; sc_err := sc_err s |}.

(** [stateEndTop]: a byte that is no space after the top-level value is
    recorded as the error. *)
Definition do_stateEndTop (s : scanner) (c : N) : scanner :=
  if negb (isSpace c) then error s c "after top-level value" else s.

(** [stateEndValue]. *)
Definition do_stateEndValue (s : scanner) (c : N) : scanner :=
  match sc_parseState s with
  | [] =>
    do_stateEndTop
      {| sc_step := stateEndTop; sc_endTop := true; sc_parseState := [];
         sc_depth := sc_depth s; sc_err := sc_err s |} c
  | ps :: _ =>
    if isSpace c then with_step s stateEndValue
    else
      match ps with
      | parseObjectKey =>
        if (c =? 58)%N then with_step (set_top s parseObjectValue) stateBeginValue
        else error s c "after object key"
      | parseObjectValue =>
        if (c =? 44)%N then with_step (set_top s parseObjectKey) stateBeginString
        else if (c =? 125)%N then popParseState s
        else error s c "after object key:value pair"
      | parseArrayValue =>
        if (c =? 44)%N then with_step s stateBeginValue
        else if (c =? 93)%N then popParseState s
        else error s c "after array element"
      end
  end.

(** [stateBeginValue]. *)
Definition do_stateBeginValue (s : scanner) (c : N) : scanner :=
  if isSpace c then s
  else if (c =? 123)%N then
    pushParseState (with_step s stateBeginStringOrEmpty) c parseObjectKey
  else if (c =? 91)%N then
    pushParseState (with_step s stateBeginValueOrEmpty) c parseArrayValue
  else if (c =? 34)%N then with_step s stateInString
  else if (c =? 45)%N then with_step s stateNeg
  else if (c =? 48)%N then with_step s state0
  else if (c =? 116)%N then with_step s stateT
  else if (c =? 102)%N then with_step s stateF
  else if (c =? 110)%N then with_step s stateN
  else if ((49 <=? c) && (c <=? 57))%N then with_step s state1
  else error s c "looking for beginning of value".

(** [stateBeginString]. *)
Definition do_stateBeginString (s : scanner) (c : N) : scanner :=
  if isSpace c then s
  else if (c =? 34)%N then with_step s stateInString
  else error s c "looking for beginning of object key string".

(** [state0], [stateDot0] and [stateE0]. *)
Definition do_state0 (s : scanner) (c : N) : scanner :=
  if (c =? 46)%N then with_step s stateDot
  else if ((c =? 101) || (c =? 69))%N then with_step s stateE
  else do_stateEndValue s c.

Definition do_stateESign (s : scanner) (c : N) : scanner :=
  if isDigit c then with_step s stateE0
  else error s c "in exponent of numeric literal".

Definition expect (s : scanner) (c : N) (want : string) (next : step)
           (literal : string) : scanner :=
  match want with
  | String w _ =>
    if (c =? byte_val w)%N then with_step s next
    else error s c ("in literal " ++ literal ++ " (expecting '" ++ want ++ "')")
  | EmptyString => s
  end.

(** One byte through the scanner: [s.step(s, c)]. *)
Definition scan_step (s : scanner) (c : N) : scanner :=
  match sc_step s with
  | stateBeginValueOrEmpty =>
    if isSpace c then s
    else if (c =? 93)%N then do_stateEndValue s c
    else do_stateBeginValue s c
  | stateBeginValue => do_stateBeginValue s c
  | stateBeginStringOrEmpty =>
    if isSpace c then s
    else if (c =? 125)%N then do_stateEndValue (set_top s parseObjectValue) c
    else do_stateBeginString s c
  | stateBeginString => do_stateBeginString s c
  | stateEndValue => do_stateEndValue s c
  | stateEndTop => do_stateEndTop s c
  | stateInString =>
    if (c =? 34)%N then with_step s stateEndValue
    else if (c =? 92)%N then with_step s stateInStringEsc
    else if (c <? 32)%N then error s c "in string literal"
    else s
  | stateInStringEsc =>
    if ((c =? 98) || (c =? 102) || (c =? 110) || (c =? 114) || (c =? 116)
        || (c =? 92) || (c =? 47) || (c =? 34))%N
    then with_step s stateInString
    else if (c =? 117)%N then with_step s stateInStringEscU
    else error s c "in string escape code"
  | stateInStringEscU =>
    if isHex c then with_step s stateInStringEscU1
    else error s c "in \u hexadecimal character escape"
  | stateInStringEscU1 =>
    if isHex c then with_step s stateInStringEscU12
    else error s c "in \u hexadecimal character escape"
  | stateInStringEscU12 =>
    if isHex c then with_step s stateInStringEscU123
    else error s c "in \u hexadecimal character escape"
  | stateInStringEscU123 =>
    if isHex c then with_step s stateInString
    else error s c "in \u hexadecimal character escape"
  | stateNeg =>
    if (c =? 48)%N then with_step s state0
    else if ((49 <=? c) && (c <=? 57))%N then with_step s state1
    else error s c "in numeric literal"
  | state1 => if isDigit c then with_step s state1 else do_state0 s c
  | state0 => do_state0 s c
  | stateDot =>
    if isDigit c then with_step s stateDot0
    else error s c "after decimal point in numeric literal"
  | stateDot0 =>
    if isDigit c then s
    else if ((c =? 101) || (c =? 69))%N then with_step s stateE
    else do_stateEndValue s c
  | stateE =>
    if ((c =? 43) || (c =? 45))%N then with_step s stateESign
    else do_stateESign s c
  | stateESign => do_stateESign s c
  | stateE0 => if isDigit c then s else do_stateEndValue s c
  | stateT => expect s c "r" stateTr "true"
  | stateTr => expect s c "u" stateTru "true"
  | stateTru => expect s c "e" stateEndValue "true"
  | stateF => expect s c "a" stateFa "false"
  | stateFa => expect s c "l" stateFal "false"
  | stateFal => expect s c "s" stateFals "false"
  | stateFals => expect s c "e" stateEndValue "false"
  | stateN => expect s c "u" stateNu "null"
  | stateNu => expect s c "l" stateNul "null"
  | stateNul => expect s c "l" stateEndValue "null"
  | stateError => s
  end.

(** [s.reset()]. *)
Definition reset : scanner :=
  {| sc_step := stateBeginValue; sc_endTop := false; sc_parseState := [];
     sc_depth := 0; sc_err := None |}.

(** The loop of [checkValid]: a step that returns [scanError] ends it with
    the scanner's error. A step returns [scanError] when it calls
    [s.error], except in [stateEndTop], whose error surfaces at the next
    step (from [stateError]) or at [eof]. *)
Fixpoint scan_bytes (s : scanner) (data : string) : scanner + string :=
  match data with
  | EmptyString => inl s
  | String ch data' =>
    let was_error := match sc_step s with stateError => true | _ => false end in
    let s' := scan_step s (byte_val ch) in
    match sc_step s', sc_err s' with
    | stateError, Some e =>
      if was_error then inr e
      else if sc_endTop s' then scan_bytes s' data'
      else inr e
    | _, _ => scan_bytes s' data'
    end
  end.

(** [checkValid(data, scan)]: [None] when the data is valid JSON. *)
Definition checkValid (data : string) : option string :=
  match scan_bytes reset data with
  | inr e => Some e
  | inl s =>
    (* s.eof() *)
    match sc_err s with
    | Some e => Some e
    | None =>
      if sc_endTop s then None
      else
        let s' := scan_step s 32 in
        if sc_endTop s' then None
        else match sc_err s' with
             | Some e => Some e
             | None => Some "unexpected end of JSON input"
             end
    end
  end.

(** [json.Valid]. *)
Definition Valid (data : string) : bool :=
  match checkValid data with None => true | Some _ => false end.

(** ** Decoding ([decode.go])

    The decoder walks data that [checkValid] has accepted. Its reading is
    given here in two steps: the value as a tree, then the store into the
    struct. *)
Inductive value : Type :=
| VNull
| VBool
| VNumber
| VString (quoted : string)     (* the bytes between the quotes *)
| VArray (elems : list value)
| VObject (members : list (string * value)).

Fixpoint skip_space (s : string) : string :=
  match s with
  | String c s' => if isSpace (byte_val c) then skip_space s' else s
  | EmptyString => EmptyString
  end.

(** After an opening quote: the bytes up to the closing quote, and what
    follows it. *)
Fixpoint string_body (s : string) : option (string * string) :=
  match s with
  | EmptyString => None
  | String c s' =>
    if (byte_val c =? 34)%N then Some (EmptyString, s')
    else if (byte_val c =? 92)%N then
      match s' with
      | String e s'' =>
        match string_body s'' with
        | Some (body, rest) => Some (String c (String e body), rest)
        | None => None
        end
      | EmptyString => None
      end
    else
      match string_body s' with
      | Some (body, rest) => Some (String c body, rest)
      | None => None
      end
  end.

Fixpoint skip_number (s : string) : string :=
  match s with
  | String c s' =>
    let b := byte_val c in
    if (isDigit b || (b =? 43) || (b =? 45) || (b =? 46) || (b =? 101) || (b =? 69))%N
    then skip_number s' else s
  | EmptyString => EmptyString
  end.

Fixpoint parse_value (fuel : nat) (s : string) {struct fuel}
  : option (value * string) :=
  match fuel with
  | O => None
  | S fuel' =>
    let members :=
      fix members (k : nat) (s : string) (acc : list (string * value))
          {struct k} : option (value * string) :=
        match k with
        | O => None
        | S k' =>
          match skip_space s with
          | String _ s1 =>
            match string_body s1 with
            | Some (key, s2) =>
              match skip_space s2 with
              | String _ s3 =>
                match parse_value fuel' s3 with
                | Some (v, s4) =>
                  match skip_space s4 with
                  | String d s5 =>
                    if (byte_val d =? 44)%N
                    then members k' s5 (append acc (key, v))
                    else Some (VObject (append acc (key, v)), s5)
                  | EmptyString => None
                  end
                | None => None
                end
              | EmptyString => None
              end
            | None => None
            end
          | EmptyString => None
          end
        end in
    let elems :=
      fix elems (k : nat) (s : string) (acc : list value)
          {struct k} : option (value * string) :=
        match k with
        | O => None
        | S k' =>
          match parse_value fuel' s with
          | Some (v, s1) =>
            match skip_space s1 with
            | String d s2 =>
              if (byte_val d =? 44)%N then elems k' s2 (append acc v)
              else Some (VArray (append acc v), s2)
            | EmptyString => None
            end
          | None => None
          end
        end in
    match skip_space s with
    | EmptyString => None
    | String c s' =>
      let b := byte_val c in
      if (b =? 123)%N then
        match skip_space s' with
        | String c' s'' =>
          if (byte_val c' =? 125)%N then Some (VObject [], s'')
          else members (String.length s) s' []
        | EmptyString => None
        end
      else if (b =? 91)%N then
        match skip_space s' with
        | String c' s'' =>
          if (byte_val c' =? 93)%N then Some (VArray [], s'')
          else elems (String.length s) s' []
        | EmptyString => None
        end
      else if (b =? 34)%N then
        match string_body s' with
        | Some (body, rest) => Some (VString body, rest)
        | None => None
        end
      else if (b =? 116)%N then Some (VBool, drop 3 s')
      else if (b =? 102)%N then Some (VBool, drop 4 s')
      else if (b =? 110)%N then Some (VNull, drop 3 s')
      else Some (VNumber, skip_number s')
    end
  end.

Definition hex_val (c : N) : N :=
  if isDigit c then (c - 48)%N
  else if ((97 <=? c) && (c <=? 102))%N then (c - 87)%N
  else (c - 55)%N.

(** [getu4(s)]: the rune of a [\uXXXX] at the start of [s], [None] for
    Go's -1. *)
Definition getu4 (s : string) : option N :=
  if (String.length s <? 6)%nat then None
  else if negb ((byte_at 0 s =? 92) && (byte_at 1 s =? 117))%N then None
  else if isHex (byte_at 2 s) && isHex (byte_at 3 s)
          && isHex (byte_at 4 s) && isHex (byte_at 5 s)
  then Some (hex_val (byte_at 2 s) * 4096 + hex_val (byte_at 3 s) * 256
             + hex_val (byte_at 4 s) * 16 + hex_val (byte_at 5 s))%N
  else None.

(** [utf16.IsSurrogate] and [utf16.DecodeRune]. *)
Definition IsSurrogate (r : N) : bool := ((55296 <=? r) && (r <? 57344))%N.

Definition utf16_DecodeRune (r1 : N) (r2 : option N) : N :=
  match r2 with
  | Some r2 =>
    if ((55296 <=? r1) && (r1 <? 56320) && (56320 <=? r2) && (r2 <? 57344))%N
    then (N.lor (N.shiftl (r1 - 55296) 10) (r2 - 56320) + 65536)%N
    else utf8.RuneError
  | None => utf8.RuneError
  end.

(** [unquoteBytes] on the bytes between the quotes of a string the scanner
    accepted: escapes replaced, and bytes that are not UTF-8 coerced to
    U+FFFD. *)
Fixpoint unquote (fuel : nat) (s : string) : string :=
  match fuel with
  | O => EmptyString
  | S fuel' =>
    match s with
    | EmptyString => EmptyString
    | String c s' =>
      let b := byte_val c in
      if (b =? 92)%N then
        let e := byte_at 0 s' in
        if (e =? 117)%N then
          match getu4 s with
          | None => EmptyString
          | Some rr =>
            let s6 := drop 6 s in
            if IsSurrogate rr then
              let dec := utf16_DecodeRune rr (getu4 s6) in
              if negb (dec =? utf8.RuneError)%N
              then utf8.EncodeRune dec ++ unquote fuel' (drop 6 s6)
              else utf8.EncodeRune utf8.RuneError ++ unquote fuel' s6
            else utf8.EncodeRune rr ++ unquote fuel' s6
          end
        else
          let o := if (e =? 98)%N then 8%N else if (e =? 102)%N then 12%N
                   else if (e =? 110)%N then 10%N else if (e =? 114)%N then 13%N
                   else if (e =? 116)%N then 9%N else e in
          String (of_byte o) (unquote fuel' (drop 1 s'))
      else if (b <? utf8.RuneSelf)%N then String c (unquote fuel' s')
      else
        let '(rr, size) := utf8.DecodeRuneInString s in
        utf8.EncodeRune rr ++ unquote fuel' (drop size s)
    end
  end.

Definition unquoteBytes (s : string) : string := unquote (String.length s) s.

(** [foldName] on ASCII: lower-case letters to upper case. The field name
    [name] has no letter that folds with a rune outside ASCII, so a key
    matches it when its folded bytes are [NAME]. *)
Fixpoint foldName (s : string) : string :=
  match s with
  | EmptyString => EmptyString
  | String c s' =>
    let b := byte_val c in
    String (if ((97 <=? b) && (b <=? 122))%N then of_byte (b - 32) else c)
           (foldName s')
  end.

Definition struct_type : string :=
  "struct { Name string " ++ String dquote ("json:\" ++ String dquote ("name\"
  ++ String dquote (String dquote " }"))).

(** [UnmarshalTypeError.Error()] for a value that does not fit the struct
    (no field on the stack) or its field [name]. *)
Definition type_error (v : string) (in_field : bool) : string :=
  if in_field
  then "json: cannot unmarshal " ++ v ++ " into Go struct field .name of type string"
  else "json: cannot unmarshal " ++ v ++ " into Go value of type " ++ struct_type.

Definition kind_name (v : value) : string :=
  match v with
  | VNull => "null" | VBool => "bool" | VNumber => "number"
  | VString _ => "string" | VArray _ => "array" | VObject _ => "object"
  end.

(** [d.object(v)] on the struct: each member whose key names the field
    [Name] is stored into it (a string is stored, a null leaves it, any
    other value saves a type error and decoding goes on); the other
    members are skipped. The state is the field and the first error
    saved. *)
Fixpoint store_members (members : list (string * value))
         (name : string) (saved : option string) : string * option string :=
  match members with
  | [] => (name, saved)
  | (key, v) :: members' =>
    let k := unquoteBytes key in
    if String.eqb k "name" || String.eqb (foldName k) "NAME" then
      match v with
      | VString q => store_members members' (unquoteBytes q) saved
      | VNull => store_members members' name saved
      | _ =>
        store_members members' name
          (match saved with
           | Some e => Some e
           | None => Some (type_error (kind_name v) true)
           end)
      end
    else store_members members' name saved
  end.

(** [json.Unmarshal(data, &v)] for [v] a zero
    [struct { Name string `json:"name"` }]: the error, or [v.Name]. *)
Definition Unmarshal_name (data : string) : result string :=
  match checkValid data with
  | Some e => Err e
  | None =>
    match parse_value (S (String.length data)) data with
    | Some (VObject members, _) =>
      match store_members members EmptyString None with
      | (name, None) => Ok name
      | (_, Some e) => Err e
      end
    | Some (VNull, _) => Ok EmptyString
    | Some (v, _) => Err (type_error (kind_name v) false)
    | None => Err "unexpected end of JSON input"
    end
  end.

(** ** Encoding ([encode.go]) *)

(** [htmlSafeSet]. *)
Definition htmlSafe (b : N) : bool :=
  ((32 <=? b) && (b <? 128)
   && negb ((b =? 34) || (b =? 38) || (b =? 60) || (b =? 62) || (b =? 92)))%N.

(** The body of [appendString(dst, src, true)], between the quotes. *)
Fixpoint escape (fuel : nat) (s : string) : string :=
  match fuel with
  | O => EmptyString
  | S fuel' =>
    match s with
    | EmptyString => EmptyString
    | String c s' =>
      let b := byte_val c in
      if (b <? utf8.RuneSelf)%N then
        (if htmlSafe b then String c EmptyString
         else if ((b =? 92) || (b =? 34))%N then String "\" (String c EmptyString)
         else if (b =? 8)%N then "\b" else if (b =? 12)%N then "\f"
         else if (b =? 10)%N then "\n" else if (b =? 13)%N then "\r"
         else if (b =? 9)%N then "\t"
         else "\u00" ++ String (hex_digit (N.shiftr b 4))
                           (String (hex_digit (N.land b 15)) EmptyString))
        ++ escape fuel' s'
      else
        let '(r, size) := utf8.DecodeRuneInString (take utf8.UTFMax s) in
        if ((r =? utf8.RuneError)%N && (size =? 1)%nat)%bool
        then "\ufffd" ++ escape fuel' (drop size s)
        else if ((r =? 8232) || (r =? 8233))%N
        then "\u202" ++ String (hex_digit (N.land r 15)) (escape fuel' (drop size s))
        else take size s ++ escape fuel' (drop size s)
    end
  end.

Definition appendString (s : string) : string :=
  String dquote (escape (String.length s) s ++ String dquote EmptyString).

Definition encode_disk (d : diskJSON) : string :=
  "{" ++ appendString "name" ++ ":" ++ appendString (dj_Name d)
  ++ "," ++ appendString "mountPoint" ++ ":" ++ appendString (dj_MountPoint d)
  ++ "}".

(** [json.Marshal] on a [[]diskJSON]: it reports no error; a nil slice
    gives [null]. *)
Definition Marshal_disks (ds : list diskJSON) : result string :=
  match ds with
  | [] => Ok "null"
  | _ => Ok ("[" ++ String.concat "," (map encode_disk ds) ++ "]")
  end.

End json.

(** ** [strconv]: the shortest decimal of a [float64], and [%g] *)
Module strconv.

(** The [float64] that an integer times a power of two rounds to. *)
Definition float64_of (m e : Z) : float64 := binary_normalize 53 1024 m e false.

(** A positive binary64 [m * 2^e] and the halfway points to its
    neighbours, as integers over the denominator [2^den]: the decimals
    that parse back to the float are those from [lo] to [hi], the ends
    included when the mantissa is even. *)
Record bounds : Type := {
  b_lo : Z; b_mid : Z; b_hi : Z; b_den : Z; b_inclusive : bool
}.

Definition computeBounds (m : positive) (e : Z) : bounds :=
  let mz := Zpos m in
  let boundary := (mz =? 2 ^ 52)%Z && negb (e =? -1074)%Z in
  let lo := if boundary then (4 * mz - 1)%Z else (4 * mz - 2)%Z in
  let E := (e - 2)%Z in
  let up := Z.max 0 E in
  {| b_lo := lo * 2 ^ up; b_mid := 4 * mz * 2 ^ up; b_hi := (4 * mz + 2) * 2 ^ up;
     b_den := Z.max 0 (- E); b_inclusive := Z.even mz |}%Z.

(** Is [q * 10^p] within the bounds? *)
Definition admissible (b : bounds) (q p : Z) : bool :=
  let v := (q * 10 ^ Z.max 0 p * 2 ^ b_den b)%Z in
  let s := (10 ^ Z.max 0 (- p))%Z in
  if b_inclusive b
  then ((b_lo b * s <=? v) && (v <=? b_hi b * s))%Z
  else ((b_lo b * s <? v) && (v <? b_hi b * s))%Z.

(** The multiple of [10^p] to print, if one is admissible: the nearer of
    the two around the float when both are, the even one on a tie. *)
Definition at_exponent (b : bounds) (p : Z) : option Z :=
  let num := (b_mid b * 10 ^ Z.max 0 (- p))%Z in
  let den := (2 ^ b_den b * 10 ^ Z.max 0 p)%Z in
  let qf := (num / den)%Z in
  let r := (num mod den)%Z in
  let qc := if (r =? 0)%Z then qf else (qf + 1)%Z in
  let okf := admissible b qf p in
  let okc := admissible b qc p in
  if okf && okc then
    Some (if (2 * r <? den)%Z then qf
          else if (den <? 2 * r)%Z then qc
          else if Z.even qf then qf else qc)
  else if okf then Some qf
  else if okc then Some qc
  else None.

(** The shortest decimal: the largest exponent at which a multiple of the
    power of ten is admissible. *)
Fixpoint shortest_from (fuel : nat) (b : bounds) (p : Z) : Z * Z :=
  match at_exponent b p with
  | Some q => (q, p)
  | None =>
    match fuel with
    | O => (b_mid b, (- b_den b)%Z)
    | S fuel' => shortest_from fuel' b (p - 1)%Z
    end
  end.

Fixpoint strip_zeros (fuel : nat) (q p : Z) : Z * Z :=
  match fuel with
  | O => (q, p)
  | S fuel' =>
    if ((q mod 10 =? 0) && negb (q =? 0))%Z
    then strip_zeros fuel' (q / 10)%Z (p + 1)%Z else (q, p)
  end.

(** [decimalSlice]: the digits, and [dp], the place of the decimal point
    (the value is [0.digits * 10^dp]). *)
Definition shortest (m : positive) (e : Z) : string * Z :=
  let b := computeBounds m e in
  let est := (((Z.log2 (b_mid b) - b_den b) * 30103) / 100000)%Z in
  let '(q, p) := shortest_from 30 b (est + 2)%Z in
  let '(q, p) := strip_zeros 20 q p in
  let digits := fmt.Sprint_d q in
  (digits, (Z.of_nat (String.length digits) + p)%Z).

Fixpoint zeros (n : nat) : string :=
  match n with O => EmptyString | S n' => String "0" (zeros n') end.

Definition digit_at (digits : string) (i : Z) : ascii :=
  if (i <? 0)%Z then "0"%char
  else match get (Z.to_nat i) digits with Some c => c | None => "0"%char end.

Fixpoint digits_from (digits : string) (i : Z) (n : nat) : string :=
  match n with
  | O => EmptyString
  | S n' => String (digit_at digits i) (digits_from digits (i + 1)%Z n')
  end.

(** [fmtE] at precision [prec]: [d.ddde+dd]. *)
Definition fmtE (digits : string) (dp : Z) (prec : nat) : string :=
  let first := match digits with String c _ => c | EmptyString => "0"%char end in
  let frac :=
    match prec with
    | O => EmptyString
    | _ => String "." (digits_from digits 1 prec)
    end in
  let exp := match digits with EmptyString => 0%Z | _ => (dp - 1)%Z end in
  let a := Z.abs exp in
  String first frac ++ "e" ++ (if (exp <? 0)%Z then "-" else "+")
  ++ (if (a <? 10)%Z then "0" else "") ++ fmt.Sprint_d a.

(** [fmtF] at precision [prec]: [ddd.ddd]. *)
Definition fmtF (digits : string) (dp : Z) (prec : nat) : string :=
  (if (0 <? dp)%Z then digits_from digits 0 (Z.to_nat dp) else "0")
  ++ match prec with
     | O => EmptyString
     | _ => String "." (digits_from digits dp prec)
     end.

(** [%e] is used if the exponent is less than -4 or at least the
    precision, which is 6 when the shortest digits are asked for. *)
Definition fmtG (digits : string) (dp : Z) : string :=
  let nd := String.length digits in
  let exp := (dp - 1)%Z in
  if ((exp <? -4) || (6 <=? exp))%Z then fmtE digits dp (nd - 1)
  else fmtF digits dp (Z.to_nat (Z.max (Z.of_nat nd - dp) 0)).

(** [fmt.Sprintf("%g", x)]: [strconv.AppendFloat(dst, x, 'g', -1, 64)]
    as [fmt] prints it. *)
Definition FormatFloat_g (x : float64) : string :=
  match x with
  | S754_nan => "NaN"
  | S754_infinity s => if s then "-Inf" else "+Inf"
  | S754_zero s => if s then "-0" else "0"
  | S754_finite s m e =>
    match binary_normalize 53 1024 (Zpos m) e false with
    | S754_finite _ m' e' =>
      let '(digits, dp) := shortest m' e' in
      (if s then "-" else "") ++ fmtG digits dp
    | S754_infinity _ => if s then "-Inf" else "+Inf"
    | _ => if s then "-0" else "0"
    end
  end.

End strconv.

(** The Go runtime of the provider. *)
Definition go_runtime : GoRuntime.
Proof.
  refine {| fmt_g := strconv.FormatFloat_g;
            json_Valid := json.Valid;
            json_Unmarshal_name := json.Unmarshal_name;
            json_Unmarshal_invalid := _;
            json_Marshal_disks := json.Marshal_disks |}.
  intros data. unfold json.Valid, json.Unmarshal_name.
  destruct (json.checkValid data) as [e|]; [eauto | discriminate].
Defined.

(** * A host that answers from a script

    The world is the list of the results still to come: each command
    takes the next one; past the end of the script a command succeeds
    with no output. *)
Definition scripted : Host := {|
  World := list CmdResult;
  limactl := fun w _ =>
    match w with
    | res :: w' => (res, w')
    | [] => ({| output := EmptyString; err := None |}, [])
    end
|}.

Definition succeeds (out : string) : CmdResult := {| output := out; err := None |}.

Definition fails (e out : string) : CmdResult := {| output := out; err := Some e |}.

(** * The vocabulary of the properties *)

(** The commands of a trace with their results, in order. *)
Fixpoint executions (tr : list Event) : list (list string * CmdResult) :=
  match tr with
  | [] => []
  | Exec args res :: tr' => (args, res) :: executions tr'
  | Log _ _ _ :: tr' => executions tr'
  end.

(** The lines of a listing, as Read takes them. *)
Definition listing_lines (out : string) : list string :=
  strings.Split (strings.TrimSpace out) (of_byte 10).

(** What scanning the lines of a listing for a name comes to: the name
    was found, the lines ran out, or a line failed to parse. *)
Inductive scan_result : Type :=
| Found
| Missing
| Bad (line e : string).

Fixpoint scan {go : GoRuntime} (name : string) (lines : list string) : scan_result :=
  match lines with
  | [] => Missing
  | line :: lines' =>
    if String.eqb line "" then scan name lines'
    else
      match json_Unmarshal_name line with
      | Err e => Bad line e
      | Ok n => if String.eqb n name then Found else scan name lines'
      end
  end.

(** A line that the scan passes over: an empty one, or one that parses
    and names another object. *)
Definition passed_over {go : GoRuntime} (name : string) (line : string) : Prop :=
  line = "" \/ exists n, json_Unmarshal_name line = Ok n /\ n <> name.

(** Every line that is not empty parses. *)
Definition all_parse {go : GoRuntime} (lines : list string) : bool :=
  forallb (fun line =>
             String.eqb line ""
             || match json_Unmarshal_name line with
                | Ok _ => true
                | Err _ => false
                end) lines.

(** Some line that is not empty parses, and its name field is [name]. *)
Definition name_listed {go : GoRuntime} (name : string) (lines : list string) : bool :=
  existsb (fun line =>
             negb (String.eqb line "")
             && match json_Unmarshal_name line with
                | Ok n => String.eqb n name
                | Err _ => false
                end) lines.

Definition nonempty (line : string) : bool := negb (String.eqb line "").

(** ASCII white space: tab, line feed, vertical tab, form feed, carriage
    return, space. *)
Definition ascii_space (c : ascii) : Prop :=
  In (byte_val c) [9; 10; 11; 12; 13; 32]%N.

Module Disk := LimaDiskResource.
Module Inst := LimaInstanceResource.

(** ** The mutable attributes of an instance, and the flags of an edit *)

(** Some mutable attribute differs between the plan and the state. *)
Definition mutable_differs (plan state : Inst.LimaInstanceResourceModel) : bool :=
  negb (Int64_Equal (Inst.Cpus plan) (Inst.Cpus state))
  || negb (Float64_Equal (Inst.Disk plan) (Inst.Disk state))
  || negb (Float64_Equal (Inst.Memory plan) (Inst.Memory state))
  || negb (Inst.StringList_Equal (Inst.DNS plan) (Inst.DNS state))
  || negb (Inst.StringList_Equal (Inst.Mount plan) (Inst.Mount state))
  || negb (Bool_Equal (Inst.MountInotify plan) (Inst.MountInotify state))
  || negb (String_Equal (Inst.MountType plan) (Inst.MountType state))
  || negb (Bool_Equal (Inst.MountWritable plan) (Inst.MountWritable state))
  || negb (Inst.StringList_Equal (Inst.Network plan) (Inst.Network state))
  || negb (Bool_Equal (Inst.Rosetta plan) (Inst.Rosetta state))
  || negb (Bool_Equal (Inst.Video plan) (Inst.Video state)).

(** A scalar attribute gives a flag when it differs and the plan's value
    is not null. *)
Definition scalar_flag {A} (eqb : A -> A -> bool) (p s : Value A) : bool :=
  negb (IsNull p) && negb (Equal eqb p s).

(** A list attribute gives flags when it differs and the plan's list is
    neither null nor empty. *)
Definition list_flag (p s : ListValue StringValue) : bool :=
  negb (Inst.StringList_Equal p s)
  && (negb (IsNull p) && (0 <? length (Elements p))%nat).

(** A boolean toggle gives a flag when it differs and the plan's value is
    true. *)
Definition toggle_flag (p s : BoolValue) : bool :=
  negb (Bool_Equal p s) && ValueBool p.

(** Some mutable attribute gives a flag to the edit command. *)
Definition contributes_flag (plan state : Inst.LimaInstanceResourceModel) : bool :=
  scalar_flag Z.eqb (Inst.Cpus plan) (Inst.Cpus state)
  || scalar_flag big.eqb (Inst.Disk plan) (Inst.Disk state)
  || scalar_flag big.eqb (Inst.Memory plan) (Inst.Memory state)
  || list_flag (Inst.DNS plan) (Inst.DNS state)
  || list_flag (Inst.Mount plan) (Inst.Mount state)
  || toggle_flag (Inst.MountInotify plan) (Inst.MountInotify state)
  || scalar_flag String.eqb (Inst.MountType plan) (Inst.MountType state)
  || toggle_flag (Inst.MountWritable plan) (Inst.MountWritable state)
  || list_flag (Inst.Network plan) (Inst.Network state)
  || toggle_flag (Inst.Rosetta plan) (Inst.Rosetta state)
  || toggle_flag (Inst.Video plan) (Inst.Video state).

(** A list attribute of the plan converts, where the edit needs it: the
    elements of a list that gives flags are all known. *)
Definition list_converts (p s : ListValue StringValue) : bool :=
  negb (list_flag p s)
  || match known_elements (Elements p) with Some _ => true | None => false end.

Definition lists_convert (plan state : Inst.LimaInstanceResourceModel) : bool :=
  list_converts (Inst.DNS plan) (Inst.DNS state)
  && list_converts (Inst.Mount plan) (Inst.Mount state)
  && list_converts (Inst.Network plan) (Inst.Network state).

Definition list_flags (flag : string) (p s : ListValue StringValue) : list string :=
  if list_flag p s
  then map (fun x => flag ++ x)
           (match known_elements (Elements p) with Some xs => xs | None => [] end)
  else [].

Definition flag_if (c : bool) (flag : string) : list string :=
  if c then [flag] else [].

(** The flags of the edit command: one for each changed scalar that is
    not null, one for each element of a changed list, and one for each
    toggle changed to true, in the order of the source. *)
Definition edit_flags {go : GoRuntime}
           (plan state : Inst.LimaInstanceResourceModel) : list string :=
  (flag_if (scalar_flag Z.eqb (Inst.Cpus plan) (Inst.Cpus state))
           ("--cpus=" ++ fmt.Sprint_d (ValueInt64 (Inst.Cpus plan)))
   ++ flag_if (scalar_flag big.eqb (Inst.Disk plan) (Inst.Disk state))
              ("--disk=" ++ fmt_g (ValueFloat64 (Inst.Disk plan)))
   ++ flag_if (scalar_flag big.eqb (Inst.Memory plan) (Inst.Memory state))
              ("--memory=" ++ fmt_g (ValueFloat64 (Inst.Memory plan)))
   ++ list_flags "--dns=" (Inst.DNS plan) (Inst.DNS state)
   ++ list_flags "--mount=" (Inst.Mount plan) (Inst.Mount state)
   ++ flag_if (toggle_flag (Inst.MountInotify plan) (Inst.MountInotify state))
              "--mount-inotify"
   ++ flag_if (scalar_flag String.eqb (Inst.MountType plan) (Inst.MountType state))
              ("--mount-type=" ++ ValueString (Inst.MountType plan))
   ++ flag_if (toggle_flag (Inst.MountWritable plan) (Inst.MountWritable state))
              "--mount-writable"
   ++ list_flags "--network=" (Inst.Network plan) (Inst.Network state)
   ++ flag_if (toggle_flag (Inst.Rosetta plan) (Inst.Rosetta state)) "--rosetta"
   ++ flag_if (toggle_flag (Inst.Video plan) (Inst.Video state)) "--video")%list.

(** The outcome of the cycle stop, edit, start: the commands run, the
    diagnostics and whether the plan was persisted, by the first command
    that fails. *)
Definition edit_cycle (name : string) (args : list string)
           (stopRes editRes startRes : CmdResult)
  : list (list string * CmdResult) * list Diagnostic * bool :=
  let stop := (["stop"; name], stopRes) in
  let edit := (args, editRes) in
  let start := (["start"; name], startRes) in
  match err stopRes, err editRes, err startRes with
  | Some e, _, _ =>
    ([stop],
     [ErrorDiagnostic "Failed to stop Lima instance for edit"
        (command_failure ("stop " ++ name) e (output stopRes))], false)
  | None, Some e, _ =>
    ([stop; edit],
     [ErrorDiagnostic "Failed to edit Lima instance"
        (command_failure (strings.Join args " ") e (output editRes))], false)
  | None, None, Some e =>
    ([stop; edit; start],
     [ErrorDiagnostic "Failed to start Lima instance after edit"
        (command_failure ("start " ++ name) e (output startRes))], false)
  | None, None, None => ([stop; edit; start], [], true)
  end.

(** The response with one more error. *)
Definition add_error {host : Host} {Model : Type} (r : Response Model)
           (summary detail : string) : Response Model :=
  {| world := world r; trace := trace r;
     Diagnostics := (Diagnostics r ++ [ErrorDiagnostic summary detail])%list;
     State := State r |}.

(** A computation that runs no command and writes no state: from [r] it
    either yields a value satisfying [P] and leaves the response as it
    is, or the handler returns there with an error reported. *)
Definition quiet_exit {host : Host} {Model A : Type}
           (m : Handler Model A) (r : Response Model) (P : A -> Prop) : Prop :=
  (exists a, m r = (Some a, r) /\ P a)
  \/ (exists r', m r = (None, r') /\ world r' = world r /\ trace r' = trace r
                /\ State r' = State r /\ HasError (Diagnostics r') = true).

Definition starts_create (args : list string) : Prop :=
  exists flags, args = "create" :: flags.

(** The last arguments of the creation command: [--tty=false], then the
    template when there is one. *)
Definition create_tail (template : StringValue) : list string :=
  "--tty=false"
  :: (if negb (IsNull template) then
        [let t := ValueString template in
         if negb (strings.HasPrefix t "http") && negb (strings.HasSuffix t ".yaml")
         then "template://" ++ t else t]
      else []).

(** ** Sample records and listings *)

(** The disk [test-disk] of the given size in GiB, as persisted. *)
Definition test_disk (size : Z) : Disk.LimaDiskResourceModel :=
  {| Disk.Name := Known "test-disk";
     Disk.Size := Known (big.SetInt64 size);
     Disk.Format := Known Disk.Format_default;
     Disk.Id := Known "test-disk" |}.

(** The number 10 + 2^-60: above 10 by less than a [float64] near 10 can
    tell (they are 2^-49 apart there); as a decimal it is
    10.000000000000000000867361737988403547205962240695953369140625. *)
Definition above_10 : big.Float :=
  big.finite false (10 * 2 ^ 60 + 1) (-60).

(** The disk [test-disk] of that size, as persisted. *)
Definition test_disk_above_10 : Disk.LimaDiskResourceModel :=
  {| Disk.Name := Known "test-disk";
     Disk.Size := Known above_10;
     Disk.Format := Known Disk.Format_default;
     Disk.Id := Known "test-disk" |}.

(** The instance [test-instance]: the toggles at their default, the other
    optional attributes null but for those given. *)
Definition test_instance (template : StringValue) (cpus : Int64Value)
           (dns : ListValue StringValue) (rosetta : BoolValue)
  : Inst.LimaInstanceResourceModel :=
  {| Inst.Name := Known "test-instance"; Inst.Template := template;
     Inst.Arch := Null; Inst.Containerd := Null; Inst.Cpus := cpus;
     Inst.Disk := Null; Inst.Memory := Null; Inst.DNS := dns;
     Inst.Mount := Null; Inst.MountInotify := Known false;
     Inst.MountNone := Known false; Inst.MountType := Null;
     Inst.MountWritable := Known false; Inst.Network := Null;
     Inst.Plain := Known false; Inst.Rosetta := rosetta;
     Inst.Video := Known false; Inst.VmType := Null; Inst.Disks := Null;
     Inst.Id := Known "test-instance" |}.

Definition plain_instance : Inst.LimaInstanceResourceModel :=
  test_instance Null Null Null (Known false).

(** A listing of two objects, the second one named [name]. *)
Definition listing_of (name : string) : string :=
  dq "{'name':'other','status':'Stopped'}" ++ nl
  ++ dq "{'name':'" ++ name ++ dq "','status':'Running'}" ++ nl.

(** A listing whose second line is no JSON, after a line named [name]. *)
Definition listing_then_garbage (name : string) : string :=
  dq "{'name':'" ++ name ++ dq "'}" ++ nl ++ "not json" ++ nl.

(** A listing whose second line is no JSON, before the line named
    [name]. *)
Definition garbage_then_listing (name : string) : string :=
  dq "{'name':'other'}" ++ nl ++ "not json" ++ nl
  ++ dq "{'name':'" ++ name ++ dq "'}" ++ nl.

(** A listing with blank lines around its one object. *)
Definition listing_with_blanks (name : string) : string :=
  nl ++ nl ++ dq "{'name':'other'}" ++ nl ++ nl
  ++ dq "{'name':'" ++ name ++ dq "'}" ++ nl.

Definition exit_status_1 : string := "exit status 1".

(** A changed attribute that gives no flag: a scalar whose planned value
    is null, a list that is planned null or empty, a toggle that is
    planned false. *)
Definition unflagged_scalar {A} (eqb : A -> A -> bool) (p s : Value A) : Prop :=
  Equal eqb p s = true \/ IsNull p = true.

Definition unflagged_list (p s : ListValue StringValue) : Prop :=
  Inst.StringList_Equal p s = true \/ IsNull p = true \/ Elements p = [].

Definition unflagged_toggle (p s : BoolValue) : Prop :=
  Bool_Equal p s = true \/ ValueBool p = false.

(** Every mutable attribute is unchanged, or changed in a way that gives
    no flag. *)
Definition every_change_unflagged
           (plan state : Inst.LimaInstanceResourceModel) : Prop :=
  unflagged_scalar Z.eqb (Inst.Cpus plan) (Inst.Cpus state)
  /\ unflagged_scalar big.eqb (Inst.Disk plan) (Inst.Disk state)
  /\ unflagged_scalar big.eqb (Inst.Memory plan) (Inst.Memory state)
  /\ unflagged_list (Inst.DNS plan) (Inst.DNS state)
  /\ unflagged_list (Inst.Mount plan) (Inst.Mount state)
  /\ unflagged_toggle (Inst.MountInotify plan) (Inst.MountInotify state)
  /\ unflagged_scalar String.eqb (Inst.MountType plan) (Inst.MountType state)
  /\ unflagged_toggle (Inst.MountWritable plan) (Inst.MountWritable state)
  /\ unflagged_list (Inst.Network plan) (Inst.Network state)
  /\ unflagged_toggle (Inst.Rosetta plan) (Inst.Rosetta state)
  /\ unflagged_toggle (Inst.Video plan) (Inst.Video state).

(** ** Sample runs *)

(** A handler run on the scripted host, from a fresh response. *)
Definition play {Model : Type} (h : @Handler scripted Model unit)
           (script : list CmdResult) (st : option Model) : @Response scripted Model :=
  @run scripted Model h (@response scripted Model script st).

Definition rosetta_on : Inst.LimaInstanceResourceModel :=
  test_instance Null Null Null (Known true).

Definition cpus (n : Z) : Inst.LimaInstanceResourceModel :=
  test_instance Null (Known n) Null (Known false).

Definition from_template (t : string) : Inst.LimaInstanceResourceModel :=
  test_instance (Known t) Null Null (Known false).

(** An instance with a toggle on, a DNS server and a CPU count, and the
    plan that switches the toggle off, empties the list and makes the
    count null. *)
Definition configured : Inst.LimaInstanceResourceModel :=
  test_instance Null (Known 2%Z) (Known [Known "1.1.1.1"]) (Known true).

Definition deconfigured : Inst.LimaInstanceResourceModel :=
  test_instance Null Null (Known []) (Known false).

(** The creation succeeds, the start fails, and the clean-up ends as
    given. *)
Definition start_fails_script (cleanup : CmdResult) : list CmdResult :=
  [succeeds ""; fails exit_status_1 "boom"; cleanup].

(** A listing of white space only. *)
Definition blank_listing : string := " " ++ nl ++ "  " ++ nl.

(** ** The arguments of a creation *)

(** The elements of a list when all of them are known; a list that is
    null or unknown has none. *)
Definition known_of {A} (l : ListValue (Value A)) : list A :=
  match known_elements (Elements l) with Some xs => xs | None => [] end.

(** A list converts into a Go slice: no element of it is null or
    unknown. *)
Definition converts {A} (l : ListValue (Value A)) : bool :=
  match known_elements (Elements l) with Some _ => true | None => false end.

Definition create_list_flags (flag : string) (l : ListValue StringValue)
  : list string :=
  map (fun x => flag ++ x) (known_of l).

(** The array that Create marshals: an entry for each attached disk. *)
Definition disk_entries (l : ListValue (Value Inst.DisksModel)) : list diskJSON :=
  map (fun disk => {| dj_Name := ValueString (Inst.dm_Name disk);
                      dj_MountPoint := ValueString (Inst.dm_MountPoint disk) |})
      (known_of l).

(** The flags of the creation command up to [--vm-type], in the order of
    the source: one for each scalar that is not null, one for each element
    of a list, one for each toggle that is true. *)
Definition create_flags {go : GoRuntime} (data : Inst.LimaInstanceResourceModel)
  : list string :=
  (flag_if (negb (IsNull (Inst.Name data)))
           ("--name=" ++ ValueString (Inst.Name data))
   ++ flag_if (negb (IsNull (Inst.Arch data)))
              ("--arch=" ++ ValueString (Inst.Arch data))
   ++ flag_if (negb (IsNull (Inst.Containerd data)))
              ("--containerd=" ++ ValueString (Inst.Containerd data))
   ++ flag_if (negb (IsNull (Inst.Cpus data)))
              ("--cpus=" ++ fmt.Sprint_d (ValueInt64 (Inst.Cpus data)))
   ++ flag_if (negb (IsNull (Inst.Disk data)))
              ("--disk=" ++ fmt_g (ValueFloat64 (Inst.Disk data)))
   ++ flag_if (negb (IsNull (Inst.Memory data)))
              ("--memory=" ++ fmt_g (ValueFloat64 (Inst.Memory data)))
   ++ create_list_flags "--dns=" (Inst.DNS data)
   ++ create_list_flags "--mount=" (Inst.Mount data)
   ++ flag_if (ValueBool (Inst.MountInotify data)) "--mount-inotify"
   ++ flag_if (ValueBool (Inst.MountNone data)) "--mount-none"
   ++ flag_if (negb (IsNull (Inst.MountType data)))
              ("--mount-type=" ++ ValueString (Inst.MountType data))
   ++ flag_if (ValueBool (Inst.MountWritable data)) "--mount-writable"
   ++ create_list_flags "--network=" (Inst.Network data)
   ++ flag_if (ValueBool (Inst.Plain data)) "--plain"
   ++ flag_if (ValueBool (Inst.Rosetta data)) "--rosetta"
   ++ flag_if (ValueBool (Inst.Video data)) "--video"
   ++ flag_if (negb (IsNull (Inst.VmType data)))
              ("--vm-type=" ++ ValueString (Inst.VmType data)))%list.

(** What building the arguments of the creation command comes to: the
    arguments, a list that does not convert, or a marshalling error. *)
Inductive built : Type :=
| Built (args : list string)
| Unconverted
| Unmarshalled (e : string).

Definition create_args {go : GoRuntime} (data : Inst.LimaInstanceResourceModel)
  : built :=
  if converts (Inst.DNS data) && converts (Inst.Mount data)
     && converts (Inst.Network data) && converts (Inst.Disks data)
  then
    match disk_entries (Inst.Disks data) with
    | [] => Built ("create" :: create_flags data
                            ++ create_tail (Inst.Template data))%list
    | entries =>
      match json_Marshal_disks entries with
      | Ok bytes =>
        let disks := "--set=.additionalDisks=" ++ bytes in
        Built ("create" :: create_flags data
                        ++ disks :: create_tail (Inst.Template data))%list
      | Err e => Unmarshalled e
      end
    end
  else Unconverted.

(** The outcome of a creation: the commands run, the diagnostics and
    whether the record was persisted. The clean-up runs when the start
    fails, and its result changes nothing of the outcome. *)
Definition create_cycle (name : string) (args : list string)
           (createRes startRes deleteRes : CmdResult)
  : list (list string * CmdResult) * list Diagnostic * bool :=
  let create := (args, createRes) in
  let start := (["start"; name], startRes) in
  let cleanup := (["delete"; name], deleteRes) in
  match err createRes, err startRes with
  | Some e, _ =>
    ([create],
     [ErrorDiagnostic "Failed to create Lima instance"
        (command_failure (strings.Join args " ") e (output createRes))], false)
  | None, Some e =>
    ([create; start; cleanup],
     [ErrorDiagnostic "Failed to start Lima instance"
        (command_failure ("start " ++ name) e (output startRes))], false)
  | None, None => ([create; start], [], true)
  end.

(** The response with a conversion error more. *)
Definition conversion_error {host : Host} {Model : Type} (r : Response Model)
  : Response Model :=
  {| world := world r; trace := trace r;
     Diagnostics := (Diagnostics r ++ [ValueConversionError])%list;
     State := State r |}.
(** ** Subsequences, and what an edit reads of a record *)

(** [l1] is [l2] with some of its elements left out. *)
Inductive subsequence {A : Type} : list A -> list A -> Prop :=
| subsequence_nil : subsequence [] []
| subsequence_skip x l1 l2 : subsequence l1 l2 -> subsequence l1 (x :: l2)
| subsequence_keep x l1 l2 : subsequence l1 l2 -> subsequence (x :: l1) (x :: l2).

(** The attributes of a record that [limactl edit] supports, the others
    null. *)
Definition mutable_view (m : Inst.LimaInstanceResourceModel)
  : Inst.LimaInstanceResourceModel :=
  {| Inst.Name := Null; Inst.Template := Null; Inst.Arch := Null;
     Inst.Containerd := Null; Inst.Cpus := Inst.Cpus m; Inst.Disk := Inst.Disk m;
     Inst.Memory := Inst.Memory m; Inst.DNS := Inst.DNS m;
     Inst.Mount := Inst.Mount m; Inst.MountInotify := Inst.MountInotify m;
     Inst.MountNone := Null; Inst.MountType := Inst.MountType m;
     Inst.MountWritable := Inst.MountWritable m; Inst.Network := Inst.Network m;
     Inst.Plain := Null; Inst.Rosetta := Inst.Rosetta m;
     Inst.Video := Inst.Video m; Inst.VmType := Null; Inst.Disks := Null;
     Inst.Id := Null |}.

(** The three commands of an edit, in order. *)
Definition edit_commands {go : GoRuntime}
           (plan state : Inst.LimaInstanceResourceModel) : list (list string) :=
  let name := ValueString (Inst.Name plan) in
  [["stop"; name]; "edit" :: name :: edit_flags plan state; ["start"; name]].
(** The name that an import of [id] leaves: [id], or null when [id] is
    empty. *)
Definition imported_name (id : string) : StringValue :=
  if String.eqb id "" then Null else Known id.

(** A record as an import of [id] leaves it: the identifier set, the name
    set when [id] is not empty, the other attributes null. *)
Definition imported_disk (id : string) : Disk.LimaDiskResourceModel :=
  {| Disk.Name := imported_name id; Disk.Size := Null; Disk.Format := Null;
     Disk.Id := Known id |}.

Definition imported_instance (id : string) : Inst.LimaInstanceResourceModel :=
  Inst.set_Id (Inst.set_Name Inst.null_model (imported_name id)) (Known id).

(** The last byte of a string, [d] when it has none. *)
Fixpoint last_byte (s : string) (d : ascii) : ascii :=
  match s with
  | EmptyString => d
  | String c s' => last_byte s' c
  end.
(** The disk [test-disk] of 10 GiB in the [raw] format. *)
Definition raw_disk : Disk.LimaDiskResourceModel :=
  {| Disk.Name := Known "test-disk";
     Disk.Size := Known (big.SetInt64 10);
     Disk.Format := Known "raw";
     Disk.Id := Known "test-disk" |}.

(** An instance from a template, with a CPU count, a DNS server and
    Rosetta. *)
Definition docker_instance : Inst.LimaInstanceResourceModel :=
  test_instance (Known "docker") (Known 4%Z) (Known [Known "1.1.1.1"]) (Known true).

(** An instance whose list of DNS servers holds a null. *)
Definition null_dns_instance : Inst.LimaInstanceResourceModel :=
  test_instance Null Null (Known [Known "1.1.1.1"; Null]) (Known false).

Definition no_limactl : CmdResult :=
  fails "exec: limactl: executable file not found in $PATH" "".

(** [docker_instance] without its template. *)
Definition untemplated_instance : Inst.LimaInstanceResourceModel :=
  test_instance Null (Known 4%Z) (Known [Known "1.1.1.1"]) (Known true).

(** ** JSON texts *)

(** The scanner inside a string literal. *)
Definition in_string (t : bool) (ps : list json.parseState) (d : N)
           (e : option string) : json.scanner :=
  {| json.sc_step := json.stateInString; json.sc_endTop := t;
     json.sc_parseState := ps; json.sc_depth := d; json.sc_err := e |}.

(** The scanner inside the array of the disks, at a step. *)
Definition in_array (st : json.step) : json.scanner :=
  {| json.sc_step := st; json.sc_endTop := false;
     json.sc_parseState := [json.parseArrayValue];
     json.sc_depth := 1; json.sc_err := None |}.

(** The scanner has not stopped on an error. *)
Definition goes_on (s : json.scanner) : bool :=
  match json.sc_step s, json.sc_err s with
  | json.stateError, Some _ => false
  | _, _ => true
  end.

(** What [appendString] writes for a byte below [utf8.RuneSelf]. *)
Definition ascii_chunk (b : N) (c : ascii) : string :=
  if json.htmlSafe b then String c EmptyString
  else if ((b =? 92) || (b =? 34))%N then String "\" (String c EmptyString)
  else if (b =? 8)%N then "\b" else if (b =? 12)%N then "\f"
  else if (b =? 10)%N then "\n" else if (b =? 13)%N then "\r"
  else if (b =? 9)%N then "\t"
  else "\u00" ++ String (hex_digit (N.shiftr b 4))
                    (String (hex_digit (N.land b 15)) EmptyString).

(** A byte that belongs to a rune of more than one byte. *)
Definition high (c : ascii) : bool := (128 <=? byte_val c)%N.

(** A string of ASCII bytes. *)
Fixpoint ascii_only (s : string) : bool :=
  match s with
  | EmptyString => true
  | String c s' => (byte_val c <? utf8.RuneSelf)%N && ascii_only s'
  end.

(** A disk whose name needs escapes. *)
Definition quoted_disk : diskJSON :=
  {| dj_Name := "data<1>"; dj_MountPoint := "/mnt/" ++ String dquote "d\" |}.

(** * Reasoning about handlers *)

(** Run a handler symbolically, keeping strings and arguments folded. *)
Ltac hcbn :=
  cbn -[String.append strings.Join strings.Split strings.TrimSpace
        command_failure Inst.Update_args Inst.Create_args
        Inst.Read_lines Disk.Read_lines fmt.Sprint_d append_if
        Inst.append_flags Nat.ltb Nat.leb].

Section MonadLemmas.
Context {host : Host} {go : GoRuntime} {Model : Type}.

Lemma bind_run {A B} (m : Handler Model A) (k : A -> Handler Model B) r :
  (x <- m ;; k x) r =
  match m r with (Some a, r') => k a r' | (None, r') => (None, r') end.
Proof. reflexivity. Qed.

Lemma bind_some {A B} (m : Handler Model A) (k : A -> Handler Model B) r a r' :
  m r = (Some a, r') -> Handler_bind m k r = k a r'.
Proof. unfold Handler_bind. now intros ->. Qed.

Lemma bind_none {A B} (m : Handler Model A) (k : A -> Handler Model B) r r' :
  m r = (None, r') -> Handler_bind m k r = (None, r').
Proof. unfold Handler_bind. now intros ->. Qed.

Lemma HasError_app ds ds' : HasError (ds ++ ds') = HasError ds || HasError ds'.
Proof. apply existsb_app. Qed.

Lemma Append_nil (r : Response Model) : Diagnostics_Append [] r = (Some tt, r).
Proof.
  destruct r. unfold Diagnostics_Append. cbn. rewrite app_nil_r. reflexivity.
Qed.

(** [ElementsAs] on a list of known elements: the elements, and the
    handler goes on. *)
Lemma ElementsAs_known {A} (els : list (Value A)) xs (r : Response Model) :
  HasError (Diagnostics r) = false ->
  known_elements els = Some xs ->
  ElementsAs_or_return (Known els) r = (Some xs, r).
Proof.
  intros Hr Hk. unfold ElementsAs_or_return, ElementsAs. rewrite Hk.
  cbn -[Diagnostics_Append]. unfold Handler_bind. rewrite Append_nil.
  cbn. rewrite Hr. reflexivity.
Qed.

(** [ElementsAs] reporting an error: the handler returns. *)
Lemma ElementsAs_fails {A} (l : ListValue (Value A)) (r : Response Model) :
  snd (ElementsAs l) = [ValueConversionError] ->
  ElementsAs_or_return l r =
  (None, {| world := world r; trace := trace r;
            Diagnostics := (Diagnostics r ++ [ValueConversionError])%list;
            State := State r |}).
Proof.
  unfold ElementsAs_or_return. destruct (ElementsAs l) as [xs ds]. cbn [snd].
  intros ->. cbn. unfold Handler_bind. cbn.
  rewrite HasError_app. cbn. rewrite orb_true_r. reflexivity.
Qed.

Lemma quiet_ret {A} (a : A) (r : Response Model) (P : A -> Prop) :
  P a -> quiet_exit (ret a) r P.
Proof. intros H. left. exists a. now split. Qed.

Lemma quiet_bind {A B} (m : Handler Model A) (k : A -> Handler Model B) r
      (P : A -> Prop) (Q : B -> Prop) :
  quiet_exit m r P -> (forall a, P a -> quiet_exit (k a) r Q) ->
  quiet_exit (x <- m ;; k x) r Q.
Proof.
  intros [(a & Hm & Ha) | (r' & Hm & H)] Hk; unfold quiet_exit;
    rewrite bind_run, Hm.
  - exact (Hk a Ha).
  - right. now exists r'.
Qed.

Lemma quiet_ElementsAs {A} (l : ListValue (Value A)) (r : Response Model) :
  HasError (Diagnostics r) = false ->
  quiet_exit (ElementsAs_or_return l) r (fun _ => True).
Proof.
  intros Hr. destruct l as [| |els].
  - left. exists []. split; [|exact I].
    unfold ElementsAs_or_return. cbn -[Diagnostics_Append].
    unfold Handler_bind. rewrite Append_nil. cbn. now rewrite Hr.
  - right. eexists. split; [now apply ElementsAs_fails|]. cbn.
    rewrite HasError_app. cbn. now rewrite orb_true_r.
  - destruct (known_elements els) as [xs|] eqn:Hk.
    + left. exists xs. split; [now apply ElementsAs_known | exact I].
    + right. eexists. split; [apply ElementsAs_fails; cbn; now rewrite Hk|].
      cbn. rewrite HasError_app. cbn. now rewrite orb_true_r.
Qed.

Lemma quiet_error_return {A} summary detail (r : Response Model) (P : A -> Prop) :
  quiet_exit (Diagnostics_AddError summary detail ;; Return) r P.
Proof.
  right. eexists. split; [reflexivity|]. cbn.
  rewrite HasError_app. cbn. now rewrite orb_true_r.
Qed.

End MonadLemmas.

(** ** Scanning a listing *)
Section Scan.
Context {go : GoRuntime}.

Lemma scan_passed_over name pre rest :
  Forall (passed_over name) pre -> scan name (pre ++ rest) = scan name rest.
Proof.
  induction 1 as [|line pre Hp _ IH]; [reflexivity|].
  cbn. destruct Hp as [-> | (n & Hn & Hne)]; [exact IH|].
  destruct (String.eqb_spec line ""); [exact IH|].
  rewrite Hn. apply String.eqb_neq in Hne. rewrite Hne. exact IH.
Qed.

Lemma scan_bad name pre line post e :
  Forall (passed_over name) pre -> line <> "" ->
  json_Unmarshal_name line = Err e ->
  scan name (pre ++ line :: post) = Bad line e.
Proof.
  intros Hp Hne He. rewrite (scan_passed_over _ _ _ Hp). cbn.
  apply String.eqb_neq in Hne. rewrite Hne, He. reflexivity.
Qed.

Lemma scan_found name pre m post :
  Forall (passed_over name) pre -> m <> "" ->
  json_Unmarshal_name m = Ok name ->
  scan name (pre ++ m :: post) = Found.
Proof.
  intros Hp Hne Hm. rewrite (scan_passed_over _ _ _ Hp). cbn.
  apply String.eqb_neq in Hne. rewrite Hne, Hm, String.eqb_refl. reflexivity.
Qed.

Lemma scan_all_parse name lines :
  all_parse lines = true ->
  scan name lines = if name_listed name lines then Found else Missing.
Proof.
  induction lines as [|line lines IH]; cbn; [reflexivity|].
  intros H. apply andb_true_iff in H as [Hl Hrest].
  destruct (String.eqb line ""); cbn; [exact (IH Hrest)|].
  destruct (json_Unmarshal_name line) as [n|e]; [|discriminate].
  destruct (String.eqb n name); cbn; [reflexivity | exact (IH Hrest)].
Qed.

Lemma scan_nonempty name lines :
  scan name lines = scan name (filter nonempty lines).
Proof.
  induction lines as [|line lines IH]; cbn; [reflexivity|].
  unfold nonempty at 1. destruct (String.eqb line "") eqn:E; cbn; [exact IH|].
  rewrite E. destruct (json_Unmarshal_name line) as [n|e]; [|reflexivity].
  destruct (String.eqb n name); [reflexivity | exact IH].
Qed.

End Scan.

(** ** White space *)

Lemma DecodeRune_ascii_space c s :
  ascii_space c ->
  utf8.DecodeRuneInString (String c s) = (byte_val c, 1)
  /\ unicode.IsSpace (byte_val c) = true.
Proof.
  unfold ascii_space, utf8.DecodeRuneInString. cbn [In].
  intros [H|[H|[H|[H|[H|[H|[]]]]]]]; rewrite <- H; split; reflexivity.
Qed.

Lemma TrimLeftSpace_from_spaces s :
  Forall ascii_space (list_ascii_of_string s) ->
  forall fuel, String.length s <= fuel -> strings.TrimLeftSpace_from fuel s = "".
Proof.
  induction s as [|c s IH]; intros Hs fuel Hf.
  - destruct fuel; reflexivity.
  - cbn in Hs. inversion Hs as [|? ? Hc Hs']; subst.
    destruct fuel as [|fuel]; [cbn in Hf; lia|].
    cbn [strings.TrimLeftSpace_from].
    destruct (DecodeRune_ascii_space c s Hc) as [-> ->].
    cbn [drop]. apply IH; [assumption | cbn in Hf; lia].
Qed.

(** A listing of ASCII white space only has one line, the empty one. *)
Lemma listing_lines_spaces out :
  Forall ascii_space (list_ascii_of_string out) -> listing_lines out = [""].
Proof.
  intros H. unfold listing_lines, strings.TrimSpace, strings.TrimLeftSpace.
  rewrite (TrimLeftSpace_from_spaces _ H) by lia. reflexivity.
Qed.

(** ** Read, in terms of the scan *)
Section ReadRuns.
Context {host : Host} {go : GoRuntime}.

Lemma disk_Read_lines_scan name lines (r : Response Disk.LimaDiskResourceModel) :
  Disk.Read_lines name lines r =
  match scan name lines with
  | Found => (Some true, r)
  | Missing => (Some false, r)
  | Bad line e =>
    (None, add_error r "Failed to parse disk list JSON"
                     ("Error: " ++ e ++ nl ++ "Line: " ++ line))
  end.
Proof.
  induction lines as [|line lines IH]; cbn -[String.append]; [reflexivity|].
  destruct (String.eqb line ""); [exact IH|].
  destruct (json_Unmarshal_name line) as [n|e]; [|reflexivity].
  destruct (String.eqb n name); [reflexivity | exact IH].
Qed.

Lemma inst_Read_lines_scan name lines (r : Response Inst.LimaInstanceResourceModel) :
  Inst.Read_lines name lines r =
  match scan name lines with
  | Found => (Some true, r)
  | Missing => (Some false, r)
  | Bad line e =>
    (None, add_error r "Failed to parse instance list JSON"
                     ("Error: " ++ e ++ nl ++ "Line: " ++ line))
  end.
Proof.
  induction lines as [|line lines IH]; cbn -[String.append]; [reflexivity|].
  destruct (String.eqb line ""); [exact IH|].
  destruct (json_Unmarshal_name line) as [n|e]; [|reflexivity].
  destruct (String.eqb n name); [reflexivity | exact IH].
Qed.

(** What a disk Read leaves, by the result of the listing command and of
    the scan. *)
Lemma disk_Read_run data w st res w' :
  limactl w ["disk"; "list"; "--json"] = (res, w') ->
  run (Disk.Read data) (response w st) =
  let tr := [Exec ["disk"; "list"; "--json"] res] in
  match err res with
  | Some e =>
    {| world := w'; trace := tr;
       Diagnostics := [ErrorDiagnostic "Failed to list Lima disks"
                         ("Error: " ++ e ++ nl ++ "Output: " ++ output res)];
       State := st |}
  | None =>
    match scan (ValueString (Disk.Name data)) (listing_lines (output res)) with
    | Found => {| world := w'; trace := tr; Diagnostics := []; State := Some data |}
    | Missing => {| world := w'; trace := tr; Diagnostics := []; State := None |}
    | Bad line e =>
      {| world := w'; trace := tr;
         Diagnostics := [ErrorDiagnostic "Failed to parse disk list JSON"
                           ("Error: " ++ e ++ nl ++ "Line: " ++ line)];
         State := st |}
    end
  end.
Proof.
  intros Hl. unfold run, Disk.Read, response. hcbn.
  unfold Handler_bind at 1. unfold CombinedOutput at 1. hcbn. rewrite Hl. hcbn.
  destruct (err res) as [e|]; [reflexivity|].
  unfold Handler_bind. rewrite disk_Read_lines_scan.
  fold (listing_lines (output res)).
  destruct (scan _ _); reflexivity.
Qed.

(** What an instance Read leaves. *)
Lemma inst_Read_run data w st res w' :
  limactl w ["list"; "--json"] = (res, w') ->
  run (Inst.Read data) (response w st) =
  let tr := [Exec ["list"; "--json"] res] in
  match err res with
  | Some e =>
    {| world := w'; trace := tr;
       Diagnostics := [ErrorDiagnostic "Failed to list Lima instances"
                         ("Error: " ++ e ++ nl ++ "Output: " ++ output res)];
       State := st |}
  | None =>
    match scan (ValueString (Inst.Name data)) (listing_lines (output res)) with
    | Found => {| world := w'; trace := tr; Diagnostics := []; State := Some data |}
    | Missing => {| world := w'; trace := tr; Diagnostics := []; State := None |}
    | Bad line e =>
      {| world := w'; trace := tr;
         Diagnostics := [ErrorDiagnostic "Failed to parse instance list JSON"
                           ("Error: " ++ e ++ nl ++ "Line: " ++ line)];
         State := st |}
    end
  end.
Proof.
  intros Hl. unfold run, Inst.Read, response. hcbn.
  unfold Handler_bind at 1. unfold CombinedOutput at 1. hcbn. rewrite Hl. hcbn.
  destruct (err res) as [e|]; [reflexivity|].
  unfold Handler_bind. rewrite inst_Read_lines_scan.
  fold (listing_lines (output res)).
  destruct (scan _ _); reflexivity.
Qed.

End ReadRuns.

(** ** The arguments of the creation command *)
Section CreateArgs.
Context {host : Host} {go : GoRuntime}.

Lemma starts_append args x : starts_create args -> starts_create (append args x).
Proof. intros [f ->]. now exists (f ++ [x])%list. Qed.

Lemma starts_append_if c args x :
  starts_create args -> starts_create (append_if c args x).
Proof. destruct c; [apply starts_append | trivial]. Qed.

Lemma starts_append_flags args flag xs :
  starts_create args -> starts_create (Inst.append_flags args flag xs).
Proof. intros [f ->]. now eexists (f ++ _)%list. Qed.

Lemma quiet_list_flags (args : list string) flag (l : ListValue StringValue)
      (r : Response Inst.LimaInstanceResourceModel) :
  HasError (Diagnostics r) = false -> starts_create args ->
  quiet_exit
    (if negb (IsNull l) && (0 <? length (Elements l))%nat then
       xs <- ElementsAs_or_return l ;;
       ret (Inst.append_flags args flag xs)
     else ret args) r starts_create.
Proof.
  intros Hr Ha. destruct (_ && _); [|now apply quiet_ret].
  eapply quiet_bind; [now apply quiet_ElementsAs|].
  intros xs _. apply quiet_ret. now apply starts_append_flags.
Qed.

(** Building the arguments runs no command: it yields [create], flags,
    and the tail, or Create returns with an error. *)
Lemma Create_args_outcome data (r : Response Inst.LimaInstanceResourceModel) :
  HasError (Diagnostics r) = false ->
  quiet_exit (Inst.Create_args data) r
             (fun args => exists flags,
                  args = ("create" :: flags ++ create_tail (Inst.Template data))%list).
Proof.
  intros Hr. unfold Inst.Create_args. cbv zeta.
  assert (H0 : starts_create ["create"]) by now exists [].
  eapply quiet_bind.
  { apply quiet_list_flags; [assumption|]. repeat apply starts_append_if. exact H0. }
  intros a1 H1. eapply quiet_bind.
  { apply quiet_list_flags; assumption. }
  intros a2 H2. eapply quiet_bind.
  { apply quiet_list_flags; [assumption|]. repeat apply starts_append_if. exact H2. }
  intros a3 H3. eapply quiet_bind with (P := starts_create).
  { destruct (_ && _).
    - eapply quiet_bind; [now apply quiet_ElementsAs|]. intros disks _.
      destruct (json_Marshal_disks _) as [bytes|e].
      + apply quiet_ret. apply starts_append. repeat apply starts_append_if. exact H3.
      + apply quiet_error_return.
    - apply quiet_ret. repeat apply starts_append_if. exact H3. }
  intros a4 [flags ->]. apply quiet_ret. exists flags.
  unfold create_tail, append. destruct (negb (IsNull (Inst.Template data)));
    cbn; rewrite <- ?app_assoc; reflexivity.
Qed.

End CreateArgs.

(** ** The arguments of the edit command *)
Section UpdateArgs.
Context {host : Host} {go : GoRuntime}.

Lemma append_if_app (c : bool) (s : list string) (x : string) :
  append_if c s x = (s ++ flag_if c x)%list.
Proof. destruct c; cbn; [reflexivity | now rewrite app_nil_r]. Qed.

Lemma list_block {Model} (args : list string) flag p s (r : Response Model) :
  HasError (Diagnostics r) = false ->
  list_converts p s = true ->
  (if negb (Inst.StringList_Equal p s) then
     if negb (IsNull p) && (0 <? length (Elements p))%nat then
       xs <- ElementsAs_or_return p ;;
       ret (Inst.append_flags args flag xs)
     else ret args
   else ret args) r
  = (Some (args ++ list_flags flag p s)%list, r).
Proof.
  intros Hr Hc. unfold list_converts, list_flags, list_flag in *.
  destruct (Inst.StringList_Equal p s); cbn -[ElementsAs_or_return] in *;
    [now rewrite app_nil_r|].
  destruct p as [| |els]; cbn -[ElementsAs_or_return] in *;
    try now rewrite app_nil_r.
  destruct els as [|x els]; [cbn; now rewrite app_nil_r|].
  cbn -[ElementsAs_or_return known_elements] in *.
  destruct (known_elements (x :: els)) as [xs|] eqn:Hk; [|discriminate].
  cbn [bind ret Monad_Handler]. unfold Handler_bind.
  rewrite (ElementsAs_known _ _ _ Hr Hk). reflexivity.
Qed.

(** When the lists convert, building the arguments leaves the response
    as it is and yields [edit], the name and the flags. *)
Lemma Update_args_converts plan state (r : Response Inst.LimaInstanceResourceModel) :
  HasError (Diagnostics r) = false ->
  lists_convert plan state = true ->
  Inst.Update_args plan state r =
  (Some ("edit" :: ValueString (Inst.Name plan) :: edit_flags plan state), r).
Proof.
  intros Hr Hc. unfold lists_convert in Hc.
  apply andb_true_iff in Hc as [Hc Hn]. apply andb_true_iff in Hc as [Hd Hm].
  unfold Inst.Update_args. cbv zeta.
  rewrite bind_run, (list_block _ _ _ _ _ Hr Hd).
  rewrite bind_run, (list_block _ _ _ _ _ Hr Hm).
  rewrite bind_run, (list_block _ _ _ _ _ Hr Hn).
  cbn [ret Monad_Handler]. unfold Handler_ret. f_equal. f_equal.
  rewrite !append_if_app. unfold edit_flags, scalar_flag, toggle_flag.
  unfold Int64_Equal, Float64_Equal, String_Equal.
  cbn [app]. rewrite <- !app_assoc. reflexivity.
Qed.

Lemma known_elements_length {A} (els : list (Value A)) xs :
  known_elements els = Some xs -> length xs = length els.
Proof.
  revert xs. induction els as [|[| |v] els IH]; cbn; intros xs H; try discriminate.
  - now inversion H.
  - destruct (known_elements els) as [vs|]; [|discriminate].
    inversion H; subst. cbn. f_equal. now apply IH.
Qed.

Lemma list_flags_nonempty flag p s :
  list_flag p s = true -> list_converts p s = true ->
  list_flags flag p s <> [].
Proof.
  unfold list_converts, list_flags. intros Hf. rewrite Hf. cbn.
  unfold list_flag in Hf. apply andb_true_iff in Hf as [_ Hf].
  apply andb_true_iff in Hf as [_ Hlen]. apply Nat.ltb_lt in Hlen.
  destruct (known_elements (Elements p)) as [xs|] eqn:Hk; [|discriminate].
  intros _. apply known_elements_length in Hk.
  destruct xs; [cbn in Hk; lia | discriminate].
Qed.

Lemma list_flags_none flag p s : list_flag p s = false -> list_flags flag p s = [].
Proof. unfold list_flags. now intros ->. Qed.

(** An attribute that gives a flag makes the edit command longer than
    [edit] and the name. *)
Lemma contributes_edit_flags plan state :
  contributes_flag plan state = true -> lists_convert plan state = true ->
  (0 <? length (edit_flags plan state))%nat = true.
Proof.
  unfold contributes_flag, lists_convert, edit_flags. intros Hc Hl.
  apply andb_true_iff in Hl as [Hl Hn]. apply andb_true_iff in Hl as [Hd Hm].
  apply Nat.ltb_lt. rewrite !length_app.
  repeat (apply orb_true_iff in Hc as [Hc|Hc]);
    try (rewrite Hc; cbn [flag_if length]; lia);
    match goal with
    | |- context [list_flags ?f ?p ?s] =>
      let H := fresh in
      assert (H := list_flags_nonempty f p s Hc ltac:(assumption));
      destruct (list_flags f p s); [congruence | cbn [length]; lia]
    end.
Qed.

(** No attribute gives a flag: no list is converted, and there is no
    flag. *)
Lemma no_contribution plan state :
  contributes_flag plan state = false ->
  lists_convert plan state = true /\ edit_flags plan state = [].
Proof.
  unfold contributes_flag, lists_convert, list_converts, edit_flags. intros Hc.
  repeat (apply orb_false_iff in Hc as [Hc ?]).
  repeat match goal with
         | H : list_flag _ _ = false |- _ =>
           rewrite ?(list_flags_none _ _ _ H); rewrite !H; clear H
         | H : _ = false |- _ => rewrite !H; clear H
         end.
  split; reflexivity.
Qed.

End UpdateArgs.

(** ** Floats *)

Lemma SFltb_irrefl (x : float64) : SFltb x x = false.
Proof.
  unfold SFltb, SFcompare. destruct x as [s|s| |s m e]; try reflexivity.
  - destruct s; reflexivity.
  - destruct s; rewrite Z.compare_refl, Pos.compare_cont_refl; reflexivity.
Qed.

Lemma odd_mantissa_shiftl (d m : positive) : forall e : Z,
  big.odd_mantissa (Pos.shiftl m (Npos d)) e = big.odd_mantissa m (e + Zpos d).
Proof.
  cbn [Pos.shiftl]. induction d as [|d IH] using Pos.peano_ind; intros e.
  - reflexivity.
  - rewrite Pos.iter_succ. cbn [big.odd_mantissa]. rewrite IH. f_equal. lia.
Qed.

(** Two writings of one number have the same writing with an odd
    mantissa. *)
Lemma cmp_abs_Eq m1 e1 m2 e2 :
  big.cmp_abs m1 e1 m2 e2 = Eq ->
  big.odd_mantissa m1 e1 = big.odd_mantissa m2 e2.
Proof.
  unfold big.cmp_abs. destruct (e1 - e2)%Z as [|d|d] eqn:He; intros H;
    apply Pos.compare_eq in H.
  - subst. f_equal. lia.
  - subst. rewrite odd_mantissa_shiftl. f_equal. lia.
  - subst. rewrite odd_mantissa_shiftl. f_equal. lia.
Qed.

(** A number is not below itself once rounded. *)
Lemma Cmp_Eq_not_lt (x y : big.Float) :
  big.Cmp x y = Eq -> SFltb (big.Float64 x) (big.Float64 y) = false.
Proof.
  destruct x as [n1|n1 m1 e1|n1], y as [n2|n2 m2 e2|n2]; cbn [big.Cmp];
    try (destruct n1; discriminate); try (destruct n2; discriminate);
    try reflexivity.
  - destruct n1, n2; try discriminate; intros H;
      [apply CompOpp_iff in H; cbn [CompOpp] in H|];
      cbn [big.Float64]; rewrite (cmp_abs_Eq _ _ _ _ H); apply SFltb_irrefl.
  - destruct n1, n2; try discriminate; reflexivity.
Qed.

(** A size whose [float64] is below that of another one is not [Equal]
    to it. *)
Lemma lt_not_Equal (p s : Float64Value) :
  SFltb (ValueFloat64 p) (ValueFloat64 s) = true -> Float64_Equal p s = false.
Proof.
  destruct p as [| |x], s as [| |y]; cbn; try discriminate; try reflexivity.
  unfold big.eqb. intros Hlt. destruct (big.Cmp x y) eqn:Hc; try reflexivity.
  rewrite (Cmp_Eq_not_lt _ _ Hc) in Hlt. discriminate.
Qed.

(** ** Building the arguments, and what the handlers leave *)
Section CreateRuns.
Context {host : Host} {go : GoRuntime}.

(** [ElementsAs] on a list that has elements. *)
Lemma ElementsAs_run {Model A} (l : ListValue (Value A)) (r : Response Model) :
  HasError (Diagnostics r) = false ->
  (0 <? length (Elements l))%nat = true ->
  ElementsAs_or_return l r
  = if converts l then (Some (known_of l), r) else (None, conversion_error r).
Proof.
  intros Hr Hlen. unfold converts, known_of.
  destruct l as [| |els]; try discriminate. cbn [Elements] in *.
  destruct (known_elements els) as [xs|] eqn:Hk.
  - now apply ElementsAs_known.
  - apply ElementsAs_fails. cbn. now rewrite Hk.
Qed.

Lemma known_of_no_elements {A} (l : ListValue (Value A)) :
  (0 <? length (Elements l))%nat = false -> converts l = true /\ known_of l = [].
Proof.
  unfold converts, known_of. destruct (Elements l); [now cbn | discriminate].
Qed.

(** The block of Create for a list of strings. *)
Lemma create_list_block {Model} (args : list string) flag
      (l : ListValue StringValue) (r : Response Model) :
  HasError (Diagnostics r) = false ->
  (if negb (IsNull l) && (0 <? length (Elements l))%nat then
     xs <- ElementsAs_or_return l ;;
     ret (Inst.append_flags args flag xs)
   else ret args) r
  = if converts l then (Some (args ++ create_list_flags flag l)%list, r)
    else (None, conversion_error r).
Proof.
  intros Hr. destruct (0 <? length (Elements l))%nat eqn:Hlen.
  - assert (Hn : IsNull l = false) by (destruct l; [discriminate | |]; reflexivity).
    rewrite Hn. cbn [negb andb]. rewrite bind_run, (ElementsAs_run _ _ Hr Hlen).
    destruct (converts l); reflexivity.
  - rewrite andb_false_r. destruct (known_of_no_elements l Hlen) as [-> Hk].
    unfold create_list_flags. rewrite Hk. cbn. now rewrite app_nil_r.
Qed.

(** What building the arguments of the creation command leaves. *)
Lemma Create_args_run data (r : Response Inst.LimaInstanceResourceModel) :
  HasError (Diagnostics r) = false ->
  Inst.Create_args data r =
  match create_args data with
  | Built args => (Some args, r)
  | Unconverted => (None, conversion_error r)
  | Unmarshalled e =>
    (None, add_error r "Failed to marshal additional disks" ("Error: " ++ e))
  end.
Proof.
  intros Hr. unfold Inst.Create_args, create_args. cbv zeta.
  rewrite bind_run, (create_list_block _ _ _ _ Hr).
  destruct (converts (Inst.DNS data)); [|reflexivity].
  rewrite bind_run, (create_list_block _ _ _ _ Hr).
  destruct (converts (Inst.Mount data)); [|reflexivity].
  rewrite bind_run, (create_list_block _ _ _ _ Hr).
  destruct (converts (Inst.Network data)); [|reflexivity].
  cbn [andb]. rewrite bind_run.
  destruct (0 <? length (Elements (Inst.Disks data)))%nat eqn:Hlen.
  - assert (Hn : IsNull (Inst.Disks data) = false)
      by (destruct (Inst.Disks data); [discriminate | |]; reflexivity).
    rewrite Hn. cbn [negb andb]. rewrite bind_run, (ElementsAs_run _ _ Hr Hlen).
    destruct (converts (Inst.Disks data)) eqn:Hc; [|reflexivity].
    unfold disk_entries.
    assert (Hne : known_of (Inst.Disks data) <> []).
    { unfold converts in Hc. unfold known_of.
      destruct (known_elements (Elements (Inst.Disks data))) as [xs|] eqn:Hk;
        [|discriminate].
      apply known_elements_length in Hk. apply Nat.ltb_lt in Hlen.
      destruct xs; [cbn in Hk; lia | discriminate]. }
    destruct (known_of (Inst.Disks data)) as [|d ds]; [congruence|].
    cbn [map]. destruct (json_Marshal_disks _) as [bytes|e]; [|reflexivity].
    cbn [ret Monad_Handler]. unfold Handler_ret. f_equal. f_equal.
    rewrite !append_if_app. unfold create_flags, create_tail, append.
    destruct (negb (IsNull (Inst.Template data))); cbn [app];
      rewrite <- !app_assoc; cbn [app]; reflexivity.
  - rewrite andb_false_r. destruct (known_of_no_elements _ Hlen) as [-> Hk].
    unfold disk_entries. rewrite Hk. cbn [map].
    cbn [ret Monad_Handler]. unfold Handler_ret. f_equal. f_equal.
    rewrite !append_if_app. unfold create_flags, create_tail, append.
    destruct (negb (IsNull (Inst.Template data))); cbn [app];
      rewrite <- !app_assoc; cbn [app]; reflexivity.
Qed.

End CreateRuns.

Section InstanceRuns.
Context {host : Host} {go : GoRuntime}.

(** What a Create leaves, by how its arguments build and what the commands
    return. *)
Lemma inst_Create_run data w st :
  let name := ValueString (Inst.Name data) in
  let r := run (Inst.Create data) (response w st) in
  match create_args data with
  | Built args =>
    let '(createRes, w1) := limactl w args in
    let '(startRes, w2) := limactl w1 ["start"; name] in
    let '(deleteRes, w3) := limactl w2 ["delete"; name] in
    let '(cmds, ds, persisted) :=
      create_cycle name args createRes startRes deleteRes in
    executions (trace r) = cmds /\ Diagnostics r = ds
    /\ State r = (if persisted then Some (Inst.set_Id data (Inst.Name data)) else st)
  | Unconverted => r = conversion_error (response w st)
  | Unmarshalled e =>
    r = add_error (response w st) "Failed to marshal additional disks"
                  ("Error: " ++ e)
  end.
Proof.
  intros name r. subst r. unfold run, Inst.Create, response. hcbn.
  pose proof (Create_args_run data (response w st) eq_refl) as Hargs.
  destruct (create_args data) as [args| |e].
  - rewrite (bind_some _ _ _ _ _ Hargs).
    destruct (limactl w args) as [createRes w1] eqn:Hc.
    destruct (limactl w1 ["start"; name]) as [startRes w2] eqn:Hs.
    destruct (limactl w2 ["delete"; name]) as [deleteRes w3] eqn:Hd.
    unfold create_cycle, Handler_bind, CombinedOutput, tflog. hcbn.
    rewrite Hc. hcbn. destruct (err createRes) as [e|]; hcbn; [auto|].
    fold name. rewrite Hs. hcbn. destruct (err startRes) as [e|]; hcbn; [|auto].
    rewrite Hd. hcbn. destruct (err deleteRes) as [e'|]; hcbn; auto.
  - rewrite (bind_none _ _ _ _ Hargs). reflexivity.
  - rewrite (bind_none _ _ _ _ Hargs). reflexivity.
Qed.

(** The block of Update for a changed list that does not convert. *)
Lemma list_block_fails {Model} (args : list string) flag p s (r : Response Model) :
  HasError (Diagnostics r) = false ->
  list_converts p s = false ->
  (if negb (Inst.StringList_Equal p s) then
     if negb (IsNull p) && (0 <? length (Elements p))%nat then
       xs <- ElementsAs_or_return p ;;
       ret (Inst.append_flags args flag xs)
     else ret args
   else ret args) r
  = (None, conversion_error r).
Proof.
  intros Hr Hc. unfold list_converts, list_flag in Hc.
  apply orb_false_iff in Hc as [Hf Hk]. apply negb_false_iff in Hf.
  apply andb_true_iff in Hf as [He Hf]. rewrite He, Hf.
  apply andb_true_iff in Hf as [_ Hlen].
  rewrite bind_run, (ElementsAs_run _ _ Hr Hlen). unfold converts.
  destruct (known_elements (Elements p)); [discriminate | reflexivity].
Qed.

(** What building the arguments of the edit command leaves. *)
Lemma Update_args_run plan state (r : Response Inst.LimaInstanceResourceModel) :
  HasError (Diagnostics r) = false ->
  Inst.Update_args plan state r =
  if lists_convert plan state
  then (Some ("edit" :: ValueString (Inst.Name plan) :: edit_flags plan state), r)
  else (None, conversion_error r).
Proof.
  intros Hr. destruct (lists_convert plan state) eqn:Hl;
    [now apply Update_args_converts|].
  unfold lists_convert in Hl. unfold Inst.Update_args. cbv zeta.
  destruct (list_converts (Inst.DNS plan) (Inst.DNS state)) eqn:Hd.
  - rewrite bind_run, (list_block _ _ _ _ _ Hr Hd).
    destruct (list_converts (Inst.Mount plan) (Inst.Mount state)) eqn:Hm.
    + rewrite bind_run, (list_block _ _ _ _ _ Hr Hm).
      cbn [andb] in Hl.
      rewrite bind_run, (list_block_fails _ _ _ _ _ Hr Hl). reflexivity.
    + rewrite bind_run, (list_block_fails _ _ _ _ _ Hr Hm). reflexivity.
  - rewrite bind_run, (list_block_fails _ _ _ _ _ Hr Hd). reflexivity.
Qed.

(** What an Update leaves. *)
Lemma inst_Update_run plan state w st :
  let name := ValueString (Inst.Name plan) in
  let args := "edit" :: name :: edit_flags plan state in
  let r := run (Inst.Update plan state) (response w st) in
  if lists_convert plan state then
    if (0 <? length (edit_flags plan state))%nat then
      let '(stopRes, w1) := limactl w ["stop"; name] in
      let '(editRes, w2) := limactl w1 args in
      let '(startRes, w3) := limactl w2 ["start"; name] in
      let '(cmds, ds, persisted) := edit_cycle name args stopRes editRes startRes in
      executions (trace r) = cmds /\ Diagnostics r = ds
      /\ State r = (if persisted then Some plan else st)
    else r = {| world := w; trace := []; Diagnostics := []; State := Some plan |}
  else r = conversion_error (response w st).
Proof.
  intros name args r. subst r. unfold run, Inst.Update, response. hcbn.
  pose proof (Update_args_run plan state (response w st) eq_refl) as Hargs.
  destruct (lists_convert plan state).
  - rewrite (bind_some _ _ _ _ _ Hargs). fold name. fold args.
    replace (2 <? length args)%nat with (0 <? length (edit_flags plan state))%nat
      by (subst args; cbn [length]; reflexivity).
    destruct (0 <? length (edit_flags plan state))%nat; [|reflexivity].
    destruct (limactl w ["stop"; name]) as [stopRes w1] eqn:Hstop.
    destruct (limactl w1 args) as [editRes w2] eqn:Hedit.
    destruct (limactl w2 ["start"; name]) as [startRes w3] eqn:Hstart.
    unfold edit_cycle, Handler_bind, CombinedOutput, tflog. hcbn. rewrite Hstop.
    destruct (err stopRes) as [e|]; hcbn; [auto|].
    rewrite Hedit. destruct (err editRes) as [e|]; hcbn; [auto|].
    rewrite Hstart. destruct (err startRes) as [e|]; hcbn; auto.
  - rewrite (bind_none _ _ _ _ Hargs). reflexivity.
Qed.

End InstanceRuns.

(** ** Subsequences *)
Section Subsequences.
Context {A : Type}.

Lemma subsequence_nil_l (l : list A) : subsequence [] l.
Proof. induction l; constructor; assumption. Qed.

Lemma subsequence_refl (l : list A) : subsequence l l.
Proof. induction l; constructor; assumption. Qed.

Lemma subsequence_app (a b c d : list A) :
  subsequence a b -> subsequence c d -> subsequence (a ++ c) (b ++ d).
Proof.
  induction 1; intros Hcd; cbn;
    [assumption | apply subsequence_skip | apply subsequence_keep]; auto.
Qed.

Lemma subsequence_app_skip (a b c : list A) :
  subsequence a c -> subsequence a (b ++ c).
Proof. intros H. induction b; cbn; [assumption | now constructor]. Qed.

Lemma subsequence_app_r (a b c : list A) :
  subsequence a b -> subsequence a (b ++ c).
Proof.
  intros H. rewrite <- (app_nil_r a). apply subsequence_app; [assumption|].
  apply subsequence_nil_l.
Qed.

Lemma subsequence_flag_if (c c' : bool) (x : A) :
  (c = true -> c' = true) ->
  subsequence (if c then [x] else []) (if c' then [x] else []).
Proof.
  destruct c; intros H; [rewrite H by reflexivity; apply subsequence_refl|].
  apply subsequence_nil_l.
Qed.

Lemma commands_executions (tr : list Event) :
  commands tr = map fst (executions tr).
Proof.
  induction tr as [|[args res|lvl msg fields] tr IH]; cbn; [reflexivity| |assumption].
  now rewrite IH.
Qed.

End Subsequences.

Section EditFlags.
Context {go : GoRuntime}.

Lemma list_flags_subsequence flag p s :
  subsequence (list_flags flag p s) (create_list_flags flag p).
Proof.
  unfold list_flags, create_list_flags, known_of.
  destruct (list_flag p s); [apply subsequence_refl | apply subsequence_nil_l].
Qed.

Lemma edit_flags_subsequence plan state :
  subsequence (edit_flags plan state) (create_flags plan).
Proof.
  unfold edit_flags, create_flags, flag_if, scalar_flag, toggle_flag.
  do 3 apply subsequence_app_skip.
  do 3 (apply subsequence_app;
        [apply subsequence_flag_if; intros H; now apply andb_true_iff in H|]).
  do 2 (apply subsequence_app; [apply list_flags_subsequence|]).
  apply subsequence_app;
    [apply subsequence_flag_if; intros H; now apply andb_true_iff in H|].
  apply subsequence_app_skip.
  do 2 (apply subsequence_app;
        [apply subsequence_flag_if; intros H; now apply andb_true_iff in H|]).
  apply subsequence_app; [apply list_flags_subsequence|].
  apply subsequence_app_skip.
  apply subsequence_app;
    [apply subsequence_flag_if; intros H; now apply andb_true_iff in H|].
  apply subsequence_app_r.
  apply subsequence_flag_if; intros H; now apply andb_true_iff in H.
Qed.

Lemma edit_flags_mutable_view plan state :
  edit_flags plan state = edit_flags (mutable_view plan) (mutable_view state).
Proof. reflexivity. Qed.

Lemma lists_convert_mutable_view plan state :
  lists_convert plan state = lists_convert (mutable_view plan) (mutable_view state).
Proof. reflexivity. Qed.

End EditFlags.

(** ** Type names *)

Lemma last_byte_append (p s : string) (c d : ascii) :
  last_byte (p ++ String c s) d = last_byte (String c s) d.
Proof. revert d. induction p as [|a p IH]; intros d; cbn; [reflexivity | apply IH]. Qed.

(** ** The scanner on what the encoder writes *)

Lemma string_app_assoc (a b c : string) : ((a ++ b) ++ c = a ++ b ++ c)%string.
Proof. induction a as [|x a IH]; cbn; [reflexivity | now rewrite IH]. Qed.


Section JsonTexts.
Import json.

Lemma scan_bytes_step (s s' : scanner) (c : ascii) (data : string) :
  scan_step s (byte_val c) = s' -> goes_on s' = true ->
  scan_bytes s (String c data) = scan_bytes s' data.
Proof.
  intros <-. unfold goes_on. cbn [scan_bytes].
  destruct (sc_step (scan_step s (byte_val c))); try reflexivity.
  destruct (sc_err (scan_step s (byte_val c))); [discriminate | reflexivity].
Qed.

Lemma scan_ascii_chunk (c : ascii) tail t ps d e :
  (byte_val c <? utf8.RuneSelf)%N = true ->
  scan_bytes (in_string t ps d e) (ascii_chunk (byte_val c) c ++ tail)
  = scan_bytes (in_string t ps d e) tail.
Proof.
  destruct c as [b0 b1 b2 b3 b4 b5 b6 b7].
  destruct b0, b1, b2, b3, b4, b5, b6, b7; intros H;
    solve [discriminate H | reflexivity].
Qed.

Lemma scan_high_byte (c : ascii) tail t ps d e :
  high c = true ->
  scan_bytes (in_string t ps d e) (String c tail)
  = scan_bytes (in_string t ps d e) tail.
Proof.
  destruct c as [b0 b1 b2 b3 b4 b5 b6 b7].
  destruct b0, b1, b2, b3, b4, b5, b6, b7; intros H;
    solve [discriminate H | reflexivity].
Qed.

Lemma lead_high b sz lo hi :
  utf8.lead b = Some (sz, lo, hi) ->
  (128 <=? lo)%N = true /\ (sz = 2 \/ sz = 3 \/ sz = 4)%nat.
Proof.
  unfold utf8.lead.
  repeat match goal with
         | |- context [if ?c then _ else _] => destruct c
         end; intros H; inversion H; subst; auto.
Qed.

Lemma in_range_high lo hi b :
  (128 <=? lo)%N = true -> utf8.in_range lo hi b = true -> (128 <=? b)%N = true.
Proof.
  unfold utf8.in_range. intros Hlo H. apply andb_true_iff in H as [H _].
  apply N.leb_le in Hlo, H. apply N.leb_le. lia.
Qed.

Lemma cont_high b : utf8.cont b = true -> (128 <=? b)%N = true.
Proof. unfold utf8.cont. intros H. now apply andb_true_iff in H as [H _]. Qed.

(** A rune that decodes from more than one byte is made of bytes that
    the scanner takes as they are. *)
Lemma scan_rune (s : string) r size tail t ps d e :
  (byte_at 0 s <? utf8.RuneSelf)%N = false ->
  utf8.DecodeRuneInString (take utf8.UTFMax s) = (r, size) ->
  ((r =? utf8.RuneError)%N && (size =? 1)%nat)%bool = false ->
  scan_bytes (in_string t ps d e) (take size s ++ tail)
  = scan_bytes (in_string t ps d e) tail.
Proof.
  intros H0 Hd Hne.
  destruct s as [|c0 s]; [cbn in Hd; inversion Hd; reflexivity|].
  cbn [byte_at get] in H0.
  unfold utf8.DecodeRuneInString, utf8.UTFMax, take in Hd.
  destruct s as [|c1 s]; [|destruct s as [|c2 s]; [|destruct s as [|c3 s]]];
    cbn [substring] in Hd; rewrite H0 in Hd;
    (destruct (utf8.lead (byte_val c0)) as [[[sz lo] hi]|] eqn:Hlead;
     [|inversion Hd; subst; discriminate]);
    destruct (lead_high _ _ _ _ Hlead) as [Hlo [-> | [-> | ->]]];
    cbn [String.length Nat.ltb Nat.leb byte_at get] in Hd;
    try (inversion Hd; subst; discriminate).
  all: assert (Hh0 : high c0 = true)
      by (unfold high; apply N.leb_le; apply N.ltb_ge in H0; exact H0).
  all: destruct (utf8.in_range lo hi (byte_val c1)) eqn:H1; cbn [negb] in Hd;
    [|inversion Hd; subst; discriminate];
    pose proof (in_range_high _ _ _ Hlo H1) as Hh1.
  all: try (destruct (utf8.cont (byte_val c2)) eqn:H2; cbn [negb] in Hd;
            [|inversion Hd; subst; discriminate];
            pose proof (cont_high _ H2) as Hh2).
  all: try (destruct (utf8.cont (byte_val c3)) eqn:H3; cbn [negb] in Hd;
            [|inversion Hd; subst; discriminate];
            pose proof (cont_high _ H3) as Hh3).
  all: inversion Hd; subst; unfold take; cbn [substring String.append];
    rewrite !scan_high_byte by assumption;
    try (destruct s; reflexivity); reflexivity.
Qed.

(** The body of an encoded string keeps the scanner inside the string. *)
Lemma scan_escape (fuel : nat) : forall (s tail : string) t ps d e,
  scan_bytes (in_string t ps d e) (escape fuel s ++ tail)
  = scan_bytes (in_string t ps d e) tail.
Proof.
  induction fuel as [|fuel IH]; intros s tail t ps d e; [reflexivity|].
  destruct s as [|c s']; [reflexivity|]. cbn [escape].
  destruct (byte_val c <? utf8.RuneSelf)%N eqn:Hc.
  - rewrite string_app_assoc.
    rewrite (scan_ascii_chunk c _ t ps d e Hc). apply IH.
  - destruct (utf8.DecodeRuneInString (take utf8.UTFMax (String c s')))
      as [r size] eqn:Hd.
    destruct ((r =? utf8.RuneError)%N && (size =? 1)%nat)%bool eqn:Hne.
    + rewrite string_app_assoc.
      cbn [String.append];
        (etransitivity; [|apply (IH (drop size (String c s')) tail t ps d e)]);
        reflexivity.
    + destruct ((r =? 8232) || (r =? 8233))%N eqn:Hls.
      * assert (Hr : r = 8232%N \/ r = 8233%N).
        { apply orb_true_iff in Hls as [H|H]; apply N.eqb_eq in H; auto. }
        rewrite string_app_assoc.
        destruct Hr as [-> | ->]; cbn [String.append];
          (etransitivity; [|apply (IH (drop size (String c s')) tail t ps d e)]);
          reflexivity.
      * rewrite string_app_assoc.
        rewrite (scan_rune (String c s') r size _ t ps d e Hc Hd Hne). apply IH.
Qed.

Lemma scan_appendString (s tail : string) t ps d e :
  scan_bytes (in_string t ps d e) (escape (String.length s) s ++ String dquote tail)
  = scan_bytes {| sc_step := stateEndValue; sc_endTop := t; sc_parseState := ps;
                  sc_depth := d; sc_err := e |} tail.
Proof. rewrite scan_escape. reflexivity. Qed.

End JsonTexts.

(** One byte through the scanner, the state after it computed. *)
Ltac scan_byte :=
  match goal with
  | |- context [json.scan_bytes ?s (String ?c ?data)] =>
    let s' := eval vm_compute in (json.scan_step s (byte_val c)) in
    rewrite (scan_bytes_step s s' c data
               (@eq_refl json.scanner s' <: json.scan_step s (byte_val c) = s')
               (@eq_refl bool true <: goes_on s' = true))
  end.

Ltac scan_string :=
  match goal with
  | |- context [json.scan_bytes ?s (json.escape (String.length ?x) ?x ++ String dquote ?tail)] =>
    let s' := eval vm_compute in s in
    change (json.scan_bytes s (json.escape (String.length x) x ++ String dquote tail))
      with (json.scan_bytes (in_string (json.sc_endTop s') (json.sc_parseState s')
                                  (json.sc_depth s') (json.sc_err s'))
                       (json.escape (String.length x) x ++ String dquote tail));
    rewrite scan_appendString; cbn [json.sc_endTop json.sc_parseState json.sc_depth json.sc_err]
  end.


Section JsonDisks.
Import json.

Lemma scan_encode_disk (d : diskJSON) (tail : string) (st : step) :
  st = stateBeginValueOrEmpty \/ st = stateBeginValue ->
  scan_bytes (in_array st) (encode_disk d ++ tail)
  = scan_bytes (in_array stateEndValue) tail.
Proof.
  intros Hst. unfold encode_disk, appendString.
  repeat (rewrite ?string_app_assoc; cbn [String.append]).
  destruct Hst as [-> | ->]; unfold in_array;
    repeat first [scan_string | scan_byte]; reflexivity.
Qed.

(** The elements of the array after the first one. *)
Lemma scan_more_disks (ds : list diskJSON) (tail : string) :
  scan_bytes (in_array stateEndValue)
             (fold_right (fun d acc => "," ++ encode_disk d ++ acc) tail ds)
  = scan_bytes (in_array stateEndValue) tail.
Proof.
  induction ds as [|d ds IH]; [reflexivity|]. cbn [fold_right String.append].
  unfold in_array at 1. scan_byte. fold (in_array stateBeginValue).
  rewrite scan_encode_disk by auto. exact IH.
Qed.

Lemma concat_fold (d : diskJSON) (ds : list diskJSON) (tail : string) :
  String.concat "," (map encode_disk (d :: ds)) ++ tail
  = encode_disk d ++ fold_right (fun d acc => "," ++ encode_disk d ++ acc) tail ds.
Proof.
  revert d. induction ds as [|d' ds IH]; intros d.
  - reflexivity.
  - cbn [map String.concat fold_right] in *.
    rewrite !string_app_assoc. f_equal. cbn [String.append]. f_equal.
    apply IH.
Qed.

Lemma string_app_nil_r (s : string) : s ++ "" = s.
Proof. induction s as [|c s IH]; cbn; [reflexivity | now rewrite IH]. Qed.

Lemma string_body_ascii_chunk (c : ascii) (tail : string) :
  (byte_val c <? utf8.RuneSelf)%N = true ->
  string_body (ascii_chunk (byte_val c) c ++ tail)
  = match string_body tail with
    | Some (body, rest) => Some (ascii_chunk (byte_val c) c ++ body, rest)
    | None => None
    end.
Proof.
  destruct c as [b0 b1 b2 b3 b4 b5 b6 b7].
  destruct b0, b1, b2, b3, b4, b5, b6, b7; intros H; try discriminate H;
    cbn; destruct (string_body tail) as [[body rest]|]; reflexivity.
Qed.

Lemma escape_ascii (fuel : nat) (c : ascii) (s : string) :
  (byte_val c <? utf8.RuneSelf)%N = true ->
  escape (S fuel) (String c s) = ascii_chunk (byte_val c) c ++ escape fuel s.
Proof. intros H. cbn [escape]. rewrite H. reflexivity. Qed.

(** The closing quote of an encoded string is the first quote that is
    not escaped. *)
Lemma string_body_escape (s : string) : forall (fuel : nat) (rest : string),
  ascii_only s = true ->
  string_body (escape fuel s ++ String dquote rest) = Some (escape fuel s, rest).
Proof.
  induction s as [|c s IH]; intros fuel rest Hs.
  - destruct fuel; reflexivity.
  - destruct fuel as [|fuel]; [reflexivity|].
    cbn [ascii_only] in Hs. apply andb_true_iff in Hs as [Hc Hs].
    rewrite (escape_ascii _ _ _ Hc), string_app_assoc.
    rewrite (string_body_ascii_chunk _ _ Hc), (IH _ _ Hs). reflexivity.
Qed.

Lemma unquote_ascii_chunk (c : ascii) (k : nat) (tail : string) :
  (byte_val c <? utf8.RuneSelf)%N = true ->
  unquote (S k) (ascii_chunk (byte_val c) c ++ tail) = String c (unquote k tail).
Proof.
  destruct c as [b0 b1 b2 b3 b4 b5 b6 b7].
  destruct b0, b1, b2, b3, b4, b5, b6, b7; intros H; try discriminate H;
    reflexivity.
Qed.

Lemma unquote_escape (s : string) : forall (fuel k : nat),
  ascii_only s = true ->
  String.length s <= fuel -> String.length s <= k ->
  unquote k (escape fuel s) = s.
Proof.
  induction s as [|c s IH]; intros fuel k Hs Hf Hk.
  - destruct fuel, k; reflexivity.
  - cbn [String.length] in Hf, Hk.
    destruct fuel as [|fuel]; [lia|]. destruct k as [|k]; [lia|].
    cbn [ascii_only] in Hs. apply andb_true_iff in Hs as [Hc Hs].
    rewrite (escape_ascii _ _ _ Hc).
    rewrite <- (string_app_nil_r (escape fuel s)), <- string_app_assoc.
    rewrite string_app_assoc, (unquote_ascii_chunk _ _ _ Hc), string_app_nil_r.
    f_equal. apply IH; [assumption | lia | lia].
Qed.

Lemma string_length_app (a b : string) :
  String.length (a ++ b) = String.length a + String.length b.
Proof. induction a as [|c a IH]; cbn; [reflexivity | now rewrite IH]. Qed.

Lemma length_ascii_chunk (c : ascii) : 1 <= String.length (ascii_chunk (byte_val c) c).
Proof.
  unfold ascii_chunk.
  repeat match goal with
         | |- context [if ?b then _ else _] => destruct b
         end; cbn; lia.
Qed.

Lemma length_escape (s : string) : forall fuel,
  ascii_only s = true -> String.length s <= fuel ->
  String.length s <= String.length (escape fuel s).
Proof.
  induction s as [|c s IH]; intros fuel Hs Hf; [cbn; lia|].
  cbn [String.length] in Hf. destruct fuel as [|fuel]; [lia|].
  cbn [ascii_only] in Hs. apply andb_true_iff in Hs as [Hc Hs].
  rewrite (escape_ascii _ _ _ Hc), string_length_app. cbn [String.length].
  pose proof (length_ascii_chunk c). pose proof (IH fuel Hs). lia.
Qed.

(** Decoding an encoded string of ASCII bytes gives the string back. *)
Lemma unquoteBytes_escape (s : string) :
  ascii_only s = true -> unquoteBytes (escape (String.length s) s) = s.
Proof.
  intros Hs. unfold unquoteBytes. apply unquote_escape; [assumption | lia|].
  now apply length_escape.
Qed.

Lemma checkValid_encode_disk (d : diskJSON) : checkValid (encode_disk d) = None.
Proof.
  unfold checkValid. rewrite <- (string_app_nil_r (encode_disk d)).
  unfold encode_disk, appendString.
  repeat (rewrite ?string_app_assoc; cbn [String.append]).
  unfold reset. repeat first [scan_string | scan_byte]. reflexivity.
Qed.


End JsonDisks.

(** * Properties *)

(** ** Instance Update *)

(** C1, as the claim states it, fails: switching a boolean toggle off is a
    change of a mutable attribute ([rosetta] from true to false here), and
    Update runs no command for it: it persists the plan directly. *)
Lemma C1_toggle_switched_off_runs_no_command :
  mutable_differs plain_instance rosetta_on = true
  /\ commands (trace (play (Inst.Update (go := go_runtime) plain_instance rosetta_on)
                           [] (Some rosetta_on))) = []
  /\ State (play (Inst.Update (go := go_runtime) plain_instance rosetta_on)
                 [] (Some rosetta_on)) = Some plain_instance.
Proof. repeat split; vm_compute; reflexivity. Qed.

(** C1, amended: when some changed mutable attribute gives an edit flag (a
    scalar changed to a value that is not null, a list changed to one
    that is not empty, a toggle changed to true) and the changed lists
    hold known elements only, Update runs stop, then edit with the name
    and exactly the flags of the changed attributes, then start, in that
    order; the first command that fails ends the sequence, its failure is
    the one diagnostic reported and the state is left as it was; when the
    three succeed nothing is reported and the plan is persisted. *)
Theorem C1_update_runs_stop_edit_start (host : Host) (go : GoRuntime)
  (plan state : Inst.LimaInstanceResourceModel) (w : World)
  (st : option Inst.LimaInstanceResourceModel) :
  contributes_flag plan state = true ->
  lists_convert plan state = true ->
  let name := ValueString (Inst.Name plan) in
  let args := "edit" :: name :: edit_flags plan state in
  let '(stopRes, w1) := limactl w ["stop"; name] in
  let '(editRes, w2) := limactl w1 args in
  let '(startRes, w3) := limactl w2 ["start"; name] in
  let r := run (Inst.Update plan state) (response w st) in
  let '(cmds, ds, persisted) := edit_cycle name args stopRes editRes startRes in
  executions (trace r) = cmds /\ Diagnostics r = ds
  /\ State r = (if persisted then Some plan else st).
Proof.
  intros Hc Hl name args.
  destruct (limactl w ["stop"; name]) as [stopRes w1] eqn:Hstop.
  destruct (limactl w1 args) as [editRes w2] eqn:Hedit.
  destruct (limactl w2 ["start"; name]) as [startRes w3] eqn:Hstart.
  intros r.
  assert (Hlen : (2 <? length args)%nat = true).
  { pose proof (contributes_edit_flags _ _ Hc Hl) as H.
    apply Nat.ltb_lt in H. apply Nat.ltb_lt. subst args. cbn [length]. lia. }
  subst r. unfold run, Inst.Update, response. hcbn.
  rewrite (bind_some _ _ _ _ _
             (Update_args_converts plan state (response w st) eq_refl Hl)).
  fold name. fold args. rewrite Hlen. unfold edit_cycle.
  unfold Handler_bind, CombinedOutput, tflog. hcbn. rewrite Hstop.
  destruct (err stopRes) as [e|]; hcbn; [auto|].
  rewrite Hedit. destruct (err editRes) as [e|]; hcbn; [auto|].
  rewrite Hstart. destruct (err startRes) as [e|]; hcbn; auto.
Qed.

(** The scenario of the specification: CPUs from 2 to 4. *)
Lemma C1_update_cpus_witness :
  contributes_flag (cpus 4) (cpus 2) = true
  /\ lists_convert (cpus 4) (cpus 2) = true
  /\ executions (trace (play (Inst.Update (go := go_runtime) (cpus 4) (cpus 2))
                             [] (Some (cpus 2))))
     = [(["stop"; "test-instance"], succeeds "");
        (["edit"; "test-instance"; "--cpus=4"], succeeds "");
        (["start"; "test-instance"], succeeds "")]
  /\ State (play (Inst.Update (go := go_runtime) (cpus 4) (cpus 2))
                 [] (Some (cpus 2))) = Some (cpus 4).
Proof.
  pose proof (C1_update_runs_stop_edit_start scripted go_runtime
                (cpus 4) (cpus 2) [] (Some (cpus 2)) eq_refl eq_refl) as H.
  cbn in H. destruct H as (Hx & _ & Hs).
  split; [reflexivity|]. split; [reflexivity|]. split; [exact Hx | exact Hs].
Defined.

Lemma unflagged_scalar_flag {A} (eqb : A -> A -> bool) p s :
  unflagged_scalar eqb p s -> scalar_flag eqb p s = false.
Proof.
  unfold scalar_flag. intros [-> | ->]; [apply andb_false_r | reflexivity].
Qed.

Lemma unflagged_list_flag p s : unflagged_list p s -> list_flag p s = false.
Proof.
  unfold list_flag. intros [-> | [-> | ->]]; [reflexivity | | ];
    rewrite ?andb_false_r; reflexivity.
Qed.

Lemma unflagged_toggle_flag p s : unflagged_toggle p s -> toggle_flag p s = false.
Proof.
  unfold toggle_flag. intros [-> | ->]; [reflexivity | apply andb_false_r].
Qed.

Lemma unflagged_no_contribution plan state :
  every_change_unflagged plan state -> contributes_flag plan state = false.
Proof.
  unfold every_change_unflagged, contributes_flag.
  intros (H1 & H2 & H3 & H4 & H5 & H6 & H7 & H8 & H9 & H10 & H11).
  rewrite !unflagged_scalar_flag, !unflagged_list_flag, !unflagged_toggle_flag
    by assumption.
  reflexivity.
Qed.

(** C9: when every mutable attribute is unchanged or changed in a way
    that gives no edit flag (a list made null or empty, a toggle made
    false, a scalar made null), Update invokes no command at all (the
    world is as it was) and persists the plan, reporting nothing. *)
Theorem C9_update_without_flags_runs_nothing (host : Host) (go : GoRuntime)
  (plan state : Inst.LimaInstanceResourceModel) (w : World)
  (st : option Inst.LimaInstanceResourceModel) :
  every_change_unflagged plan state ->
  let r := run (Inst.Update plan state) (response w st) in
  commands (trace r) = [] /\ world r = w
  /\ Diagnostics r = [] /\ State r = Some plan.
Proof.
  intros Hu r. pose proof (unflagged_no_contribution _ _ Hu) as Hc.
  destruct (no_contribution _ _ Hc) as [Hl He].
  assert (Hr : r = {| world := w; trace := []; Diagnostics := [];
                      State := Some plan |}).
  { subst r. unfold run, Inst.Update, response. hcbn.
    rewrite (bind_some _ _ _ _ _
               (Update_args_converts plan state (response w st) eq_refl Hl)).
    rewrite He. reflexivity. }
  rewrite Hr. cbn. auto.
Qed.

(** A toggle switched off, a list emptied and a scalar made null, all at
    once. *)
Lemma C9_deconfigure_witness :
  mutable_differs deconfigured configured = true
  /\ every_change_unflagged deconfigured configured
  /\ commands (trace (play (Inst.Update (go := go_runtime) deconfigured configured)
                           [] (Some configured))) = []
  /\ State (play (Inst.Update (go := go_runtime) deconfigured configured)
                 [] (Some configured)) = Some deconfigured.
Proof.
  assert (Hu : every_change_unflagged deconfigured configured).
  { unfold every_change_unflagged, unflagged_scalar, unflagged_list,
      unflagged_toggle. cbn. intuition reflexivity. }
  destruct (C9_update_without_flags_runs_nothing scripted go_runtime
              deconfigured configured [] (Some configured) Hu)
    as (Hc & _ & _ & Hs).
  split; [reflexivity|]. split; [exact Hu|]. split; [exact Hc | exact Hs].
Defined.

(** ** Disk Update *)

(** C2: the code breaks the claim at sizes that differ by less than a
    [float64] can tell. The stored size is 10 + 2^-60 and the planned size
    is 10, strictly less. Update finds the two not [Equal], since [Equal]
    compares the stored numbers; both round to the [float64] 10, so the
    test [<] on the roundings is false; Update then runs
    [disk resize test-disk --size=10G --tty=false], reports nothing and
    persists the plan, the smaller size with it. The claim has the
    operation fail before any command and leave the state as it was. *)
Theorem C2_decrease_within_rounding_is_resized :
  big.Cmp (big.SetInt64 10) above_10 = Lt
  /\ Float64_Equal (Disk.Size (test_disk 10)) (Disk.Size test_disk_above_10) = false
  /\ ValueFloat64 (Disk.Size (test_disk 10))
     = ValueFloat64 (Disk.Size test_disk_above_10)
  /\ commands (trace (play (Disk.Update (go := go_runtime) (test_disk 10)
                                        test_disk_above_10)
                           [] (Some test_disk_above_10)))
     = [["disk"; "resize"; "test-disk"; "--size=10G"; "--tty=false"]]
  /\ Diagnostics (play (Disk.Update (go := go_runtime) (test_disk 10)
                                    test_disk_above_10)
                       [] (Some test_disk_above_10)) = []
  /\ State (play (Disk.Update (go := go_runtime) (test_disk 10) test_disk_above_10)
                 [] (Some test_disk_above_10)) = Some (test_disk 10).
Proof. repeat split; vm_compute; reflexivity. Qed.

(** ** Instance Create *)

(** C3: with a template that is not null, the creation command ends with
    [--tty=false] and the template argument: the value prefixed with
    [template://] when it neither starts with [http] (the prefix of an
    HTTP or HTTPS URL) nor ends in [.yaml], the value itself otherwise.
    Create invokes no command only when it returns with an error before
    the command is built. *)
Theorem C3_template_argument (host : Host) (go : GoRuntime)
  (data : Inst.LimaInstanceResourceModel) (w : World)
  (st : option Inst.LimaInstanceResourceModel) :
  IsNull (Inst.Template data) = false ->
  let template := ValueString (Inst.Template data) in
  let passed :=
    if negb (strings.HasPrefix template "http")
       && negb (strings.HasSuffix template ".yaml")
    then "template://" ++ template
    else template in
  let r := run (Inst.Create data) (response w st) in
  match commands (trace r) with
  | [] => HasError (Diagnostics r) = true
  | create :: _ =>
    exists flags, create = ("create" :: flags ++ ["--tty=false"; passed])%list
  end.
Proof.
  intros Hnull template passed r. subst r.
  unfold run, Inst.Create, response. hcbn.
  destruct (Create_args_outcome data (response w st) eq_refl)
    as [(args & Hargs & flags & ->) | (r' & Hargs & Hw & Htr & Hst & Herr)].
  - rewrite (bind_some _ _ _ _ _ Hargs).
    unfold Handler_bind, CombinedOutput, tflog. hcbn.
    unfold create_tail. rewrite Hnull. cbn [negb]. fold template. fold passed.
    destruct (limactl w _) as [res w1]. hcbn.
    destruct (err res) as [e|]; hcbn; [now exists flags|].
    destruct (limactl w1 _) as [sres w2]. hcbn.
    destruct (err sres) as [e|]; hcbn; [|now exists flags].
    destruct (limactl w2 _) as [dres w3]. hcbn.
    destruct (err dres) as [e'|]; hcbn; now exists flags.
  - rewrite (bind_none _ _ _ _ Hargs). cbn [snd]. rewrite Htr. exact Herr.
Qed.

(** The named template [docker]. *)
Lemma C3_template_witness :
  IsNull (Inst.Template (from_template "docker")) = false
  /\ exists flags,
      hd [] (commands (trace (play (Inst.Create (go := go_runtime)
                                                (from_template "docker"))
                                   [] None)))
      = ("create" :: flags ++ ["--tty=false"; "template://docker"])%list.
Proof.
  split; [reflexivity|].
  pose proof (C3_template_argument scripted go_runtime (from_template "docker")
                [] None eq_refl) as H.
  vm_compute in H. destruct H as [flags H]. exists flags.
  vm_compute. exact H.
Defined.

(** C5: when the creation command has succeeded and the start command
    has failed, the start was invoked on the record's name and is
    followed by exactly one more command, the delete of that name; a
    failure of the delete is logged at the error level and reported
    nowhere else; the one diagnostic is the start failure; and the
    response state is untouched, so no record is persisted. *)
Theorem C5_start_failure_cleans_up (host : Host) (go : GoRuntime)
  (data : Inst.LimaInstanceResourceModel) (w : World)
  (st : option Inst.LimaInstanceResourceModel)
  (createArgs startArgs : list string) (createRes startRes : CmdResult)
  (rest : list (list string * CmdResult)) (startErr : string) :
  let name := ValueString (Inst.Name data) in
  let r := run (Inst.Create data) (response w st) in
  executions (trace r) = (createArgs, createRes) :: (startArgs, startRes) :: rest ->
  err createRes = None ->
  err startRes = Some startErr ->
  startArgs = ["start"; name]
  /\ (exists deleteRes,
         rest = [(["delete"; name], deleteRes)]
         /\ logged LvlError (trace r) =
            match err deleteRes with
            | Some _ => ["Failed to clean up instance after start failure"]
            | None => []
            end)
  /\ Diagnostics r =
     [ErrorDiagnostic "Failed to start Lima instance"
        (command_failure ("start " ++ name) startErr (output startRes))]
  /\ State r = st.
Proof.
  intros name r. subst r. unfold run, Inst.Create, response. hcbn.
  destruct (Create_args_outcome data (response w st) eq_refl)
    as [(args & Hargs & _) | (r' & Hargs & Hw & Htr & Hst & Herr)].
  - rewrite (bind_some _ _ _ _ _ Hargs).
    unfold Handler_bind, CombinedOutput, tflog. hcbn.
    destruct (limactl w _) as [res w1]. hcbn.
    destruct (err res) as [e|] eqn:Hres; hcbn; [discriminate|].
    destruct (limactl w1 _) as [sres w2]. hcbn.
    destruct (err sres) as [e|] eqn:Hsres; hcbn.
    + destruct (limactl w2 _) as [dres w3]. hcbn. fold name.
      destruct (err dres) as [e'|] eqn:Hdres; hcbn;
        intros Hex _ Hs; inversion Hex; subst;
        rewrite Hsres in Hs; inversion Hs; subst;
        (split; [reflexivity|]); (split; [|split; reflexivity]);
        exists dres; rewrite Hdres; split; reflexivity.
    + intros Hex _ Hs. inversion Hex; subst. congruence.
  - rewrite (bind_none _ _ _ _ Hargs). cbn [snd]. rewrite Htr. discriminate.
Qed.

(** The start fails and so does the clean-up. *)
Lemma C5_start_failure_witness :
  executions (trace (play (Inst.Create (go := go_runtime) plain_instance)
                          (start_fails_script (fails exit_status_1 "busy")) None))
  = [(["create"; "--name=test-instance"; "--tty=false"], succeeds "");
     (["start"; "test-instance"], fails exit_status_1 "boom");
     (["delete"; "test-instance"], fails exit_status_1 "busy")]
  /\ logged LvlError
            (trace (play (Inst.Create (go := go_runtime) plain_instance)
                         (start_fails_script (fails exit_status_1 "busy")) None))
     = ["Failed to clean up instance after start failure"]
  /\ Diagnostics (play (Inst.Create (go := go_runtime) plain_instance)
                       (start_fails_script (fails exit_status_1 "busy")) None)
     = [ErrorDiagnostic "Failed to start Lima instance"
          (command_failure "start test-instance" exit_status_1 "boom")]
  /\ State (play (Inst.Create (go := go_runtime) plain_instance)
                 (start_fails_script (fails exit_status_1 "busy")) None) = None.
Proof.
  assert (Hex :
    executions (trace (play (Inst.Create (go := go_runtime) plain_instance)
                            (start_fails_script (fails exit_status_1 "busy")) None))
    = [(["create"; "--name=test-instance"; "--tty=false"], succeeds "");
       (["start"; "test-instance"], fails exit_status_1 "boom");
       (["delete"; "test-instance"], fails exit_status_1 "busy")])
    by reflexivity.
  destruct (C5_start_failure_cleans_up scripted go_runtime plain_instance
              (start_fails_script (fails exit_status_1 "busy")) None
              _ _ _ _ _ exit_status_1 Hex eq_refl eq_refl)
    as (_ & (dres & Hrest & Hlog) & Hd & Hs).
  injection Hrest as <-.
  split; [exact Hex|]. split; [exact Hlog|]. split; [exact Hd | exact Hs].
Defined.

(** ** Read *)

(** C4, as the claim states it, fails: a line of the listing that is not
    empty and not valid JSON, standing after the line that names the
    record, is not reported; Read succeeds and keeps the record. *)
Lemma C4_garbage_after_match_is_not_reported :
  In "not json" (listing_lines (listing_then_garbage "test-disk"))
  /\ json.Valid "not json" = false
  /\ Diagnostics (play (Disk.Read (go := go_runtime) (test_disk 10))
                       [succeeds (listing_then_garbage "test-disk")]
                       (Some (test_disk 10))) = []
  /\ State (play (Disk.Read (go := go_runtime) (test_disk 10))
                 [succeeds (listing_then_garbage "test-disk")]
                 (Some (test_disk 10))) = Some (test_disk 10).
Proof.
  split; [vm_compute; auto|]. repeat split; vm_compute; reflexivity.
Qed.

(** C4, amended: when the listing command succeeds, a line that is not
    empty and not valid JSON, every line before which is empty or parses
    and names another object, makes Read (of a disk and of an instance)
    fail with the parse error, whose detail carries the error of the
    decoder and the line; it is the one diagnostic of the response, and
    the response state is left as it was. *)
Theorem C4_first_unparsable_line_is_reported (host : Host) (go : GoRuntime)
  (out name line : string) (pre post : list string) :
  listing_lines out = (pre ++ line :: post)%list ->
  Forall (passed_over name) pre ->
  line <> "" ->
  json_Valid line = false ->
  exists e,
    json_Unmarshal_name line = Err e
    /\ (forall (data : Disk.LimaDiskResourceModel) w w' st,
           ValueString (Disk.Name data) = name ->
           limactl w ["disk"; "list"; "--json"] = (succeeds out, w') ->
           let r := run (Disk.Read data) (response w st) in
           Diagnostics r =
             [ErrorDiagnostic "Failed to parse disk list JSON"
                ("Error: " ++ e ++ nl ++ "Line: " ++ line)]
           /\ State r = st)
    /\ (forall (data : Inst.LimaInstanceResourceModel) w w' st,
           ValueString (Inst.Name data) = name ->
           limactl w ["list"; "--json"] = (succeeds out, w') ->
           let r := run (Inst.Read data) (response w st) in
           Diagnostics r =
             [ErrorDiagnostic "Failed to parse instance list JSON"
                ("Error: " ++ e ++ nl ++ "Line: " ++ line)]
           /\ State r = st).
Proof.
  intros Hlines Hpre Hne Hbad.
  destruct (json_Unmarshal_invalid line Hbad) as [e He]. exists e.
  split; [exact He|].
  pose proof (scan_bad name pre line post e Hpre Hne He) as Hscan.
  rewrite <- Hlines in Hscan.
  split; intros data w w' st Hname Hl r; subst r.
  - rewrite (disk_Read_run data w st _ _ Hl). cbn [succeeds err output].
    cbv zeta. rewrite Hname, Hscan. cbn. auto.
  - rewrite (inst_Read_run data w st _ _ Hl). cbn [succeeds err output].
    cbv zeta. rewrite Hname, Hscan. cbn. auto.
Qed.

(** The line that is no JSON stands before the line of the record. *)
Lemma C4_garbage_before_match_witness :
  listing_lines (garbage_then_listing "test-disk")
  = ([dq "{'name':'other'}"] ++ "not json" :: [dq "{'name':'test-disk'}"])%list
  /\ json.Valid "not json" = false
  /\ Diagnostics (play (Disk.Read (go := go_runtime) (test_disk 10))
                       [succeeds (garbage_then_listing "test-disk")]
                       (Some (test_disk 10)))
     = [ErrorDiagnostic "Failed to parse disk list JSON"
          ("Error: invalid character 'o' in literal null (expecting 'u')" ++ nl
           ++ "Line: not json")]
  /\ State (play (Disk.Read (go := go_runtime) (test_disk 10))
                 [succeeds (garbage_then_listing "test-disk")]
                 (Some (test_disk 10))) = Some (test_disk 10).
Proof.
  assert (Hpre : Forall (passed_over (go := go_runtime) "test-disk")
                        [dq "{'name':'other'}"]).
  { constructor; [|constructor]. right. exists "other".
    split; [reflexivity | discriminate]. }
  destruct (C4_first_unparsable_line_is_reported scripted go_runtime
              (garbage_then_listing "test-disk") "test-disk" "not json"
              [dq "{'name':'other'}"] [dq "{'name':'test-disk'}"]
              eq_refl Hpre ltac:(discriminate) eq_refl)
    as (e & He & Hd & _).
  vm_compute in He. injection He as <-.
  destruct (Hd (test_disk 10) [succeeds (garbage_then_listing "test-disk")] []
               (Some (test_disk 10)) eq_refl eq_refl) as [H1 H2].
  split; [reflexivity|]. split; [reflexivity|]. split; [exact H1 | exact H2].
Defined.

(** C6: when the listing command succeeds and every line that is not
    empty parses, Read (of a disk and of an instance) reports nothing and
    leaves in the response state the stored record itself, every field as
    it was, when some line names it, and no record when no line does. *)
Theorem C6_read_reconciles_by_name (host : Host) (go : GoRuntime) (out : string) :
  all_parse (listing_lines out) = true ->
  (forall (data : Disk.LimaDiskResourceModel) w w' st,
      limactl w ["disk"; "list"; "--json"] = (succeeds out, w') ->
      let r := run (Disk.Read data) (response w st) in
      Diagnostics r = []
      /\ State r = (if name_listed (ValueString (Disk.Name data)) (listing_lines out)
                    then Some data else None))
  /\ (forall (data : Inst.LimaInstanceResourceModel) w w' st,
         limactl w ["list"; "--json"] = (succeeds out, w') ->
         let r := run (Inst.Read data) (response w st) in
         Diagnostics r = []
         /\ State r = (if name_listed (ValueString (Inst.Name data)) (listing_lines out)
                       then Some data else None)).
Proof.
  intros Hall. split; intros data w w' st Hl r; subst r.
  - rewrite (disk_Read_run data w st _ _ Hl). cbn [succeeds err output]. cbv zeta.
    rewrite (scan_all_parse _ _ Hall). destruct (name_listed _ _); cbn; auto.
  - rewrite (inst_Read_run data w st _ _ Hl). cbn [succeeds err output]. cbv zeta.
    rewrite (scan_all_parse _ _ Hall). destruct (name_listed _ _); cbn; auto.
Qed.

(** A listing that names [test-disk]: the disk is kept, and an instance
    of another name is removed. *)
Lemma C6_read_witness :
  all_parse (go := go_runtime) (listing_lines (listing_of "test-disk")) = true
  /\ State (play (Disk.Read (go := go_runtime) (test_disk 10))
                 [succeeds (listing_of "test-disk")] (Some (test_disk 10)))
     = Some (test_disk 10)
  /\ State (play (Inst.Read (go := go_runtime) plain_instance)
                 [succeeds (listing_of "test-disk")] (Some plain_instance))
     = None.
Proof.
  destruct (C6_read_reconciles_by_name scripted go_runtime
              (listing_of "test-disk") eq_refl) as [Hd Hi].
  split; [reflexivity|]. split.
  - exact (proj2 (Hd (test_disk 10) [succeeds (listing_of "test-disk")] []
                     (Some (test_disk 10)) eq_refl)).
  - exact (proj2 (Hi plain_instance [succeeds (listing_of "test-disk")] []
                     (Some plain_instance) eq_refl)).
Defined.

(** C10: for a Read (of a disk and of an instance) whose listing command
    succeeds, (1) the scan ends at the first line whose name is the
    record's: whatever the lines after it are, malformed ones included,
    nothing is reported and the record is kept; (2) empty lines are
    skipped: two listings with the same lines that are not empty give the
    same diagnostics and the same state; (3) a listing of white space
    only removes the record and reports nothing. *)
Theorem C10_read_stops_at_first_match (host : Host) (go : GoRuntime) :
  (forall (out name m : string) (pre post : list string),
      listing_lines out = (pre ++ m :: post)%list ->
      Forall (passed_over name) pre ->
      m <> "" ->
      json_Unmarshal_name m = Ok name ->
      (forall (data : Disk.LimaDiskResourceModel) w w' st,
          ValueString (Disk.Name data) = name ->
          limactl w ["disk"; "list"; "--json"] = (succeeds out, w') ->
          let r := run (Disk.Read data) (response w st) in
          Diagnostics r = [] /\ State r = Some data)
      /\ (forall (data : Inst.LimaInstanceResourceModel) w w' st,
             ValueString (Inst.Name data) = name ->
             limactl w ["list"; "--json"] = (succeeds out, w') ->
             let r := run (Inst.Read data) (response w st) in
             Diagnostics r = [] /\ State r = Some data))
  /\ (forall (out out' : string),
         filter nonempty (listing_lines out) = filter nonempty (listing_lines out') ->
         (forall (data : Disk.LimaDiskResourceModel) w1 w1' w2 w2' st,
             limactl w1 ["disk"; "list"; "--json"] = (succeeds out, w1') ->
             limactl w2 ["disk"; "list"; "--json"] = (succeeds out', w2') ->
             let r1 := run (Disk.Read data) (response w1 st) in
             let r2 := run (Disk.Read data) (response w2 st) in
             Diagnostics r1 = Diagnostics r2 /\ State r1 = State r2)
         /\ (forall (data : Inst.LimaInstanceResourceModel) w1 w1' w2 w2' st,
                limactl w1 ["list"; "--json"] = (succeeds out, w1') ->
                limactl w2 ["list"; "--json"] = (succeeds out', w2') ->
                let r1 := run (Inst.Read data) (response w1 st) in
                let r2 := run (Inst.Read data) (response w2 st) in
                Diagnostics r1 = Diagnostics r2 /\ State r1 = State r2))
  /\ (forall (out : string),
         Forall ascii_space (list_ascii_of_string out) ->
         (forall (data : Disk.LimaDiskResourceModel) w w' st,
             limactl w ["disk"; "list"; "--json"] = (succeeds out, w') ->
             let r := run (Disk.Read data) (response w st) in
             Diagnostics r = [] /\ State r = None)
         /\ (forall (data : Inst.LimaInstanceResourceModel) w w' st,
                limactl w ["list"; "--json"] = (succeeds out, w') ->
                let r := run (Inst.Read data) (response w st) in
                Diagnostics r = [] /\ State r = None)).
Proof.
  split; [|split].
  - intros out name m pre post Hlines Hpre Hne Hm.
    pose proof (scan_found name pre m post Hpre Hne Hm) as Hscan.
    rewrite <- Hlines in Hscan.
    split; intros data w w' st Hname Hl r; subst r.
    + rewrite (disk_Read_run data w st _ _ Hl). cbn [succeeds err output].
      cbv zeta. rewrite Hname, Hscan. cbn. auto.
    + rewrite (inst_Read_run data w st _ _ Hl). cbn [succeeds err output].
      cbv zeta. rewrite Hname, Hscan. cbn. auto.
  - intros out out' Hsame.
    split; intros data w1 w1' w2 w2' st Hl1 Hl2 r1 r2; subst r1 r2.
    + rewrite (disk_Read_run data w1 st _ _ Hl1), (disk_Read_run data w2 st _ _ Hl2).
      cbn [succeeds err output]. cbv zeta.
      rewrite (scan_nonempty _ (listing_lines out)), Hsame, <- scan_nonempty.
      destruct (scan _ _); cbn; auto.
    + rewrite (inst_Read_run data w1 st _ _ Hl1), (inst_Read_run data w2 st _ _ Hl2).
      cbn [succeeds err output]. cbv zeta.
      rewrite (scan_nonempty _ (listing_lines out)), Hsame, <- scan_nonempty.
      destruct (scan _ _); cbn; auto.
  - intros out Hws. pose proof (listing_lines_spaces out Hws) as Hlines.
    split; intros data w w' st Hl r; subst r.
    + rewrite (disk_Read_run data w st _ _ Hl). cbn [succeeds err output].
      cbv zeta. rewrite Hlines. cbn. auto.
    + rewrite (inst_Read_run data w st _ _ Hl). cbn [succeeds err output].
      cbv zeta. rewrite Hlines. cbn. auto.
Qed.

(** A malformed line after the match, and a listing of blanks. *)
Lemma C10_witness :
  State (play (Disk.Read (go := go_runtime) (test_disk 10))
              [succeeds (listing_then_garbage "test-disk")] (Some (test_disk 10)))
  = Some (test_disk 10)
  /\ Diagnostics (play (Disk.Read (go := go_runtime) (test_disk 10))
                       [succeeds (listing_then_garbage "test-disk")]
                       (Some (test_disk 10))) = []
  /\ State (play (Inst.Read (go := go_runtime) plain_instance)
                 [succeeds blank_listing] (Some plain_instance)) = None
  /\ Diagnostics (play (Inst.Read (go := go_runtime) plain_instance)
                       [succeeds blank_listing] (Some plain_instance)) = [].
Proof.
  destruct (C10_read_stops_at_first_match scripted go_runtime) as (Ha & _ & Hc).
  destruct (Ha (listing_then_garbage "test-disk") "test-disk"
               (dq "{'name':'test-disk'}") [] ["not json"]
               eq_refl (Forall_nil _) ltac:(discriminate) eq_refl) as [Hd _].
  destruct (Hd (test_disk 10) [succeeds (listing_then_garbage "test-disk")] []
               (Some (test_disk 10)) eq_refl eq_refl) as [H1 H2].
  assert (Hws : Forall ascii_space (list_ascii_of_string blank_listing)).
  { repeat (apply Forall_cons; [unfold ascii_space; cbn; auto 10|]).
    apply Forall_nil. }
  destruct (Hc blank_listing Hws) as [_ Hi].
  destruct (Hi plain_instance [succeeds blank_listing] [] (Some plain_instance)
               eq_refl) as [H3 H4].
  repeat split; assumption.
Defined.

(** ** Disk Create *)

(** C7: for a disk of name [n] and size [s] with the default format,
    Create invokes exactly one command,
    [disk create n --size=<s>G --format=qcow2 --tty=false], the size
    printed with [%g] (of the [float64] that the stored number rounds
    to); when it succeeds nothing is reported and the
    record persisted is the plan with its identifier set to the name;
    when it fails the failure is reported and the state is left as it
    was. For [test-disk] of size 10 the command is
    [disk create test-disk --size=10G --format=qcow2 --tty=false]. *)
Theorem C7_disk_create_invocation :
  (forall (host : Host) (go : GoRuntime) (n : string) (s : big.Float)
          (id : StringValue) (w : World) (st : option Disk.LimaDiskResourceModel),
      let data := {| Disk.Name := Known n; Disk.Size := Known s;
                     Disk.Format := Known Disk.Format_default; Disk.Id := id |} in
      let args := ["disk"; "create"; n;
                   "--size=" ++ fmt_g (big.Float64 s) ++ "G";
                   "--format=qcow2"; "--tty=false"] in
      let res := fst (limactl w args) in
      let r := run (Disk.Create data) (response w st) in
      executions (trace r) = [(args, res)]
      /\ match err res with
         | None =>
           Diagnostics r = []
           /\ State r = Some {| Disk.Name := Known n; Disk.Size := Known s;
                                Disk.Format := Known Disk.Format_default;
                                Disk.Id := Known n |}
         | Some e =>
           Diagnostics r =
             [ErrorDiagnostic "Failed to create Lima disk"
                (command_failure (strings.Join args " ") e (output res))]
           /\ State r = st
         end)
  /\ commands (trace (play (Disk.Create (go := go_runtime) (test_disk 10)) [] None))
     = [["disk"; "create"; "test-disk"; "--size=10G"; "--format=qcow2";
         "--tty=false"]].
Proof.
  split; [|reflexivity].
  intros host go n s id w st data args res r. subst r res.
  unfold run, Disk.Create, response. hcbn.
  unfold Handler_bind, CombinedOutput, tflog. hcbn.
  change (append (append_if true _ _) "--tty=false") with args.
  destruct (limactl w args) as [res w1]. hcbn.
  destruct (err res) as [e|]; hcbn; auto.
Qed.

(** ** Instance Delete *)

(** C8: Delete invokes exactly two commands, the stop and then the
    delete of the record's name, whatever the stop returns; a failure of
    the stop is logged as a warning; the diagnostics hold the failure of
    the delete when it fails and nothing otherwise, so an error is
    reported exactly when the delete fails. *)
Theorem C8_instance_delete (host : Host) (go : GoRuntime)
  (data : Inst.LimaInstanceResourceModel) (w : World)
  (st : option Inst.LimaInstanceResourceModel) :
  let name := ValueString (Inst.Name data) in
  let '(stopRes, w1) := limactl w ["stop"; name] in
  let '(deleteRes, w2) := limactl w1 ["delete"; name] in
  let r := run (Inst.Delete data) (response w st) in
  executions (trace r) = [(["stop"; name], stopRes); (["delete"; name], deleteRes)]
  /\ logged LvlWarn (trace r) =
     match err stopRes with
     | Some _ => ["Failed to stop Lima instance (may already be stopped)"]
     | None => []
     end
  /\ Diagnostics r =
     match err deleteRes with
     | Some e => [ErrorDiagnostic "Failed to delete Lima instance"
                    (command_failure ("delete " ++ name) e (output deleteRes))]
     | None => []
     end
  /\ (HasError (Diagnostics r) = true <-> err deleteRes <> None).
Proof.
  intros name.
  destruct (limactl w ["stop"; name]) as [stopRes w1] eqn:Hstop.
  destruct (limactl w1 ["delete"; name]) as [deleteRes w2] eqn:Hdel.
  intros r. subst r. unfold run, Inst.Delete, response. hcbn.
  unfold Handler_bind, CombinedOutput, tflog. hcbn. fold name. rewrite Hstop.
  destruct (err stopRes) as [e|]; hcbn; rewrite Hdel;
    destruct (err deleteRes) as [e'|]; hcbn;
    repeat split; try reflexivity; try congruence; try discriminate.
Qed.

(** * Further properties of the handlers *)

(** ** The disk resource *)

(** X1: a disk Update whose planned size is not [Equal] to the size in
    the state and is not below it runs exactly one command,
    [disk resize <name> --size=<planned size>G --tty=false], the size
    printed with [%g]; when the command succeeds nothing is reported and
    the plan is persisted; when it fails its failure is the one
    diagnostic and the state is left as it was. *)
Theorem disk_update_resizes (host : Host) (go : GoRuntime)
  (plan state : Disk.LimaDiskResourceModel) (w : World)
  (st : option Disk.LimaDiskResourceModel) :
  Float64_Equal (Disk.Size plan) (Disk.Size state) = false ->
  SFltb (ValueFloat64 (Disk.Size plan)) (ValueFloat64 (Disk.Size state)) = false ->
  let args := ["disk"; "resize"; ValueString (Disk.Name plan);
               "--size=" ++ fmt_g (ValueFloat64 (Disk.Size plan)) ++ "G";
               "--tty=false"] in
  let res := fst (limactl w args) in
  let r := run (Disk.Update plan state) (response w st) in
  executions (trace r) = [(args, res)]
  /\ world r = snd (limactl w args)
  /\ match err res with
     | None => Diagnostics r = [] /\ State r = Some plan
     | Some e =>
       Diagnostics r =
         [ErrorDiagnostic "Failed to resize Lima disk"
            (command_failure (strings.Join args " ") e (output res))]
       /\ State r = st
     end.
Proof.
  intros Hne Hlt. cbv zeta.
  destruct (limactl w _) as [res w1] eqn:Hl. cbn [fst snd].
  unfold run, Disk.Update, response. hcbn.
  rewrite Hne. hcbn. rewrite Hlt. hcbn.
  unfold Handler_bind, CombinedOutput, tflog. hcbn.
  unfold append. cbn [app]. rewrite Hl. hcbn.
  destruct (err res) as [e|]; hcbn; auto.
Qed.

(** The scenario of the specification: a resize from 10 to 20. *)
Lemma disk_update_resizes_witness :
  executions (trace (play (Disk.Update (go := go_runtime) (test_disk 20) (test_disk 10))
                          [] (Some (test_disk 10))))
  = [(["disk"; "resize"; "test-disk"; "--size=20G"; "--tty=false"], succeeds "")]
  /\ State (play (Disk.Update (go := go_runtime) (test_disk 20) (test_disk 10))
                 [] (Some (test_disk 10))) = Some (test_disk 20).
Proof.
  pose proof (disk_update_resizes scripted go_runtime (test_disk 20) (test_disk 10)
                [] (Some (test_disk 10)) eq_refl eq_refl) as (Hx & _ & H).
  split; [exact Hx | exact (proj2 H)].
Defined.

(** X2: a disk Update whose planned size is [Equal] to the size in the
    state runs no command and logs nothing; it persists the plan, whatever
    its other attributes are. *)
Theorem disk_update_same_size (host : Host) (go : GoRuntime)
  (plan state : Disk.LimaDiskResourceModel) (w : World)
  (st : option Disk.LimaDiskResourceModel) :
  Float64_Equal (Disk.Size plan) (Disk.Size state) = true ->
  let r := run (Disk.Update plan state) (response w st) in
  trace r = [] /\ world r = w /\ Diagnostics r = [] /\ State r = Some plan.
Proof.
  intros He r. subst r. unfold run, Disk.Update, response. hcbn.
  rewrite He. hcbn. auto.
Qed.

(** A plan that differs from the state in its format only. *)
Lemma disk_update_same_size_witness :
  Disk.Format raw_disk <> Disk.Format (test_disk 10)
  /\ trace (play (Disk.Update (go := go_runtime) raw_disk (test_disk 10))
                 [] (Some (test_disk 10))) = []
  /\ State (play (Disk.Update (go := go_runtime) raw_disk (test_disk 10))
                 [] (Some (test_disk 10))) = Some raw_disk.
Proof.
  pose proof (disk_update_same_size scripted go_runtime raw_disk (test_disk 10)
                [] (Some (test_disk 10)) eq_refl) as (Ht & _ & _ & Hs).
  split; [discriminate|]. split; [exact Ht | exact Hs].
Defined.

(** X18: a disk Update whose planned size, rounded to a [float64], is
    strictly less than the size in the state, rounded to a [float64],
    fails with the size-decrease error, which prints the two [float64]s;
    nothing has been done by then (no command, no log entry, the world as
    it was) and the response state is untouched: the prior record is not
    replaced by the plan. *)
Theorem disk_update_rejects_float64_decrease (host : Host) (go : GoRuntime)
  (plan state : Disk.LimaDiskResourceModel) (w : World)
  (st : option Disk.LimaDiskResourceModel) :
  SFltb (ValueFloat64 (Disk.Size plan)) (ValueFloat64 (Disk.Size state)) = true ->
  let r := run (Disk.Update plan state) (response w st) in
  Diagnostics r =
    [ErrorDiagnostic "Cannot decrease disk size"
       ("Disk size can only be increased. Current size: "
        ++ fmt_g (ValueFloat64 (Disk.Size state)) ++ "G, requested size: "
        ++ fmt_g (ValueFloat64 (Disk.Size plan)) ++ "G")]
  /\ trace r = [] /\ world r = w /\ State r = st.
Proof.
  intros Hlt. unfold run, Disk.Update, response. hcbn.
  rewrite (lt_not_Equal _ _ Hlt). hcbn. rewrite Hlt. hcbn. auto.
Qed.

(** The scenario of the specification: a resize from 20 to 10. *)
Lemma disk_update_rejects_float64_decrease_witness :
  SFltb (ValueFloat64 (Disk.Size (test_disk 10)))
        (ValueFloat64 (Disk.Size (test_disk 20))) = true
  /\ Diagnostics (play (Disk.Update (go := go_runtime) (test_disk 10) (test_disk 20))
                       [] (Some (test_disk 20)))
     = [ErrorDiagnostic "Cannot decrease disk size"
          "Disk size can only be increased. Current size: 20G, requested size: 10G"]
  /\ trace (play (Disk.Update (go := go_runtime) (test_disk 10) (test_disk 20))
                 [] (Some (test_disk 20))) = []
  /\ State (play (Disk.Update (go := go_runtime) (test_disk 10) (test_disk 20))
                 [] (Some (test_disk 20))) = Some (test_disk 20).
Proof.
  pose proof (disk_update_rejects_float64_decrease scripted go_runtime
                (test_disk 10) (test_disk 20) [] (Some (test_disk 20)) eq_refl)
    as (Hd & Ht & _ & Hs).
  split; [reflexivity|]. split; [exact Hd|]. split; [exact Ht | exact Hs].
Defined.

(** X3: a disk Delete runs exactly one command, [disk delete <name>]; its
    failure is the one diagnostic when it fails, nothing is reported
    otherwise, and the response state is never touched. *)
Theorem disk_delete_runs_one_command (host : Host) (go : GoRuntime)
  (data : Disk.LimaDiskResourceModel) (w : World)
  (st : option Disk.LimaDiskResourceModel) :
  let name := ValueString (Disk.Name data) in
  let res := fst (limactl w ["disk"; "delete"; name]) in
  let r := run (Disk.Delete data) (response w st) in
  executions (trace r) = [(["disk"; "delete"; name], res)]
  /\ world r = snd (limactl w ["disk"; "delete"; name])
  /\ Diagnostics r =
     match err res with
     | Some e => [ErrorDiagnostic "Failed to delete Lima disk"
                    (command_failure ("disk delete " ++ name) e (output res))]
     | None => []
     end
  /\ State r = st.
Proof.
  cbv zeta. destruct (limactl w _) as [res w1] eqn:Hl. cbn [fst snd].
  unfold run, Disk.Delete, response. hcbn.
  unfold Handler_bind, CombinedOutput, tflog. hcbn. rewrite Hl. hcbn.
  destruct (err res) as [e|]; hcbn; auto.
Qed.

(** X4: for the disk resource, the response state follows the
    diagnostics. Create and Update leave the state as it was when they
    report an error and persist the record otherwise (Create the plan with
    its identifier set to the name, Update the plan); Read leaves the state
    as it was when it reports an error and otherwise keeps the stored
    record or removes it; Delete never touches the state. *)
Theorem disk_state_follows_diagnostics (host : Host) (go : GoRuntime)
  (w : World) (st : option Disk.LimaDiskResourceModel) :
  (forall data,
      let r := run (Disk.Create data) (response w st) in
      State r = if HasError (Diagnostics r) then st
                else Some (Disk.set_Id data (Disk.Name data)))
  /\ (forall data,
         let r := run (Disk.Read data) (response w st) in
         if HasError (Diagnostics r) then State r = st
         else State r = Some data \/ State r = None)
  /\ (forall plan state,
         let r := run (Disk.Update plan state) (response w st) in
         State r = if HasError (Diagnostics r) then st else Some plan)
  /\ (forall data, State (run (Disk.Delete data) (response w st)) = st).
Proof.
  repeat split.
  - intros data r. subst r. unfold run, Disk.Create, response. hcbn.
    unfold Handler_bind, CombinedOutput, tflog. hcbn.
    destruct (limactl w _) as [res w1]. hcbn. destruct (err res); reflexivity.
  - intros data r. subst r.
    destruct (limactl w ["disk"; "list"; "--json"]) as [res w'] eqn:Hl.
    rewrite (disk_Read_run data w st _ _ Hl). cbv zeta.
    destruct (err res); [reflexivity|]. destruct (scan _ _); cbn; auto.
  - intros plan state r. subst r. unfold run, Disk.Update, response. hcbn.
    destruct (Float64_Equal _ _); hcbn; [reflexivity|].
    destruct (SFltb _ _); hcbn; [reflexivity|].
    unfold Handler_bind, CombinedOutput, tflog. hcbn.
    destruct (limactl w _) as [res w1]. hcbn. destruct (err res); reflexivity.
  - intros data. unfold run, Disk.Delete, response. hcbn.
    unfold Handler_bind, CombinedOutput, tflog. hcbn.
    destruct (limactl w _) as [res w1]. hcbn. destruct (err res); reflexivity.
Qed.

(** ** Read *)

(** X5: Read (of a disk and of an instance) runs exactly one command,
    the listing, whatever it returns and whatever the lines hold; the
    world after Read is the world after that command. *)
Theorem read_runs_only_the_listing (host : Host) (go : GoRuntime) :
  (forall (data : Disk.LimaDiskResourceModel) w st,
      let r := run (Disk.Read data) (response w st) in
      executions (trace r)
      = [(["disk"; "list"; "--json"], fst (limactl w ["disk"; "list"; "--json"]))]
      /\ world r = snd (limactl w ["disk"; "list"; "--json"]))
  /\ (forall (data : Inst.LimaInstanceResourceModel) w st,
         let r := run (Inst.Read data) (response w st) in
         executions (trace r)
         = [(["list"; "--json"], fst (limactl w ["list"; "--json"]))]
         /\ world r = snd (limactl w ["list"; "--json"])).
Proof.
  split; intros data w st r; subst r.
  - destruct (limactl w ["disk"; "list"; "--json"]) as [res w'] eqn:Hl.
    rewrite (disk_Read_run data w st _ _ Hl). cbv zeta.
    destruct (err res); [now cbn|]. destruct (scan _ _); now cbn.
  - destruct (limactl w ["list"; "--json"]) as [res w'] eqn:Hl.
    rewrite (inst_Read_run data w st _ _ Hl). cbv zeta.
    destruct (err res); [now cbn|]. destruct (scan _ _); now cbn.
Qed.

(** X6: when the listing command fails, Read (of a disk and of an
    instance) reports the failure, with the error and the output of the
    command in the detail, as its one diagnostic, and leaves the response
    state as it was: the record is not removed. *)
Theorem read_listing_failure_keeps_record (host : Host) (go : GoRuntime)
  (res : CmdResult) (e : string) :
  err res = Some e ->
  (forall (data : Disk.LimaDiskResourceModel) w w' st,
      limactl w ["disk"; "list"; "--json"] = (res, w') ->
      let r := run (Disk.Read data) (response w st) in
      Diagnostics r = [ErrorDiagnostic "Failed to list Lima disks"
                         ("Error: " ++ e ++ nl ++ "Output: " ++ output res)]
      /\ State r = st)
  /\ (forall (data : Inst.LimaInstanceResourceModel) w w' st,
         limactl w ["list"; "--json"] = (res, w') ->
         let r := run (Inst.Read data) (response w st) in
         Diagnostics r = [ErrorDiagnostic "Failed to list Lima instances"
                            ("Error: " ++ e ++ nl ++ "Output: " ++ output res)]
         /\ State r = st).
Proof.
  intros He. split; intros data w w' st Hl r; subst r.
  - rewrite (disk_Read_run data w st _ _ Hl). cbv zeta. rewrite He. now cbn.
  - rewrite (inst_Read_run data w st _ _ Hl). cbv zeta. rewrite He. now cbn.
Qed.

(** The [limactl] binary is missing. *)
Lemma read_listing_failure_keeps_record_witness :
  Diagnostics (play (Disk.Read (go := go_runtime) (test_disk 10)) [no_limactl]
                    (Some (test_disk 10)))
  = [ErrorDiagnostic "Failed to list Lima disks"
       ("Error: exec: limactl: executable file not found in $PATH" ++ nl
        ++ "Output: ")]
  /\ State (play (Disk.Read (go := go_runtime) (test_disk 10)) [no_limactl]
                 (Some (test_disk 10))) = Some (test_disk 10)
  /\ State (play (Inst.Read (go := go_runtime) plain_instance) [no_limactl]
                 (Some plain_instance)) = Some plain_instance.
Proof.
  destruct (read_listing_failure_keeps_record scripted go_runtime no_limactl _
              eq_refl) as [Hd Hi].
  destruct (Hd (test_disk 10) [no_limactl] [] (Some (test_disk 10)) eq_refl)
    as [H1 H2].
  destruct (Hi plain_instance [no_limactl] [] (Some plain_instance) eq_refl)
    as [_ H3].
  split; [exact H1|]. split; [exact H2 | exact H3].
Defined.

(** ** Instance Create *)

(** X7: when the lists of the plan convert and the disks marshal, Create
    runs the creation command with [create], the flags of the attributes
    in the order of the source, the disks, [--tty=false] and the template,
    then the start of the name; a creation that fails ends the sequence
    there; a start that fails is followed by the delete of the name; the
    failure is the one diagnostic and the state is left as it was; when
    both succeed nothing is reported and the plan is persisted with its
    identifier set to the name. *)
Theorem create_runs_create_then_start (host : Host) (go : GoRuntime)
  (data : Inst.LimaInstanceResourceModel) (w : World)
  (st : option Inst.LimaInstanceResourceModel) (args : list string) :
  create_args data = Built args ->
  let name := ValueString (Inst.Name data) in
  let '(createRes, w1) := limactl w args in
  let '(startRes, w2) := limactl w1 ["start"; name] in
  let '(deleteRes, w3) := limactl w2 ["delete"; name] in
  let r := run (Inst.Create data) (response w st) in
  let '(cmds, ds, persisted) :=
    create_cycle name args createRes startRes deleteRes in
  executions (trace r) = cmds /\ Diagnostics r = ds
  /\ State r = (if persisted then Some (Inst.set_Id data (Inst.Name data)) else st).
Proof.
  intros Hb name. pose proof (inst_Create_run data w st) as H.
  cbv zeta in H. rewrite Hb in H. exact H.
Qed.

(** An instance from the template [docker] with flags. *)
Lemma create_runs_create_then_start_witness :
  executions (trace (play (Inst.Create (go := go_runtime) docker_instance) [] None))
  = [(["create"; "--name=test-instance"; "--cpus=4"; "--dns=1.1.1.1"; "--rosetta";
       "--tty=false"; "template://docker"], succeeds "");
     (["start"; "test-instance"], succeeds "")]
  /\ State (play (Inst.Create (go := go_runtime) docker_instance) [] None)
     = Some docker_instance.
Proof.
  pose proof (create_runs_create_then_start scripted go_runtime docker_instance
                [] None _ eq_refl) as (Hx & _ & Hs).
  split; [exact Hx | exact Hs].
Defined.

(** X8: when the arguments of the creation command do not build (a list
    of the plan holds a null or unknown element, or the disks do not
    marshal), Create runs no command and logs nothing, leaves the world
    and the response state as they were, and reports one error: the
    conversion error, or the marshalling error. *)
Theorem create_unbuilt_runs_nothing (host : Host) (go : GoRuntime)
  (data : Inst.LimaInstanceResourceModel) (w : World)
  (st : option Inst.LimaInstanceResourceModel) :
  (forall args, create_args data <> Built args) ->
  let r := run (Inst.Create data) (response w st) in
  trace r = [] /\ world r = w /\ State r = st
  /\ Diagnostics r =
     match create_args data with
     | Unmarshalled e =>
       [ErrorDiagnostic "Failed to marshal additional disks" ("Error: " ++ e)]
     | _ => [ValueConversionError]
     end.
Proof.
  intros Hb r. pose proof (inst_Create_run data w st) as H.
  cbv zeta in H. fold r in H.
  destruct (create_args data) as [args| |e]; [now destruct (Hb args)| |];
    rewrite H; cbn; auto.
Qed.

(** A null among the DNS servers. *)
Lemma create_unbuilt_runs_nothing_witness :
  converts (Inst.DNS null_dns_instance) = false
  /\ trace (play (Inst.Create (go := go_runtime) null_dns_instance) [] None) = []
  /\ Diagnostics (play (Inst.Create (go := go_runtime) null_dns_instance) [] None)
     = [ValueConversionError].
Proof.
  assert (Hb : forall args, create_args (go := go_runtime) null_dns_instance
                            <> Built args) by (intros args; discriminate).
  pose proof (create_unbuilt_runs_nothing scripted go_runtime null_dns_instance
                [] None Hb) as (Ht & _ & _ & Hd).
  split; [reflexivity|]. split; [exact Ht | exact Hd].
Defined.

(** ** Instance Update *)

(** X9: when a changed list of the plan that is neither null nor empty
    holds a null or unknown element, Update runs no command and logs
    nothing, leaves the world and the response state as they were, and
    reports the conversion error, whatever the other attributes are. *)
Theorem update_unconverted_runs_nothing (host : Host) (go : GoRuntime)
  (plan state : Inst.LimaInstanceResourceModel) (w : World)
  (st : option Inst.LimaInstanceResourceModel) :
  lists_convert plan state = false ->
  let r := run (Inst.Update plan state) (response w st) in
  trace r = [] /\ world r = w /\ State r = st
  /\ Diagnostics r = [ValueConversionError].
Proof.
  intros Hl r. pose proof (inst_Update_run plan state w st) as H.
  cbv zeta in H. fold r in H. rewrite Hl in H. rewrite H. cbn. auto.
Qed.

(** The DNS servers change to a list that holds a null. *)
Lemma update_unconverted_runs_nothing_witness :
  trace (play (Inst.Update (go := go_runtime) null_dns_instance plain_instance)
              [] (Some plain_instance)) = []
  /\ State (play (Inst.Update (go := go_runtime) null_dns_instance plain_instance)
                 [] (Some plain_instance)) = Some plain_instance
  /\ Diagnostics (play (Inst.Update (go := go_runtime) null_dns_instance plain_instance)
                       [] (Some plain_instance)) = [ValueConversionError].
Proof.
  pose proof (update_unconverted_runs_nothing scripted go_runtime null_dns_instance
                plain_instance [] (Some plain_instance) eq_refl)
    as (Ht & _ & Hs & Hd).
  split; [exact Ht|]. split; [exact Hs | exact Hd].
Defined.

(** X10: the commands of an Update are the first commands, none, one,
    two or all three, of: the stop of the plan's name, the edit of that
    name with the flags of the changed attributes, the start of that
    name. An Update runs no other command: it never creates and never
    deletes. *)
Theorem update_commands_prefix (host : Host) (go : GoRuntime)
  (plan state : Inst.LimaInstanceResourceModel) (w : World)
  (st : option Inst.LimaInstanceResourceModel) :
  let r := run (Inst.Update plan state) (response w st) in
  exists n, commands (trace r) = firstn n (edit_commands plan state).
Proof.
  intros r. pose proof (inst_Update_run plan state w st) as H.
  cbv zeta in H. fold r in H. rewrite commands_executions.
  destruct (lists_convert plan state); [|exists 0; now rewrite H].
  destruct (0 <? _)%nat; [|exists 0; now rewrite H].
  destruct (limactl w _) as [stopRes w1].
  destruct (limactl w1 _) as [editRes w2].
  destruct (limactl w2 _) as [startRes w3].
  unfold edit_cycle in H.
  destruct (err stopRes); [exists 1|destruct (err editRes);
    [exists 2|destruct (err startRes); exists 3]];
    destruct H as (-> & _); reflexivity.
Qed.

(** X11: the flags of an edit are flags of a creation: when Update builds
    its arguments for a plan and Create builds its arguments for the same
    plan, the flags of the edit (its arguments after [edit] and the name)
    are a subsequence of the arguments of the creation: each attribute is
    written the same way by both, in the same order. *)
Theorem edit_flags_are_creation_flags (host : Host) (go : GoRuntime)
  (plan state : Inst.LimaInstanceResourceModel)
  (r rU rC : Response Inst.LimaInstanceResourceModel)
  (editArgs createArgs : list string) :
  HasError (Diagnostics r) = false ->
  Inst.Update_args plan state r = (Some editArgs, rU) ->
  Inst.Create_args plan r = (Some createArgs, rC) ->
  subsequence (skipn 2 editArgs) createArgs.
Proof.
  intros Hr HU HC.
  rewrite (Update_args_run _ _ _ Hr) in HU.
  rewrite (Create_args_run _ _ Hr) in HC.
  destruct (lists_convert plan state); [|discriminate].
  injection HU as <- _. cbn [skipn].
  unfold create_args in HC. destruct (_ && _); [|discriminate].
  destruct (disk_entries _).
  - injection HC as <- _. apply subsequence_skip, subsequence_app_r.
    apply edit_flags_subsequence.
  - destruct (json_Marshal_disks _); [|discriminate]. injection HC as <- _.
    apply subsequence_skip, subsequence_app_r. apply edit_flags_subsequence.
Qed.

(** The edit from [plain_instance] to [docker_instance]. *)
Lemma edit_flags_are_creation_flags_witness :
  subsequence ["--cpus=4"; "--dns=1.1.1.1"; "--rosetta"]
              ["create"; "--name=test-instance"; "--cpus=4"; "--dns=1.1.1.1";
               "--rosetta"; "--tty=false"; "template://docker"].
Proof.
  exact (edit_flags_are_creation_flags scripted go_runtime docker_instance
           plain_instance (@response scripted _ [] None) _ _ _ _
           eq_refl eq_refl eq_refl).
Defined.

(** X12: an Update reads nothing of the two records but the plan's name
    and the attributes that [limactl edit] supports: two Updates whose
    plans have the same name and whose plans and states agree on those
    attributes run the same commands with the same results and report the
    same diagnostics, and either both leave the state as it was or each
    persists its plan. The template, the architecture, the disks and the
    other attributes change nothing. *)
Theorem update_reads_mutable_attributes_only (host : Host) (go : GoRuntime)
  (plan state plan' state' : Inst.LimaInstanceResourceModel) (w : World)
  (st : option Inst.LimaInstanceResourceModel) :
  ValueString (Inst.Name plan) = ValueString (Inst.Name plan') ->
  mutable_view plan = mutable_view plan' ->
  mutable_view state = mutable_view state' ->
  let r := run (Inst.Update plan state) (response w st) in
  let r' := run (Inst.Update plan' state') (response w st) in
  executions (trace r) = executions (trace r')
  /\ Diagnostics r = Diagnostics r'
  /\ (State r = st /\ State r' = st
      \/ State r = Some plan /\ State r' = Some plan').
Proof.
  intros Hn Hp Hs r r'.
  pose proof (inst_Update_run plan state w st) as H.
  pose proof (inst_Update_run plan' state' w st) as H'.
  cbv zeta in H, H'. fold r in H. fold r' in H'.
  rewrite (edit_flags_mutable_view plan' state'),
          (lists_convert_mutable_view plan' state'), <- Hp, <- Hs, <- Hn,
          <- edit_flags_mutable_view, <- lists_convert_mutable_view in H'.
  destruct (lists_convert plan state); [|rewrite H, H'; cbn; auto].
  destruct (0 <? _)%nat; [|rewrite H, H'; cbn; auto].
  destruct (limactl w _) as [stopRes w1].
  destruct (limactl w1 _) as [editRes w2].
  destruct (limactl w2 _) as [startRes w3].
  destruct (edit_cycle _ _ _ _ _) as [[cmds ds] persisted].
  destruct H as (-> & -> & ->), H' as (-> & -> & ->).
  destruct persisted; auto.
Qed.

(** Two plans that differ in the template only. *)
Lemma update_reads_mutable_attributes_only_witness :
  Inst.Template docker_instance <> Inst.Template untemplated_instance
  /\ executions (trace (play (Inst.Update (go := go_runtime) docker_instance
                                          plain_instance) [] (Some plain_instance)))
     = executions (trace (play (Inst.Update (go := go_runtime) untemplated_instance
                                            plain_instance) [] (Some plain_instance))).
Proof.
  pose proof (update_reads_mutable_attributes_only scripted go_runtime
                docker_instance plain_instance untemplated_instance plain_instance
                [] (Some plain_instance) eq_refl eq_refl eq_refl) as (Hx & _).
  split; [discriminate | exact Hx].
Defined.

(** ** The instance resource, handler by handler *)

(** X13: for the instance resource, the response state follows the
    diagnostics. Create and Update leave the state as it was when they
    report an error and persist the record otherwise (Create the plan with
    its identifier set to the name, Update the plan); Read leaves the state
    as it was when it reports an error and otherwise keeps the stored
    record or removes it; Delete never touches the state. *)
Theorem instance_state_follows_diagnostics (host : Host) (go : GoRuntime)
  (w : World) (st : option Inst.LimaInstanceResourceModel) :
  (forall data,
      let r := run (Inst.Create data) (response w st) in
      State r = if HasError (Diagnostics r) then st
                else Some (Inst.set_Id data (Inst.Name data)))
  /\ (forall data,
         let r := run (Inst.Read data) (response w st) in
         if HasError (Diagnostics r) then State r = st
         else State r = Some data \/ State r = None)
  /\ (forall plan state,
         let r := run (Inst.Update plan state) (response w st) in
         State r = if HasError (Diagnostics r) then st else Some plan)
  /\ (forall data, State (run (Inst.Delete data) (response w st)) = st).
Proof.
  repeat split.
  - intros data r. pose proof (inst_Create_run data w st) as H.
    cbv zeta in H. fold r in H.
    destruct (create_args data) as [args| |e]; [|rewrite H; reflexivity..].
    destruct (limactl w _) as [createRes w1].
    destruct (limactl w1 _) as [startRes w2].
    destruct (limactl w2 _) as [deleteRes w3].
    unfold create_cycle in H.
    destruct (err createRes); [|destruct (err startRes)];
      destruct H as (_ & -> & ->); reflexivity.
  - intros data r. subst r.
    destruct (limactl w ["list"; "--json"]) as [res w'] eqn:Hl.
    rewrite (inst_Read_run data w st _ _ Hl). cbv zeta.
    destruct (err res); [reflexivity|]. destruct (scan _ _); cbn; auto.
  - intros plan state r. pose proof (inst_Update_run plan state w st) as H.
    cbv zeta in H. fold r in H.
    destruct (lists_convert plan state); [|rewrite H; reflexivity].
    destruct (0 <? _)%nat; [|rewrite H; reflexivity].
    destruct (limactl w _) as [stopRes w1].
    destruct (limactl w1 _) as [editRes w2].
    destruct (limactl w2 _) as [startRes w3].
    unfold edit_cycle in H.
    destruct (err stopRes); [|destruct (err editRes); [|destruct (err startRes)]];
      destruct H as (_ & -> & ->); reflexivity.
  - intros data. unfold run, Inst.Delete, response. hcbn.
    unfold Handler_bind, CombinedOutput, tflog. hcbn.
    destruct (limactl w _) as [stopRes w1]. hcbn.
    destruct (err stopRes); hcbn; destruct (limactl w1 _) as [deleteRes w2]; hcbn;
      destruct (err deleteRes); reflexivity.
Qed.

(** ** Import *)

(** X14: an import (of a disk and of an instance) into the null state
    runs no command and reports nothing; it leaves the record whose
    identifier is the import identifier, whose name is the import
    identifier when that is not empty and null when it is empty, and whose
    other attributes are null. A Read of that record, against a listing
    whose lines all parse, keeps it unchanged when a line names the
    identifier and removes it otherwise. *)
Theorem import_then_read (host : Host) (go : GoRuntime) (id out : string) :
  all_parse (listing_lines out) = true ->
  (forall w w',
      limactl w ["disk"; "list"; "--json"] = (succeeds out, w') ->
      let imported := run (Disk.ImportState id) (response w None) in
      let r := run (Disk.Read (imported_disk id)) (response w (State imported)) in
      imported = {| world := w; trace := []; Diagnostics := [];
                    State := Some (imported_disk id) |}
      /\ Diagnostics r = []
      /\ State r = (if name_listed id (listing_lines out)
                    then Some (imported_disk id) else None))
  /\ (forall w w',
         limactl w ["list"; "--json"] = (succeeds out, w') ->
         let imported := run (Inst.ImportState id) (response w None) in
         let r := run (Inst.Read (imported_instance id))
                      (response w (State imported)) in
         imported = {| world := w; trace := []; Diagnostics := [];
                       State := Some (imported_instance id) |}
         /\ Diagnostics r = []
         /\ State r = (if name_listed id (listing_lines out)
                       then Some (imported_instance id) else None)).
Proof.
  assert (Hname : ValueString (imported_name id) = id).
  { unfold imported_name. destruct (String.eqb_spec id ""); [now subst | reflexivity]. }
  intros Hall. split; intros w w' Hl imported r; subst r imported.
  - split.
    { unfold run, Disk.ImportState, ImportStatePassthroughID, imported_disk,
        imported_name, response.
      destruct (String.eqb id ""); reflexivity. }
    rewrite (disk_Read_run _ w _ _ _ Hl). cbn [succeeds err output]. cbv zeta.
    rewrite (scan_all_parse _ _ Hall). cbn [imported_disk Disk.Name].
    rewrite Hname. destruct (name_listed _ _); cbn; auto.
  - split.
    { unfold run, Inst.ImportState, ImportStatePassthroughID, imported_instance,
        imported_name, response.
      destruct (String.eqb id ""); reflexivity. }
    rewrite (inst_Read_run _ w _ _ _ Hl). cbn [succeeds err output]. cbv zeta.
    rewrite (scan_all_parse _ _ Hall).
    change (ValueString (Inst.Name (imported_instance id)))
      with (ValueString (imported_name id)).
    rewrite Hname. destruct (name_listed _ _); cbn; auto.
Qed.

(** The import of [test-disk], listed and not listed, and the import of
    the empty identifier. *)
Lemma import_then_read_witness :
  State (play (Disk.ImportState "test-disk") [] None)
  = Some (imported_disk "test-disk")
  /\ State (play (Disk.Read (go := go_runtime) (imported_disk "test-disk"))
                 [succeeds (listing_of "test-disk")]
                 (Some (imported_disk "test-disk")))
     = Some (imported_disk "test-disk")
  /\ State (play (Inst.Read (go := go_runtime) (imported_instance "test-disk"))
                 [succeeds (listing_of "other-disk")]
                 (Some (imported_instance "test-disk")))
     = None
  /\ State (play (Disk.ImportState "") [] None)
     = Some {| Disk.Name := Null; Disk.Size := Null; Disk.Format := Null;
               Disk.Id := Known "" |}.
Proof.
  destruct (import_then_read scripted go_runtime "test-disk"
              (listing_of "test-disk") eq_refl) as [Hd _].
  destruct (Hd [succeeds (listing_of "test-disk")] [] eq_refl) as (H1 & _ & H2).
  destruct (import_then_read scripted go_runtime "test-disk"
              (listing_of "other-disk") eq_refl) as [_ Hi].
  destruct (Hi [succeeds (listing_of "other-disk")] [] eq_refl) as (_ & _ & H3).
  destruct (import_then_read scripted go_runtime ""
              (listing_of "other-disk") eq_refl) as [He _].
  destruct (He [succeeds (listing_of "other-disk")] [] eq_refl) as (H4 & _).
  split; [exact (f_equal State H1)|]. split; [exact H2|].
  split; [exact H3 | exact (f_equal State H4)].
Defined.

(** ** Metadata *)

(** X15: the type name of the disk resource and the type name of the
    instance resource differ, whatever the provider type names they are
    built from. *)
Theorem type_names_differ (p q : string) :
  String.eqb (Disk.Metadata p) (Inst.Metadata q) = false.
Proof.
  apply String.eqb_neq. unfold Disk.Metadata, Inst.Metadata. intros H.
  apply (f_equal (fun s => last_byte s "x"%char)) in H.
  rewrite !last_byte_append in H. discriminate.
Qed.

(** ** The JSON of the provider *)

(** X16: marshalling the disks never fails, and what it writes is valid
    JSON for the scanner of the decoder, whatever bytes the names and the
    mount points hold (quotes, backslashes, control bytes, bytes that are
    not UTF-8): the value of [--set=.additionalDisks=] is well formed. *)
Theorem marshalled_disks_are_valid_json (ds : list diskJSON) :
  exists bytes, json.Marshal_disks ds = Ok bytes /\ json.Valid bytes = true.
Proof.
  destruct ds as [|d ds]; [exists "null"; split; reflexivity|].
  eexists. split; [reflexivity|]. unfold json.Valid, json.checkValid.
  cbn [String.append]. unfold json.reset. scan_byte.
  fold (in_array json.stateBeginValueOrEmpty).
  rewrite concat_fold, scan_encode_disk by auto.
  rewrite scan_more_disks. reflexivity.
Qed.

(** X17: decoding inverts encoding on the name: for a disk whose name and
    mount point are made of ASCII bytes, the decoder of Read, run on the
    object that Create marshals for the disk, yields the name of the disk,
    escapes undone. *)
Theorem encoded_name_decodes (d : diskJSON) :
  ascii_only (dj_Name d) = true ->
  ascii_only (dj_MountPoint d) = true ->
  json.Unmarshal_name (json.encode_disk d) = Ok (dj_Name d).
Proof.
  intros Hn Hm. unfold json.Unmarshal_name. rewrite checkValid_encode_disk.
  unfold json.encode_disk, json.appendString.
  repeat (rewrite ?string_app_assoc; cbn [String.append]).
  cbn -[json.escape json.string_body].
  change 4 with (String.length "name").
  change 10 with (String.length "mountPoint").
  rewrite (string_body_escape "name") by reflexivity. cbn -[json.escape json.string_body].
  rewrite (string_body_escape (dj_Name d)) by assumption. cbn -[json.escape json.string_body].
  rewrite (string_body_escape "mountPoint") by reflexivity. cbn -[json.escape json.string_body].
  rewrite (string_body_escape (dj_MountPoint d)) by assumption.
  cbn -[json.escape json.unquoteBytes].
  replace (json.unquoteBytes (json.escape 4 "name")) with "name" by (vm_compute; reflexivity).
  replace (json.unquoteBytes (json.escape 10 "mountPoint")) with "mountPoint"
    by (vm_compute; reflexivity).
  cbn -[json.escape json.unquoteBytes]. now rewrite unquoteBytes_escape.
Qed.

(** A name with angle brackets, a mount point with a quote and a backslash. *)
Lemma encoded_name_decodes_witness :
  json.encode_disk quoted_disk
  = dq "{'name':'data\u003c1\u003e','mountPoint':'/mnt/\'d\\'}"
  /\ json.Unmarshal_name (json.encode_disk quoted_disk) = Ok "data<1>".
Proof.
  split; [reflexivity|].
  exact (encoded_name_decodes quoted_disk eq_refl eq_refl).
Defined.

(** * Scenarios

    The scenarios of the specification, and the Go runtime on a few
    inputs, evaluated. *)

Example create_instance_scenario :
  commands (trace (play (Inst.Create (go := go_runtime) plain_instance) [] None))
  = [["create"; "--name=test-instance"; "--tty=false"];
     ["start"; "test-instance"]].
Proof. reflexivity. Qed.

Example resize_disk_scenario :
  commands (trace (play (Disk.Update (go := go_runtime) (test_disk 20) (test_disk 10))
                        [] (Some (test_disk 10))))
  = [["disk"; "resize"; "test-disk"; "--size=20G"; "--tty=false"]].
Proof. reflexivity. Qed.

Example read_disk_scenario :
  State (play (Disk.Read (go := go_runtime) (test_disk 10))
              [succeeds (dq "{'name':'test-disk'}")] (Some (test_disk 10)))
  = Some (test_disk 10)
  /\ State (play (Disk.Read (go := go_runtime) (test_disk 10))
                 [succeeds (dq "{'name':'another'}")] (Some (test_disk 10)))
     = None.
Proof. split; reflexivity. Qed.

Example template_url_scenario :
  commands (trace (play (Inst.Create (go := go_runtime)
                           (from_template "https://example.com/alpine.yaml"))
                        [] None))
  = [["create"; "--name=test-instance"; "--tty=false";
      "https://example.com/alpine.yaml"];
     ["start"; "test-instance"]].
Proof. reflexivity. Qed.

Example template_file_scenario :
  hd [] (commands (trace (play (Inst.Create (go := go_runtime)
                                  (from_template "./lima/dev.yaml"))
                               [] None)))
  = ["create"; "--name=test-instance"; "--tty=false"; "./lima/dev.yaml"].
Proof. reflexivity. Qed.

Example create_with_flags_scenario :
  hd [] (commands (trace (play (Inst.Create (go := go_runtime)
                                  (test_instance (Known "docker") (Known 4%Z)
                                     (Known [Known "1.1.1.1"; Known "8.8.8.8"])
                                     (Known true)))
                               [] None)))
  = ["create"; "--name=test-instance"; "--cpus=4"; "--dns=1.1.1.1";
     "--dns=8.8.8.8"; "--rosetta"; "--tty=false"; "template://docker"].
Proof. reflexivity. Qed.

(** A null element in a list stops Create before any command. *)
Example create_null_element_scenario :
  commands (trace (play (Inst.Create (go := go_runtime)
                           (test_instance Null Null (Known [Known "1.1.1.1"; Null])
                                          (Known false)))
                        [] None)) = []
  /\ Diagnostics (play (Inst.Create (go := go_runtime)
                          (test_instance Null Null (Known [Known "1.1.1.1"; Null])
                                         (Known false)))
                       [] None) = [ValueConversionError].
Proof. split; reflexivity. Qed.

Example FormatFloat_g_examples :
  map strconv.FormatFloat_g
      [strconv.float64_of 10 0; strconv.float64_of 21 (-1);
       strconv.float64_of 100000 0; strconv.float64_of 1000000 0;
       strconv.float64_of 1 (-1074); S754_zero false; S754_infinity false;
       S754_finite false 7205759403792794 (-56)]
  = ["10"; "10.5"; "100000"; "1e+06"; "5e-324"; "0"; "+Inf"; "0.1"].
Proof. vm_compute. reflexivity. Qed.

Example Unmarshal_name_examples :
  map json.Unmarshal_name
      [dq "{'name':'default','status':'Running','cpus':4}";
       dq "{'Name':'a','dir':{'name':'b'}}";
       dq "{'name':'a','name':null}";
       dq "{}"; dq "null"; dq "{'name':'a'"]
  = [Ok "default"; Ok "a"; Ok "a"; Ok ""; Ok "";
     Err "unexpected end of JSON input"].
Proof. vm_compute. reflexivity. Qed.

Example Marshal_disks_example :
  json.Marshal_disks [{| dj_Name := "data"; dj_MountPoint := "/mnt/data" |}]
  = Ok (dq "[{'name':'data','mountPoint':'/mnt/data'}]").
Proof. reflexivity. Qed.

Example TrimSpace_examples :
  map strings.TrimSpace ["  a b  "; nl ++ "x" ++ nl ++ nl; "   "; ""]
  = ["a b"; "x"; ""; ""].
Proof. reflexivity. Qed.

(** Numbers as stored: two writings of 10 are one number, and 10 + 2^-60
    is another number with the same [float64]. *)
Example stored_number_examples :
  big.Cmp (big.finite false 20 (-1)) (big.SetInt64 10) = Eq
  /\ big.Float64 (big.finite false 20 (-1)) = big.Float64 (big.SetInt64 10)
  /\ big.Cmp above_10 (big.SetInt64 10) = Gt
  /\ big.Float64 above_10 = strconv.float64_of 10 0
  /\ strconv.FormatFloat_g (big.Float64 above_10) = "10"
  /\ strconv.FormatFloat_g (big.Float64 (big.finite false 101 (-1))) = "50.5".
Proof. repeat split; vm_compute; reflexivity. Qed.
